(** * InstaDeploy control plane: connection manager, job and deployment records

    A shallow embedding of [control-plane/manager.py], [models.py],
    [schemas.py] and the handlers of [main.py].

    - The two dictionaries of [ConnectionManager] are [gmap]s keyed by the
      agent id.
    - The three SQL tables are lists of rows in row order, so that
      [select(...).first()] is the first matching row and
      [order_by(created_at.desc())] is a stable sort.
    - Calls on a websocket ([accept], [send_text], [close]) are recorded as
      a trace of events; whether [accept] or [send_text] raises is an input
      of the operation.
    - [datetime.utcnow()] and [uuid.uuid4()] are inputs of the operation that
      reads them, one input per call.
    - Every handler runs from its first to its last line without another
      handler in between; the [while True] loop of [websocket_endpoint] is
      cut into its three phases: opening, one iteration per reply, and the
      [finally] block. *)

From stdpp Require Import gmap strings list fin_maps.
From Stdlib Require Import ZArith Ascii String Lia.

#[local] Open Scope string_scope.
#[local] Open Scope Z_scope.

(** ** Python values *)

Definition datetime := Z.

(** A websocket object, known by its identity. *)
Definition WebSocket := nat.

(** Truth value of an [Optional[int]]: [None] and [0] are false. *)
Definition truthy_int (o : option Z) : bool :=
  match o with
  | Some n => negb (n =? 0)
  | None => false
  end.

(** [a or b] on an [Optional[int]] and an [int]. *)
Definition int_or (o : option Z) (d : Z) : Z :=
  match o with
  | Some n => if n =? 0 then d else n
  | None => d
  end.

(** [a or b] on an [Optional[str]] and a [str]: [None] and the empty string
    are false. *)
Definition str_or (o : option string) (d : string) : string :=
  match o with
  | Some EmptyString => d
  | Some s => s
  | None => d
  end.

(** [str.lower] on ASCII text. *)
Definition lower_ascii (c : ascii) : ascii :=
  let n := nat_of_ascii c in
  if (Nat.leb 65 n && Nat.leb n 90)%bool then ascii_of_nat (n + 32) else c.

Fixpoint lower (s : string) : string :=
  match s with
  | EmptyString => EmptyString
  | String c s' => String (lower_ascii c) (lower s')
  end.

(** ** schemas.py *)

Inductive CommandType := DEPLOY_COMPOSE | STOP_COMPOSE | STATUS | HEALTH_CHECK.

Inductive ResponseStatus := COMPLETED | FAILED | IN_PROGRESS | QUEUED.

Module CommandTypeEnum.
Definition value (c : CommandType) : string :=
  match c with
  | DEPLOY_COMPOSE => "DEPLOY_COMPOSE"
  | STOP_COMPOSE => "STOP_COMPOSE"
  | STATUS => "STATUS"
  | HEALTH_CHECK => "HEALTH_CHECK"
  end.
End CommandTypeEnum.

Module ResponseStatusEnum.
Definition value (s : ResponseStatus) : string :=
  match s with
  | COMPLETED => "COMPLETED"
  | FAILED => "FAILED"
  | IN_PROGRESS => "IN_PROGRESS"
  | QUEUED => "QUEUED"
  end.

Definition eqb (a b : ResponseStatus) : bool :=
  match a, b with
  | COMPLETED, COMPLETED | FAILED, FAILED
  | IN_PROGRESS, IN_PROGRESS | QUEUED, QUEUED => true
  | _, _ => false
  end.
End ResponseStatusEnum.

Inductive Payload :=
  | DeployPayload (project_name compose_file_base64 : string)
  | StopPayload (project_name : string)
  | StatusPayload (project_name : string).

Module Command.
Record t := mk { id : string; type : CommandType; payload : Payload }.
End Command.

Module Response.
Record t := mk {
  job_id : string;
  status : ResponseStatus;
  logs : string;
  error : option string;
  data : option string
}.
End Response.

Module DeployRequest.
Record t := mk {
  project_name : string;
  compose_file_base64 : string;
  agent_id : option Z
}.
End DeployRequest.

Module StopRequest.
Record t := mk { agent_id : option Z }.
End StopRequest.

Module DeployResponse.
Record t := mk {
  job_id : string;
  deployment_id : Z;
  status : string;
  message : string
}.
End DeployResponse.

Module StopResponse.
Record t := mk { job_id : string; status : string; message : string }.
End StopResponse.

Module StatusResponse.
Record t := mk { job_id : string; status : string; logs : string }.
End StatusResponse.

(** ** models.py *)

Module Agent.
Record t := mk {
  id : Z;
  hostname : string;
  ip_address : option string;
  status : string;
  last_seen : datetime;
  version : option string;
  architecture : option string;
  created_at : datetime
}.
End Agent.

Module Deployment.
Record t := mk {
  id : Z;
  project_name : string;
  agent_id : Z;
  status : string;
  compose_file_hash : option string;
  created_at : datetime;
  updated_at : datetime;
  last_logs : option string;
  last_error : option string
}.
End Deployment.

Module Job.
Record t := mk {
  id : string;
  deployment_id : option Z;
  agent_id : Z;
  command_type : string;
  status : string;
  logs : option string;
  error : option string;
  created_at : datetime;
  updated_at : datetime
}.
End Job.

(** ** manager.py *)

(** Calls made on websocket objects, in the order they are made. *)
Inductive event :=
  | EvAccept (ws : WebSocket)
  | EvSendText (ws : WebSocket) (command : Command.t)
  | EvClose (ws : WebSocket) (code : Z).

Module ConnectionManager.

Record t := mk {
  active_connections : gmap Z WebSocket;
  agent_hostnames : gmap Z string
}.

(** [__init__] *)
Definition init : t := mk ∅ ∅.

(** [connect]: [accept_ok = false] is [websocket.accept()] raising, which
    leaves the method before either dictionary is written. *)
Definition connect (agent_id : Z) (hostname : string) (websocket : WebSocket)
    (accept_ok : bool) (self : t) : t * list event :=
  if accept_ok then
    (mk (<[agent_id := websocket]> (active_connections self))
        (<[agent_id := hostname]> (agent_hostnames self)),
     [EvAccept websocket])
  else (self, []).

Definition disconnect (agent_id : Z) (self : t) : t :=
  match active_connections self !! agent_id with
  | Some _ =>
      mk (delete agent_id (active_connections self))
         (match agent_hostnames self !! agent_id with
          | Some _ => delete agent_id (agent_hostnames self)
          | None => agent_hostnames self
          end)
  | None => self
  end.

(** [send_command]: [send_ok = false] is an exception inside the [try]
    block ([model_dump_json] or [send_text] raising). *)
Definition send_command (agent_id : Z) (command : Command.t)
    (send_ok : bool) (self : t) : t * bool * list event :=
  match active_connections self !! agent_id with
  | None => (self, false, [])
  | Some websocket =>
      if send_ok then (self, true, [EvSendText websocket command])
      else (disconnect agent_id self, false, [])
  end.

Definition is_connected (agent_id : Z) (self : t) : bool :=
  bool_decide (is_Some (active_connections self !! agent_id)).

End ConnectionManager.

(** A call on the connection manager, with what its websocket call does. *)
Inductive manager_op :=
  | MConnect (agent_id : Z) (hostname : string) (websocket : WebSocket)
      (accept_ok : bool)
  | MDisconnect (agent_id : Z)
  | MSendCommand (agent_id : Z) (command : Command.t) (send_ok : bool).

Definition manager_step (o : manager_op) (m : ConnectionManager.t)
    : ConnectionManager.t :=
  match o with
  | MConnect a h ws ok => fst (ConnectionManager.connect a h ws ok m)
  | MDisconnect a => ConnectionManager.disconnect a m
  | MSendCommand a c ok => fst (fst (ConnectionManager.send_command a c ok m))
  end.

Definition manager_run (ops : list manager_op) (m : ConnectionManager.t)
    : ConnectionManager.t :=
  fold_left (fun m o => manager_step o m) ops m.

(** ** The database (database.py, models.py)

    One list of rows per table, in row order. *)

Record Database := mkDatabase {
  agents : list Agent.t;
  deployments : list Deployment.t;
  jobs : list Job.t
}.

Definition empty_db : Database := mkDatabase [] [] [].

(** The integer primary key handed out on insert: one more than the largest
    key of the table, [1] on an empty table. *)
Definition next_id (ids : list Z) : Z := 1 + foldr Z.max 0 ids.

(** [select(Agent).where(Agent.hostname == hostname)] then [.first()] *)
Definition select_agent_by_hostname (hostname : string) (db : Database)
    : option Agent.t :=
  List.find (fun a => String.eqb (Agent.hostname a) hostname) (agents db).

(** [select(Agent).where(Agent.id == agent_id)] then [.first()] *)
Definition select_agent_by_id (agent_id : Z) (db : Database) : option Agent.t :=
  List.find (fun a => Agent.id a =? agent_id) (agents db).

(** [select(Agent).where(Agent.status == "online")] then [.first()] *)
Definition select_online_agent (db : Database) : option Agent.t :=
  List.find (fun a => String.eqb (Agent.status a) "online") (agents db).

(** [select(Job).where(Job.id == job_id)] then [.first()] *)
Definition select_job (job_id : string) (db : Database) : option Job.t :=
  List.find (fun j => String.eqb (Job.id j) job_id) (jobs db).

(** [select(Deployment).where(Deployment.id == deployment_id)] then
    [.first()] *)
Definition select_deployment (deployment_id : Z) (db : Database)
    : option Deployment.t :=
  List.find (fun d => Deployment.id d =? deployment_id) (deployments db).

(** [UPDATE ... WHERE id = ?], as the session writes a modified row back. *)
Definition update_agent (agent_id : Z) (f : Agent.t -> Agent.t)
    (db : Database) : Database :=
  mkDatabase
    (map (fun a => if Agent.id a =? agent_id then f a else a) (agents db))
    (deployments db) (jobs db).

Definition update_deployment (deployment_id : Z)
    (f : Deployment.t -> Deployment.t) (db : Database) : Database :=
  mkDatabase (agents db)
    (map (fun d => if Deployment.id d =? deployment_id then f d else d)
       (deployments db))
    (jobs db).

Definition update_job (job_id : string) (f : Job.t -> Job.t)
    (db : Database) : Database :=
  mkDatabase (agents db) (deployments db)
    (map (fun j => if String.eqb (Job.id j) job_id then f j else j) (jobs db)).

Definition insert_agent (a : Agent.t) (db : Database) : Database :=
  mkDatabase (agents db ++ [a]) (deployments db) (jobs db).

Definition insert_deployment (d : Deployment.t) (db : Database) : Database :=
  mkDatabase (agents db) (deployments db ++ [d]) (jobs db).

(** [Job.id] is a primary key chosen by the caller: inserting a key that is
    already there fails ([None], an [IntegrityError] at commit). *)
Definition insert_job (j : Job.t) (db : Database) : option Database :=
  match select_job (Job.id j) db with
  | Some _ => None
  | None => Some (mkDatabase (agents db) (deployments db) (jobs db ++ [j]))
  end.

(** [order_by(Deployment.created_at.desc())]: a stable sort, latest first. *)
Fixpoint insert_desc (d : Deployment.t) (l : list Deployment.t)
    : list Deployment.t :=
  match l with
  | [] => [d]
  | x :: l' =>
      if Deployment.created_at d <? Deployment.created_at x
      then x :: insert_desc d l'
      else d :: l
  end.

Definition order_by_created_at_desc (l : list Deployment.t)
    : list Deployment.t :=
  foldr insert_desc [] l.

(** [select(Deployment).where(Deployment.project_name == project_name)
    .order_by(Deployment.created_at.desc())] then [.first()] *)
Definition select_latest_deployment (project_name : string) (db : Database)
    : option Deployment.t :=
  head (order_by_created_at_desc
          (List.filter
             (fun d => String.eqb (Deployment.project_name d) project_name)
             (deployments db))).

(** ** main.py *)

Record State := mkState {
  store : Database;
  connection_manager : ConnectionManager.t
}.

Definition initial_state : State := mkState empty_db ConnectionManager.init.

(** The [detail] of an [HTTPException]. *)
Inductive detail :=
  | AgentNotFound                       (* "Agent not found" *)
  | NoAgentsAvailable                   (* "No agents available" *)
  | AgentNotConnected (agent_id : Z)    (* "Agent {id} is not connected" *)
  | FailedToSend                        (* "Failed to send command to agent" *)
  | ProjectNotFound.                    (* "Project not found" *)

(** What a REST handler gives back: its response model, an [HTTPException],
    the [IntegrityError] of a duplicate job id, or the [OverflowError] of an
    integer that the database driver cannot bind. *)
Inductive result (A : Type) :=
  | Ok (a : A)
  | HTTPException (status_code : Z) (d : detail)
  | IntegrityError
  | OverflowError.
Arguments Ok {A} a.
Arguments HTTPException {A} status_code d.
Arguments IntegrityError {A}.
Arguments OverflowError {A}.

(** The handshake of an agent, as [websocket_endpoint] receives it.
    [authorized] is the value of [verify_agent_token(authorization)]. *)
Record Handshake := mkHandshake {
  authorized : bool;
  x_agent_version : option string;
  x_agent_architecture : option string;
  x_agent_hostname : option string;
  client_host : option string
}.

(** [websocket_endpoint], lines 95-126: register or update the agent row and
    give its id. [t_seen] is the [utcnow()] written to [last_seen];
    [t_created] the one of the [created_at] default of a new row. *)
Definition register_agent (hostname version architecture : string)
    (client_host : option string) (t_seen t_created : datetime)
    (db : Database) : Database * Z :=
  match select_agent_by_hostname hostname db with
  | Some agent =>
      (update_agent (Agent.id agent)
         (fun a => Agent.mk (Agent.id a) (Agent.hostname a) client_host
                     "online" t_seen (Some version) (Some architecture)
                     (Agent.created_at a))
         db,
       Agent.id agent)
  | None =>
      let agent_id := next_id (map Agent.id (agents db)) in
      (insert_agent
         (Agent.mk agent_id hostname client_host "online" t_seen
            (Some version) (Some architecture) t_created)
         db,
       agent_id)
  end.

(** Line 85: the hostname header, or [unknown]. *)
Definition handshake_hostname (h : Handshake) : string :=
  str_or (x_agent_hostname h) "unknown".

(** [websocket_endpoint] up to the [try]: the token check, the agent row and
    [connection_manager.connect]. Gives the agent id the read loop runs
    with, or [None] when the handler ended (rejected, or [accept] raised). *)
Definition ws_open (h : Handshake) (websocket : WebSocket) (accept_ok : bool)
    (t_seen t_created : datetime) (st : State)
    : State * option Z * list event :=
  if negb (authorized h) then (st, None, [EvClose websocket 1008])
  else
    let hostname := handshake_hostname h in
    let version := str_or (x_agent_version h) "unknown" in
    let architecture := str_or (x_agent_architecture h) "unknown" in
    let '(db', agent_id) :=
      register_agent hostname version architecture (client_host h)
        t_seen t_created (store st) in
    let '(cm', evs) :=
      ConnectionManager.connect agent_id hostname websocket accept_ok
        (connection_manager st) in
    (mkState db' cm', if accept_ok then Some agent_id else None, evs).

(** The status a reply gives the deployment of its job (lines 157-163). *)
Definition reply_deployment_status (status : ResponseStatus)
    (command_type : string) (old : string) : string :=
  if ResponseStatusEnum.eqb status COMPLETED then
    if String.eqb command_type (CommandTypeEnum.value DEPLOY_COMPOSE)
    then "running"
    else if String.eqb command_type (CommandTypeEnum.value STOP_COMPOSE)
    then "stopped"
    else old
  else if ResponseStatusEnum.eqb status FAILED then "failed"
  else old.

(** Lines 146-149: the job row after a reply. *)
Definition job_of_reply (response : Response.t) (t_job : datetime)
    (j : Job.t) : Job.t :=
  Job.mk (Job.id j) (Job.deployment_id j) (Job.agent_id j)
    (Job.command_type j)
    (lower (ResponseStatusEnum.value (Response.status response)))
    (Some (Response.logs response)) (Response.error response)
    (Job.created_at j) t_job.

(** Lines 157-167: the deployment row after a reply to a job of type
    [command_type]. *)
Definition deployment_of_reply (response : Response.t) (command_type : string)
    (t_dep : datetime) (d : Deployment.t) : Deployment.t :=
  Deployment.mk (Deployment.id d) (Deployment.project_name d)
    (Deployment.agent_id d)
    (reply_deployment_status (Response.status response) command_type
       (Deployment.status d))
    (Deployment.compose_file_hash d) (Deployment.created_at d) t_dep
    (Some (Response.logs response)) (Response.error response).

(** One iteration of the read loop on a decoded reply (lines 141-171).
    [t_job] and [t_dep] are the two [utcnow()] readings. *)
Definition handle_response (response : Response.t) (t_job t_dep : datetime)
    (db : Database) : Database :=
  match select_job (Response.job_id response) db with
  | None => db
  | Some job =>
      let db1 := update_job (Job.id job) (job_of_reply response t_job) db in
      match Job.deployment_id job with
      | None => db1
      | Some deployment_id =>
          if deployment_id =? 0 then db1
          else
            match select_deployment deployment_id db1 with
            | None => db1
            | Some deployment =>
                update_deployment (Deployment.id deployment)
                  (deployment_of_reply response (Job.command_type job) t_dep)
                  db1
            end
      end
  end.

Definition ws_reply (response : Response.t) (t_job t_dep : datetime)
    (st : State) : State :=
  mkState (handle_response response t_job t_dep (store st))
    (connection_manager st).

(** Lines 185-186: the agent row of a closed connection. *)
Definition agent_offline (now : datetime) (a : Agent.t) : Agent.t :=
  Agent.mk (Agent.id a) (Agent.hostname a) (Agent.ip_address a) "offline" now
    (Agent.version a) (Agent.architecture a) (Agent.created_at a).

(** The [finally] block of [websocket_endpoint] (lines 177-188). *)
Definition ws_close (agent_id : Z) (now : datetime) (st : State) : State :=
  let cm' := ConnectionManager.disconnect agent_id (connection_manager st) in
  match select_agent_by_id agent_id (store st) with
  | Some agent =>
      mkState (update_agent (Agent.id agent) (agent_offline now) (store st)) cm'
  | None => mkState (store st) cm'
  end.

(** What a dispatching handler reads from outside: the [uuid4()] of the job,
    the two [utcnow()] defaults of the job row, and whether the write to
    the websocket succeeds. *)
Record Env := mkEnv {
  uuid4 : string;
  job_created_at : datetime;
  job_updated_at : datetime;
  send_ok : bool
}.

Definition failed_to_send : string := "Failed to send command to agent".

(** Lines 284-290, 345-350 and 403-408: the job of a command that could not
    be sent. *)
Definition mark_job_failed (job_id : string) (db : Database) : Database :=
  update_job job_id
    (fun j => Job.mk (Job.id j) (Job.deployment_id j) (Job.agent_id j)
                (Job.command_type j) "failed" (Job.logs j)
                (Some failed_to_send) (Job.created_at j) (Job.updated_at j))
    db.

(** The job row a dispatching handler inserts. *)
Definition queued_job (deployment_id agent_id : Z) (type : CommandType)
    (e : Env) : Job.t :=
  Job.mk (uuid4 e) (Some deployment_id) agent_id (CommandTypeEnum.value type)
    "queued" None None (job_created_at e) (job_updated_at e).

(** The common tail of the three handlers: insert the job row, send the
    command, and mark the job failed when the send did not succeed. *)
Definition create_job_and_send {A : Type} (deployment_id agent_id : Z)
    (type : CommandType) (payload : Payload) (e : Env) (ok : A)
    (db : Database) (cm : ConnectionManager.t)
    : State * result A * list event :=
  let job_id := uuid4 e in
  let job := queued_job deployment_id agent_id type e in
  match insert_job job db with
  | None => (mkState db cm, IntegrityError, [])
  | Some db1 =>
      let command := Command.mk job_id type payload in
      let '(cm', success, evs) :=
        ConnectionManager.send_command agent_id command (send_ok e) cm in
      if success then (mkState db1 cm', Ok ok, evs)
      else
        (mkState (mark_job_failed job_id db1) cm',
         HTTPException 503 FailedToSend, evs)
  end.

(** An integer the database driver can bind as a query parameter: a
    signed 64-bit one. Binding any other raises [OverflowError]. *)
Definition in_int64 (n : Z) : bool :=
  ((- 2 ^ 63 <=? n) && (n <? 2 ^ 63))%bool.

(** [deploy_project], lines 232-243: the target agent. The request's
    [agent_id] is an unbounded Python integer and is a parameter of the
    query of line 234. *)
Definition find_target_agent (request : DeployRequest.t) (db : Database)
    : result Agent.t :=
  if truthy_int (DeployRequest.agent_id request) then
    let agent_id := int_or (DeployRequest.agent_id request) 0 in
    if in_int64 agent_id then
      match select_agent_by_id agent_id db with
      | Some agent => Ok agent
      | None => HTTPException 404 AgentNotFound
      end
    else OverflowError
  else
    match select_online_agent db with
    | Some agent => Ok agent
    | None => HTTPException 503 NoAgentsAvailable
    end.

(** The deployment row [deploy_project] inserts. *)
Definition pending_deployment (rq : DeployRequest.t) (agent : Agent.t)
    (t_created t_updated : datetime) (db : Database) : Deployment.t :=
  Deployment.mk (next_id (map Deployment.id (deployments db)))
    (DeployRequest.project_name rq) (Agent.id agent) "pending" None
    t_created t_updated None None.

(** [deploy_project]. [t_created] and [t_updated] are the two [utcnow()]
    defaults of the deployment row. *)
Definition deploy_project (request : DeployRequest.t)
    (t_created t_updated : datetime) (e : Env) (st : State)
    : State * result DeployResponse.t * list event :=
  match find_target_agent request (store st) with
  | HTTPException code d => (st, HTTPException code d, [])
  | IntegrityError => (st, IntegrityError, [])
  | OverflowError => (st, OverflowError, [])
  | Ok agent =>
      if negb (ConnectionManager.is_connected (Agent.id agent)
                 (connection_manager st))
      then (st, HTTPException 503 (AgentNotConnected (Agent.id agent)), [])
      else
        let deployment :=
          pending_deployment request agent t_created t_updated (store st) in
        let db1 := insert_deployment deployment (store st) in
        create_job_and_send (Deployment.id deployment) (Agent.id agent)
          DEPLOY_COMPOSE
          (DeployPayload (DeployRequest.project_name request)
             (DeployRequest.compose_file_base64 request))
          e
          (DeployResponse.mk (uuid4 e) (Deployment.id deployment) "queued"
             ("Deployment queued on agent " ++ Agent.hostname agent))
          db1 (connection_manager st)
  end.

(** [stop_project] *)
Definition stop_project (project_name : string) (request : StopRequest.t)
    (e : Env) (st : State) : State * result StopResponse.t * list event :=
  match select_latest_deployment project_name (store st) with
  | None => (st, HTTPException 404 ProjectNotFound, [])
  | Some deployment =>
      let agent_id :=
        int_or (StopRequest.agent_id request) (Deployment.agent_id deployment) in
      if negb (ConnectionManager.is_connected agent_id (connection_manager st))
      then (st, HTTPException 503 (AgentNotConnected agent_id), [])
      else
        create_job_and_send (Deployment.id deployment) agent_id STOP_COMPOSE
          (StopPayload project_name) e
          (StopResponse.mk (uuid4 e) "queued"
             ("Stop command queued for project " ++ project_name))
          (store st) (connection_manager st)
  end.

(** [get_project_status] *)
Definition get_project_status (project_name : string) (e : Env) (st : State)
    : State * result StatusResponse.t * list event :=
  match select_latest_deployment project_name (store st) with
  | None => (st, HTTPException 404 ProjectNotFound, [])
  | Some deployment =>
      let agent_id := Deployment.agent_id deployment in
      if negb (ConnectionManager.is_connected agent_id (connection_manager st))
      then (st, HTTPException 503 (AgentNotConnected agent_id), [])
      else
        create_job_and_send (Deployment.id deployment) agent_id STATUS
          (StatusPayload project_name) e
          (StatusResponse.mk (uuid4 e) "queued"
             ("Status check queued for project " ++ project_name))
          (store st) (connection_manager st)
  end.

(** ** The control plane as a transition system *)

Inductive op :=
  | WsOpen (h : Handshake) (websocket : WebSocket) (accept_ok : bool)
      (t_seen t_created : datetime)
  | WsReply (response : Response.t) (t_job t_dep : datetime)
  | WsClose (agent_id : Z) (now : datetime)
  | Deploy (request : DeployRequest.t) (t_created t_updated : datetime)
      (e : Env)
  | Stop (project_name : string) (request : StopRequest.t) (e : Env)
  | Status (project_name : string) (e : Env).

Definition step (o : op) (st : State) : State :=
  match o with
  | WsOpen h ws ok t1 t2 => fst (fst (ws_open h ws ok t1 t2 st))
  | WsReply r t1 t2 => ws_reply r t1 t2 st
  | WsClose a now => ws_close a now st
  | Deploy rq t1 t2 e => fst (fst (deploy_project rq t1 t2 e st))
  | Stop p rq e => fst (fst (stop_project p rq e st))
  | Status p e => fst (fst (get_project_status p e st))
  end.

Definition run (ops : list op) (st : State) : State :=
  fold_left (fun st o => step o st) ops st.

Inductive reachable : State -> Prop :=
  | reachable_init : reachable initial_state
  | reachable_step o st : reachable st -> reachable (step o st).

(** ** main.py: the token check

    Header values reach the handler as text of one-byte code points; the
    characters below are those of them that [str.split()] treats as
    white space. *)

Definition isspace (c : ascii) : bool :=
  let n := nat_of_ascii c in
  ((Nat.leb 9 n && Nat.leb n 13) || (Nat.leb 28 n && Nat.leb n 32)
   || Nat.eqb n 133 || Nat.eqb n 160)%bool.

(** Does the text start with a character that is not white space? *)
Definition starts_word (s : string) : bool :=
  match s with
  | EmptyString => false
  | String c _ => negb (isspace c)
  end.

(** [str.split()] without argument: the maximal runs of characters that are
    not white space, in order. *)
Fixpoint split (s : string) : list string :=
  match s with
  | EmptyString => []
  | String c s' =>
      if isspace c then split s'
      else if starts_word s' then
        match split s' with
        | w :: ws => String c w :: ws
        | [] => [String c EmptyString]
        end
      else String c EmptyString :: split s'
  end.

(** [verify_agent_token]; [AGENT_SECRET_TOKEN] is [config.AGENT_SECRET_TOKEN],
    read from the environment. The scheme is compared after [lower()]: a
    character outside ASCII stays outside ASCII under [lower()], so on the
    comparison with ["bearer"] the ASCII [lower] decides as Python's. *)
Definition verify_agent_token (AGENT_SECRET_TOKEN : string)
    (authorization : option string) : bool :=
  match authorization with
  | None => false
  | Some EmptyString => false
  | Some a =>
      match split a with
      | [scheme; token] =>
          if String.eqb (lower scheme) "bearer"
          then String.eqb token AGENT_SECRET_TOKEN
          else false
      | _ => false
      end
  end.

(** [websocket_endpoint] up to the [try], on the headers themselves. *)
Definition websocket_endpoint_open (AGENT_SECRET_TOKEN : string)
    (authorization x_agent_version x_agent_architecture x_agent_hostname
       client_host : option string)
    (websocket : WebSocket) (accept_ok : bool) (t_seen t_created : datetime)
    (st : State) : State * option Z * list event :=
  ws_open
    (mkHandshake (verify_agent_token AGENT_SECRET_TOKEN authorization)
       x_agent_version x_agent_architecture x_agent_hostname client_host)
    websocket accept_ok t_seen t_created st.

(** ** main.py: the listings *)

Module AgentResponse.
Record t := mk {
  id : Z;
  hostname : string;
  ip_address : option string;
  status : string;
  last_seen : datetime;
  version : option string;
  architecture : option string
}.
End AgentResponse.

Module AgentListResponse.
Record t := mk { agents : list AgentResponse.t; total : nat }.
End AgentListResponse.

(** [list_agents] *)
Definition list_agents (db : Database) : AgentListResponse.t :=
  let agent_responses :=
    map (fun agent =>
           AgentResponse.mk (Agent.id agent) (Agent.hostname agent)
             (Agent.ip_address agent) (Agent.status agent)
             (Agent.last_seen agent) (Agent.version agent)
             (Agent.architecture agent))
      (agents db) in
  AgentListResponse.mk agent_responses (List.length agent_responses).

(** [health_check]: the ["connected_agents"] entry, the length of
    [get_connected_agents()]. *)
Definition health_check (st : State) : nat :=
  size (ConnectionManager.active_connections (connection_manager st)).

(** ** manager.py: broadcast

    [broadcast] iterates over the live [active_connections.keys()]. [keys]
    is the order of that iteration and [send_ok agent_id] tells whether the
    write to that agent succeeds. A failed write makes [send_command]
    delete the key, and the dictionary iterator raises [RuntimeError] on its
    next step when the size is no longer [used], the size at the start: the
    third component of the result is [true] then. *)
Fixpoint broadcast_from (used : nat) (keys : list Z) (command : Command.t)
    (send_ok : Z -> bool) (self : ConnectionManager.t)
    : ConnectionManager.t * list event * bool :=
  match keys with
  | [] => (self, [], false)
  | agent_id :: rest =>
      let '(self', _, evs) :=
        ConnectionManager.send_command agent_id command (send_ok agent_id)
          self in
      if Nat.eqb (size (ConnectionManager.active_connections self')) used
      then
        let '(self'', evs', raised) :=
          broadcast_from used rest command send_ok self' in
        (self'', (evs ++ evs')%list, raised)
      else (self', evs, true)
  end.

Definition broadcast (keys : list Z) (command : Command.t)
    (send_ok : Z -> bool) (self : ConnectionManager.t)
    : ConnectionManager.t * list event * bool :=
  broadcast_from (size (ConnectionManager.active_connections self)) keys
    command send_ok self.

(** * Vocabulary of the properties *)

(** The two dictionaries of the connection manager have the same keys. *)
Definition same_keys (m : ConnectionManager.t) : Prop :=
  dom (ConnectionManager.agent_hostnames m)
  = dom (ConnectionManager.active_connections m).

(** The job row of a dispatch after [mark_job_failed]. *)
Definition failed_job (deployment_id agent_id : Z) (type : CommandType)
    (e : Env) : Job.t :=
  Job.mk (uuid4 e) (Some deployment_id) agent_id (CommandTypeEnum.value type)
    "failed" None (Some failed_to_send) (job_created_at e) (job_updated_at e).

(** Latest first. *)
Fixpoint sorted_desc (l : list Deployment.t) : Prop :=
  match l with
  | [] => True
  | x :: l' =>
      (forall y, In y l' -> Deployment.created_at y <= Deployment.created_at x)
      /\ sorted_desc l'
  end.

(** ** A run of the control plane

    Agent [web-1] connects on websocket [7]; a deploy of project [x] is
    dispatched to it as job [J]; replies for [J] follow. *)

Module Scenario.

Definition web1 : Handshake :=
  mkHandshake true (Some "1.0") (Some "amd64") (Some "web-1")
    (Some "10.0.0.1").

Definition deploy_x : DeployRequest.t :=
  DeployRequest.mk "x" "Y29tcG9zZQ==" None.

Definition env_J : Env := mkEnv "J" 20 21 true.

(** The same deploy request, naming agent id [0]. *)
Definition deploy_x_agent_0 : DeployRequest.t :=
  DeployRequest.mk "x" "Y29tcG9zZQ==" (Some 0).

Definition connected : State :=
  run [WsOpen web1 7%nat true 10 11] initial_state.

Definition dispatched : State :=
  run [WsOpen web1 7%nat true 10 11; Deploy deploy_x 15 16 env_J]
    initial_state.

Definition reply_completed : Response.t :=
  Response.mk "J" COMPLETED "ok" None None.

Definition reply_failed : Response.t :=
  Response.mk "J" FAILED "late" (Some "boom") None.

Definition completed : State :=
  run [WsOpen web1 7%nat true 10 11; Deploy deploy_x 15 16 env_J;
       WsReply reply_completed 30 31]
    initial_state.

(** Project [x] deployed a second time, as job [K]. *)
Definition redeployed : State :=
  run [WsOpen web1 7%nat true 10 11; Deploy deploy_x 15 16 env_J;
       Deploy deploy_x 100 101 (mkEnv "K" 102 103 true)]
    initial_state.

Definition deployment_x2 : Deployment.t :=
  Deployment.mk 2 "x" 1 "pending" None 100 101 None None.

Definition job_J : Job.t :=
  Job.mk "J" (Some 1) 1 "DEPLOY_COMPOSE" "queued" None None 20 21.

Definition deployment_x : Deployment.t :=
  Deployment.mk 1 "x" 1 "pending" None 15 16 None None.

End Scenario.

(** [completed] and [failed] are the terminal job statuses. *)
Definition terminal (status : string) : bool :=
  (String.eqb status "completed" || String.eqb status "failed")%bool.

(** The specification's first-resolution-wins property: once a reply has
    put a job in a terminal state, a second reply with the same job id
    changes neither the jobs nor the deployments. *)
Definition duplicate_reply_ignored : Prop :=
  forall st r1 r2 t1 t2 t3 t4 j,
    reachable st ->
    Response.job_id r2 = Response.job_id r1 ->
    select_job (Response.job_id r1) (store (ws_reply r1 t1 t2 st)) = Some j ->
    terminal (Job.status j) = true ->
    jobs (store (ws_reply r2 t3 t4 (ws_reply r1 t1 t2 st)))
    = jobs (store (ws_reply r1 t1 t2 st))
    /\ deployments (store (ws_reply r2 t3 t4 (ws_reply r1 t1 t2 st)))
       = deployments (store (ws_reply r1 t1 t2 st)).

(** The specification's state machine of a job: no operation changes the
    status of a job that is in a terminal state. *)
Definition terminal_is_final : Prop :=
  forall st o k j,
    reachable st ->
    select_job k (store st) = Some j ->
    terminal (Job.status j) = true ->
    exists j',
      select_job k (store (step o st)) = Some j'
      /\ Job.status j' = Job.status j.

(** The specification's teardown policy: closing an agent's connection
    fails the jobs of that agent that are still queued, with a reason. *)
Definition teardown_fails_queued_jobs : Prop :=
  forall st agent_id now k j,
    reachable st ->
    select_job k (store st) = Some j ->
    Job.agent_id j = agent_id ->
    Job.status j = "queued" ->
    exists j',
      select_job k (store (ws_close agent_id now st)) = Some j'
      /\ Job.status j' = "failed"
      /\ is_Some (Job.error j').

(** The specification's replacement of a session: when a known agent that
    has a websocket attached connects again, the old websocket is closed
    and the new one is attached. *)
Definition reconnect_closes_old_session : Prop :=
  forall st h ws t1 t2 agent old,
    reachable st ->
    authorized h = true ->
    select_agent_by_hostname (handshake_hostname h) (store st) = Some agent ->
    ConnectionManager.active_connections (connection_manager st)
      !! Agent.id agent = Some old ->
    old <> ws ->
    (exists code, In (EvClose old code) (snd (ws_open h ws true t1 t2 st)))
    /\ ConnectionManager.active_connections
         (connection_manager (fst (fst (ws_open h ws true t1 t2 st))))
         !! Agent.id agent = Some ws.

(** The outcome of a dispatch whose write failed: the caller gets 503
    "Failed to send command to agent", the agent is no longer in the
    connected set, and the job row is [failed] with that error text. *)
Definition send_failed_outcome {A : Type}
    (out : State * result A * list event) (agent_id : Z) (job_id : string)
    : Prop :=
  snd (fst out) = HTTPException 503 FailedToSend
  /\ ConnectionManager.is_connected agent_id
       (connection_manager (fst (fst out))) = false
  /\ exists j,
       select_job job_id (store (fst (fst out))) = Some j
       /\ Job.status j = "failed"
       /\ Job.error j = Some failed_to_send.

(** No character of the text is white space. *)
Fixpoint no_space (s : string) : bool :=
  match s with
  | EmptyString => true
  | String c s' => (negb (isspace c) && no_space s')%bool
  end.

(** A word: not empty and free of white space. *)
Definition word (s : string) : bool :=
  match s with
  | EmptyString => false
  | String _ _ => no_space s
  end.

(** The [send_text] calls of a broadcast that reaches the agents [keys]. *)
Definition sends_to (keys : list Z) (command : Command.t)
    (m : ConnectionManager.t) : list event :=
  flat_map
    (fun a =>
       match ConnectionManager.active_connections m !! a with
       | Some ws => [EvSendText ws command]
       | None => []
       end)
    keys.

(** The values the status columns take (models.py). *)
Definition agent_statuses : list string := ["online"; "offline"].
Definition deployment_statuses : list string :=
  ["pending"; "running"; "stopped"; "failed"].
Definition job_statuses : list string :=
  ["queued"; "in_progress"; "completed"; "failed"].

(** Row [y] is row [x] with at most its mutable columns rewritten. *)
Definition agent_kept (x y : Agent.t) : Prop :=
  Agent.id y = Agent.id x
  /\ Agent.hostname y = Agent.hostname x
  /\ Agent.created_at y = Agent.created_at x
  /\ (Agent.status y = Agent.status x \/ In (Agent.status y) agent_statuses).

Definition deployment_kept (x y : Deployment.t) : Prop :=
  Deployment.id y = Deployment.id x
  /\ Deployment.project_name y = Deployment.project_name x
  /\ Deployment.agent_id y = Deployment.agent_id x
  /\ Deployment.created_at y = Deployment.created_at x
  /\ Deployment.compose_file_hash y = Deployment.compose_file_hash x
  /\ (Deployment.status y = Deployment.status x
      \/ In (Deployment.status y) deployment_statuses).

Definition job_kept (x y : Job.t) : Prop :=
  Job.id y = Job.id x
  /\ Job.deployment_id y = Job.deployment_id x
  /\ Job.agent_id y = Job.agent_id x
  /\ Job.command_type y = Job.command_type x
  /\ Job.created_at y = Job.created_at x
  /\ (Job.status y = Job.status x \/ In (Job.status y) job_statuses).

(** One step on the agents table: rows rewritten in place, or one row
    appended with a fresh key and a hostname not yet there. *)
Definition agents_step (l l' : list Agent.t) : Prop :=
  (exists g, l' = map g l /\ forall x, agent_kept x (g x))
  \/ (exists a,
        l' = (l ++ [a])%list
        /\ Agent.id a = next_id (map Agent.id l)
        /\ ~ In (Agent.hostname a) (map Agent.hostname l)
        /\ Agent.status a = "online").

(** One step on the deployments table, from state [st]. *)
Definition deployments_step (st : State) (l l' : list Deployment.t) : Prop :=
  (exists g, l' = map g l /\ forall x, deployment_kept x (g x))
  \/ (exists d,
        l' = (l ++ [d])%list
        /\ Deployment.id d = next_id (map Deployment.id l)
        /\ In (Deployment.agent_id d) (map Agent.id (agents (store st)))
        /\ Deployment.status d = "pending"
        /\ Deployment.compose_file_hash d = None).

(** One step on the jobs table, from state [st] to state [st']. *)
Definition jobs_step (st st' : State) (l l' : list Job.t) : Prop :=
  (exists g, l' = map g l /\ forall x, job_kept x (g x))
  \/ (exists j,
        l' = (l ++ [j])%list
        /\ select_job (Job.id j) (store st) = None
        /\ (exists d,
              Job.deployment_id j = Some d
              /\ In d (map Deployment.id (deployments (store st'))))
        /\ ConnectionManager.is_connected (Job.agent_id j)
             (connection_manager st) = true
        /\ (Job.status j = "queued" \/ Job.status j = "failed")).

(** The key columns hold no value twice: the primary keys of the three
    tables and the unique [hostname] column of the agents. *)
Definition keys_unique (db : Database) : Prop :=
  NoDup (map Agent.id (agents db))
  /\ NoDup (map Agent.hostname (agents db))
  /\ NoDup (map Deployment.id (deployments db))
  /\ NoDup (map Job.id (jobs db)).

(** Every reference finds its row: a connected agent id and the [agent_id]
    of a deployment or job find an agent row, the [deployment_id] of a job
    is set and finds a deployment row. *)
Definition references_resolve (st : State) : Prop :=
  (forall a,
      ConnectionManager.is_connected a (connection_manager st) = true ->
      is_Some (select_agent_by_id a (store st)))
  /\ (forall d,
        In d (deployments (store st)) ->
        is_Some (select_agent_by_id (Deployment.agent_id d) (store st)))
  /\ (forall j,
        In j (jobs (store st)) ->
        is_Some (select_agent_by_id (Job.agent_id j) (store st))
        /\ exists d,
             Job.deployment_id j = Some d
             /\ is_Some (select_deployment d (store st))).

(** Every status column holds one of the values models.py lists for it. *)
Definition statuses_declared (db : Database) : Prop :=
  Forall (fun a => In (Agent.status a) agent_statuses) (agents db)
  /\ Forall (fun d => In (Deployment.status d) deployment_statuses)
       (deployments db)
  /\ Forall (fun j => In (Job.status j) job_statuses) (jobs db).

(** The references in terms of the key columns. *)
Definition references_in_keys (st : State) : Prop :=
  (forall a,
      ConnectionManager.is_connected a (connection_manager st) = true ->
      In a (map Agent.id (agents (store st))))
  /\ (forall d,
        In d (deployments (store st)) ->
        In (Deployment.agent_id d) (map Agent.id (agents (store st))))
  /\ (forall j,
        In j (jobs (store st)) ->
        In (Job.agent_id j) (map Agent.id (agents (store st)))
        /\ exists d,
             Job.deployment_id j = Some d
             /\ In d (map Deployment.id (deployments (store st)))).

(** Keys in strictly increasing order. *)
Fixpoint increasing (l : list Z) : Prop :=
  match l with
  | [] => True
  | x :: l' => (forall y, In y l' -> x < y) /\ increasing l'
  end.

(** The hostname the connection manager holds for an agent id is the
    hostname of an agent row with that id. *)
Definition hostnames_agree (st : State) : Prop :=
  forall a h,
    ConnectionManager.agent_hostnames (connection_manager st) !! a = Some h ->
    exists ag,
      In ag (agents (store st)) /\ Agent.id ag = a /\ Agent.hostname ag = h.

(** * Properties *)

(** ** The connection manager *)

Section manager.
Import ConnectionManager.

Lemma same_keys_init : same_keys init.
Proof. unfold same_keys, init; simpl. by rewrite !dom_empty_L. Qed.

Lemma same_keys_connect a h ws ok m :
  same_keys m -> same_keys (fst (connect a h ws ok m)).
Proof.
  unfold same_keys, connect; intros Hm.
  destruct ok; simpl; [| done].
  rewrite !dom_insert_L. by rewrite Hm.
Qed.

Lemma same_keys_disconnect a m :
  same_keys m -> same_keys (disconnect a m).
Proof.
  unfold same_keys, disconnect; intros Hm.
  destruct (active_connections m !! a) as [ws|] eqn:Hact; [| done].
  simpl. destruct (agent_hostnames m !! a) as [h|] eqn:Hhost.
  - rewrite !dom_delete_L. by rewrite Hm.
  - apply not_elem_of_dom in Hhost. rewrite Hm in Hhost.
    apply not_elem_of_dom in Hhost. congruence.
Qed.

Lemma same_keys_send_command a c ok m :
  same_keys m -> same_keys (fst (fst (send_command a c ok m))).
Proof.
  unfold send_command; intros Hm.
  destruct (active_connections m !! a); [| done].
  destruct ok; simpl; [done |]. by apply same_keys_disconnect.
Qed.

Lemma same_keys_step o m : same_keys m -> same_keys (manager_step o m).
Proof.
  destruct o; simpl;
    auto using same_keys_connect, same_keys_disconnect,
      same_keys_send_command.
Qed.

Lemma same_keys_run ops m : same_keys m -> same_keys (manager_run ops m).
Proof.
  unfold manager_run. revert m.
  induction ops as [| o ops IH]; intros m Hm; simpl; [done |].
  apply IH. by apply same_keys_step.
Qed.

(** [disconnect] removes the agent from the connected set. *)
Lemma is_connected_disconnect a m : is_connected a (disconnect a m) = false.
Proof.
  unfold is_connected, disconnect.
  destruct (active_connections m !! a) as [ws|] eqn:Hact; simpl.
  - rewrite lookup_delete_eq. apply bool_decide_eq_false. by intros [? ?].
  - rewrite Hact. apply bool_decide_eq_false. by intros [? ?].
Qed.

Lemma is_connected_true a m :
  is_connected a m = true ->
  exists ws, active_connections m !! a = Some ws.
Proof.
  unfold is_connected. intros H. apply bool_decide_eq_true in H.
  destruct H as [ws H]. by exists ws.
Qed.

(** A failed write: the agent is dropped and the call gives [False]. *)
Lemma send_command_failure a c m :
  is_connected a m = true ->
  send_command a c false m = (disconnect a m, false, []).
Proof.
  intros H. apply is_connected_true in H as [ws H].
  unfold send_command. by rewrite H.
Qed.

Lemma send_command_success a c m ws :
  active_connections m !! a = Some ws ->
  send_command a c true m = (m, true, [EvSendText ws c]).
Proof. intros H. unfold send_command. by rewrite H. Qed.

End manager.

(** C9: after every sequence of [connect], [disconnect] and [send_command]
    calls on a fresh connection manager, an agent id has an entry in
    [agent_hostnames] if and only if it has one in [active_connections]. *)
Theorem manager_maps_same_keys (ops : list manager_op) (agent_id : Z) :
  is_Some (ConnectionManager.agent_hostnames
             (manager_run ops ConnectionManager.init) !! agent_id)
  <-> is_Some (ConnectionManager.active_connections
                 (manager_run ops ConnectionManager.init) !! agent_id).
Proof.
  pose proof (same_keys_run ops _ same_keys_init) as H.
  unfold same_keys in H.
  rewrite <- !elem_of_dom. by rewrite H.
Qed.

(** ** Queries and updates on the tables *)

Section tables.

Lemma find_map_same {A : Type} (p : A -> bool) (g : A -> A) (l : list A) :
  (forall x, p (g x) = p x) ->
  List.find p (map g l) = g <$> List.find p l.
Proof.
  intros Hp. induction l as [| x l IH]; simpl; [done |].
  rewrite Hp. destruct (p x); [done | exact IH].
Qed.

Lemma find_app_Some {A : Type} (p : A -> bool) (l l' : list A) (x : A) :
  List.find p l = Some x -> List.find p (l ++ l') = Some x.
Proof.
  induction l as [| y l IH]; simpl; [done |].
  destruct (p y); [done | exact IH].
Qed.

Lemma find_app_None {A : Type} (p : A -> bool) (l l' : list A) :
  List.find p l = None -> List.find p (l ++ l') = List.find p l'.
Proof.
  induction l as [| y l IH]; simpl; [done |].
  destruct (p y); [done | exact IH].
Qed.

Lemma select_job_id k db j : select_job k db = Some j -> Job.id j = k.
Proof.
  unfold select_job. intros H. apply List.find_some in H as [_ H].
  by apply String.eqb_eq.
Qed.

Lemma select_deployment_id k db d :
  select_deployment k db = Some d -> Deployment.id d = k.
Proof.
  unfold select_deployment. intros H. apply List.find_some in H as [_ H].
  by apply Z.eqb_eq.
Qed.

Lemma select_deployment_In k db d :
  select_deployment k db = Some d -> In d (deployments db).
Proof. unfold select_deployment. intros H. by apply List.find_some in H as [H _]. Qed.

Lemma select_agent_by_id_id k db a :
  select_agent_by_id k db = Some a -> Agent.id a = k.
Proof.
  unfold select_agent_by_id. intros H. apply List.find_some in H as [_ H].
  by apply Z.eqb_eq.
Qed.

Lemma select_job_update_job k id f db :
  (forall j, Job.id (f j) = Job.id j) ->
  select_job k (update_job id f db)
  = (fun j => if String.eqb (Job.id j) id then f j else j)
      <$> select_job k db.
Proof.
  intros Hf. unfold select_job, update_job; simpl.
  apply find_map_same. intros j.
  destruct (String.eqb (Job.id j) id); [by rewrite Hf | done].
Qed.

Lemma select_job_update_same k f db j :
  (forall j, Job.id (f j) = Job.id j) ->
  select_job k db = Some j ->
  select_job k (update_job k f db) = Some (f j).
Proof.
  intros Hf Hj. rewrite select_job_update_job, Hj by done. simpl.
  apply select_job_id in Hj. by rewrite Hj, String.eqb_refl.
Qed.

Lemma select_job_update_other k id f db :
  (forall j, Job.id (f j) = Job.id j) ->
  id <> k ->
  select_job k (update_job id f db) = select_job k db.
Proof.
  intros Hf Hne. rewrite select_job_update_job by done.
  destruct (select_job k db) as [j|] eqn:Hj; simpl; [| done].
  apply select_job_id in Hj.
  destruct (String.eqb (Job.id j) id) eqn:E; [| done].
  apply String.eqb_eq in E. congruence.
Qed.

Lemma select_deployment_update_deployment k id f db :
  (forall d, Deployment.id (f d) = Deployment.id d) ->
  select_deployment k (update_deployment id f db)
  = (fun d => if Deployment.id d =? id then f d else d)
      <$> select_deployment k db.
Proof.
  intros Hf. unfold select_deployment, update_deployment; simpl.
  apply find_map_same. intros d.
  destruct (Deployment.id d =? id); [by rewrite Hf | done].
Qed.

Lemma select_deployment_update_same k f db d :
  (forall d, Deployment.id (f d) = Deployment.id d) ->
  select_deployment k db = Some d ->
  select_deployment k (update_deployment k f db) = Some (f d).
Proof.
  intros Hf Hd. rewrite select_deployment_update_deployment, Hd by done.
  simpl. apply select_deployment_id in Hd. by rewrite Hd, Z.eqb_refl.
Qed.

Lemma select_agent_update_same k f db a :
  (forall a, Agent.id (f a) = Agent.id a) ->
  select_agent_by_id k db = Some a ->
  select_agent_by_id k (update_agent k f db) = Some (f a).
Proof.
  intros Hf Ha. unfold select_agent_by_id, update_agent in *; simpl.
  rewrite (find_map_same (fun a => Agent.id a =? k)).
  - rewrite Ha; simpl. apply List.find_some in Ha as [_ Ha]. by rewrite Ha.
  - intros x. destruct (Agent.id x =? k) eqn:E; [by rewrite Hf, E | done].
Qed.

(** A fresh integer key is larger than every key of the table. *)
Lemma next_id_gt ids x : In x ids -> x < next_id ids.
Proof.
  unfold next_id. induction ids as [| y ids IH]; simpl; [done |].
  intros [-> | Hx]; [lia |]. specialize (IH Hx). lia.
Qed.

Lemma next_id_pos ids : 0 < next_id ids.
Proof. unfold next_id. induction ids as [| y ids IH]; simpl; lia. Qed.

Lemma select_deployment_insert_fresh d db :
  Deployment.id d = next_id (map Deployment.id (deployments db)) ->
  select_deployment (Deployment.id d) (insert_deployment d db) = Some d.
Proof.
  intros Hid. unfold select_deployment, insert_deployment; simpl.
  rewrite find_app_None; [simpl; by rewrite Z.eqb_refl |].
  destruct (List.find _ (deployments db)) as [x|] eqn:Hx; [| done].
  apply List.find_some in Hx as [Hin Hx]. apply Z.eqb_eq in Hx.
  pose proof (next_id_gt (map Deployment.id (deployments db))
                (Deployment.id x)) as Hlt.
  rewrite <- Hid, Hx in Hlt.
  assert (Deployment.id d < Deployment.id d); [| lia].
  apply Hlt. apply in_map_iff. by exists x.
Qed.

Lemma insert_job_fresh j db :
  select_job (Job.id j) db = None ->
  insert_job j db
  = Some (mkDatabase (agents db) (deployments db) (jobs db ++ [j])).
Proof. intros H. unfold insert_job. by rewrite H. Qed.

Lemma insert_job_select k j db db' :
  insert_job j db = Some db' ->
  select_job k db'
  = match select_job k db with
    | Some x => Some x
    | None => if String.eqb (Job.id j) k then Some j else None
    end.
Proof.
  unfold insert_job.
  destruct (select_job (Job.id j) db) eqn:Hj; [done |].
  intros [= <-]. clear Hj. unfold select_job; simpl.
  destruct (List.find _ (jobs db)) as [x|] eqn:Hx.
  - by apply find_app_Some.
  - rewrite find_app_None by done. simpl. by destruct (String.eqb _ _).
Qed.

End tables.

(** ** The handlers, table by table *)

Section handlers.

Lemma update_job_absent k f db :
  select_job k db = None -> update_job k f db = db.
Proof.
  destruct db as [ags deps js]. unfold select_job, update_job; simpl.
  intros H. f_equal.
  induction js as [| j js IH]; simpl in *; [done |].
  destruct (String.eqb (Job.id j) k); [done |]. by rewrite IH.
Qed.

(** The reply handler on the job it names. *)
Lemma handle_response_select_job r t1 t2 db j :
  select_job (Response.job_id r) db = Some j ->
  select_job (Response.job_id r) (handle_response r t1 t2 db)
  = Some (job_of_reply r t1 j).
Proof.
  intros Hj. unfold handle_response. rewrite Hj.
  pose proof (select_job_id _ _ _ Hj) as Hid. rewrite Hid.
  assert (select_job (Response.job_id r)
            (update_job (Response.job_id r) (job_of_reply r t1) db)
          = Some (job_of_reply r t1 j)) as Hup
    by (by apply select_job_update_same).
  destruct (Job.deployment_id j) as [d|]; [| done].
  destruct (d =? 0); [done |].
  destruct (select_deployment d _); done.
Qed.

(** The reply handler on every other job. *)
Lemma handle_response_select_other r t1 t2 db k :
  Response.job_id r <> k ->
  select_job k (handle_response r t1 t2 db) = select_job k db.
Proof.
  intros Hne. unfold handle_response.
  destruct (select_job (Response.job_id r) db) as [j|] eqn:Hj; [| done].
  pose proof (select_job_id _ _ _ Hj) as Hid. rewrite Hid.
  assert (select_job k (update_job (Response.job_id r) (job_of_reply r t1) db)
          = select_job k db) as Hup
    by (by apply select_job_update_other).
  destruct (Job.deployment_id j) as [d|]; [| done].
  destruct (d =? 0); [done |].
  destruct (select_deployment d _); done.
Qed.

Lemma handle_response_agents r t1 t2 db :
  agents (handle_response r t1 t2 db) = agents db.
Proof.
  unfold handle_response.
  destruct (select_job _ db) as [j|]; [| done].
  destruct (Job.deployment_id j) as [d|]; [| done].
  destruct (d =? 0); [done |].
  destruct (select_deployment d _); done.
Qed.

(** The reply handler on the deployment of the job it names. *)
Lemma handle_response_select_deployment r t1 t2 db j d dep :
  select_job (Response.job_id r) db = Some j ->
  Job.deployment_id j = Some d ->
  d <> 0 ->
  select_deployment d db = Some dep ->
  select_deployment d (handle_response r t1 t2 db)
  = Some (deployment_of_reply r (Job.command_type j) t2 dep).
Proof.
  intros Hj Hd Hne Hdep. unfold handle_response. rewrite Hj, Hd.
  apply Z.eqb_neq in Hne. rewrite Hne.
  change (select_deployment d (update_job (Job.id j) (job_of_reply r t1) db))
    with (select_deployment d db).
  rewrite Hdep. rewrite (select_deployment_id _ _ _ Hdep).
  by apply select_deployment_update_same.
Qed.

(** What [create_job_and_send] leaves alone. *)
Lemma create_job_and_send_agents {A} d a ty p e (ok : A) db cm :
  agents (store (fst (fst (create_job_and_send d a ty p e ok db cm))))
  = agents db.
Proof.
  unfold create_job_and_send, insert_job; simpl.
  destruct (select_job (uuid4 e) db); simpl; [done |].
  destruct (ConnectionManager.send_command _ _ _ _) as [[cm' success] evs].
  by destruct success.
Qed.

Lemma create_job_and_send_deployments {A} d a ty p e (ok : A) db cm :
  deployments (store (fst (fst (create_job_and_send d a ty p e ok db cm))))
  = deployments db.
Proof.
  unfold create_job_and_send, insert_job; simpl.
  destruct (select_job (uuid4 e) db); simpl; [done |].
  destruct (ConnectionManager.send_command _ _ _ _) as [[cm' success] evs].
  by destruct success.
Qed.

(** A duplicate job id: nothing is written. *)
Lemma create_job_and_send_duplicate {A} d a ty p e (ok : A) db cm j :
  select_job (uuid4 e) db = Some j ->
  create_job_and_send d a ty p e ok db cm
  = (mkState db cm, IntegrityError, []).
Proof. intros H. unfold create_job_and_send, insert_job; simpl. by rewrite H. Qed.

Lemma mark_job_failed_fresh d a ty e db :
  select_job (uuid4 e) db = None ->
  mark_job_failed (uuid4 e)
    (mkDatabase (agents db) (deployments db)
       (jobs db ++ [queued_job d a ty e]))
  = mkDatabase (agents db) (deployments db)
      (jobs db ++ [failed_job d a ty e]).
Proof.
  intros H. pose proof (update_job_absent (uuid4 e)
    (fun j => Job.mk (Job.id j) (Job.deployment_id j) (Job.agent_id j)
                (Job.command_type j) "failed" (Job.logs j)
                (Some failed_to_send) (Job.created_at j) (Job.updated_at j))
    db H) as Hup.
  unfold mark_job_failed, update_job in *; simpl in *.
  rewrite map_app; simpl. rewrite String.eqb_refl.
  destruct db as [ags deps js]; simpl in *.
  injection Hup as Hup. by rewrite Hup.
Qed.

(** A fresh job id and a write that fails: the job row is inserted and
    marked failed, the agent is dropped from the connection manager and
    the handler raises 503. *)
Lemma create_job_and_send_failure {A} d a ty p e (ok : A) db cm :
  select_job (uuid4 e) db = None ->
  ConnectionManager.is_connected a cm = true ->
  send_ok e = false ->
  create_job_and_send d a ty p e ok db cm
  = (mkState
       (mkDatabase (agents db) (deployments db)
          (jobs db ++ [failed_job d a ty e]))
       (ConnectionManager.disconnect a cm),
     HTTPException 503 FailedToSend, []).
Proof.
  intros Hfresh Hconn Hsend. unfold create_job_and_send.
  rewrite insert_job_fresh by done.
  rewrite Hsend, send_command_failure by done.
  by rewrite mark_job_failed_fresh.
Qed.

(** A fresh job id and a write that succeeds. *)
Lemma create_job_and_send_success {A} d a ty p e (ok : A) db cm ws :
  select_job (uuid4 e) db = None ->
  ConnectionManager.active_connections cm !! a = Some ws ->
  send_ok e = true ->
  create_job_and_send d a ty p e ok db cm
  = (mkState
       (mkDatabase (agents db) (deployments db)
          (jobs db ++ [queued_job d a ty e]))
       cm,
     Ok ok, [EvSendText ws (Command.mk (uuid4 e) ty p)]).
Proof.
  intros Hfresh Hconn Hsend. unfold create_job_and_send.
  rewrite insert_job_fresh by done.
  by rewrite Hsend, (send_command_success _ _ _ ws).
Qed.

(** A job that is already there is not touched by a dispatch. *)
Lemma create_job_and_send_select_job {A} d a ty p e (ok : A) db cm k j :
  select_job k db = Some j ->
  select_job k (store (fst (fst (create_job_and_send d a ty p e ok db cm))))
  = Some j.
Proof.
  intros Hk. unfold create_job_and_send.
  destruct (insert_job _ db) as [db1|] eqn:Hins; simpl; [| done].
  pose proof (insert_job_select k _ _ _ Hins) as Hsel. rewrite Hk in Hsel.
  destruct (ConnectionManager.send_command _ _ _ _) as [[cm' success] evs].
  destruct success; simpl; [done |].
  unfold mark_job_failed. rewrite select_job_update_other; [done | done |].
  intros Heq. unfold insert_job in Hins. simpl in Hins.
  by rewrite Heq, Hk in Hins.
Qed.

End handlers.

(** ** Reachable states *)

Section invariants.

Lemma reachable_run ops st : reachable st -> reachable (run ops st).
Proof.
  unfold run. revert st.
  induction ops as [| o ops IH]; intros st Hst; simpl; [done |].
  apply IH. by constructor.
Qed.

(** The deployments table after one step: untouched, rewritten row by row
    with the keys kept, or extended by one row with a fresh key. *)
Lemma step_deployments o st :
  deployments (store (step o st)) = deployments (store st)
  \/ (exists f, (forall d, Deployment.id (f d) = Deployment.id d)
        /\ deployments (store (step o st)) = map f (deployments (store st)))
  \/ (exists d,
        Deployment.id d = next_id (map Deployment.id (deployments (store st)))
        /\ deployments (store (step o st))
           = (deployments (store st) ++ [d])%list).
Proof.
  destruct o as [h ws ok t1 t2 | r t1 t2 | a now | rq t1 t2 e | p rq e | p e];
    simpl.
  - left. unfold ws_open. destruct (authorized h); simpl; [| done].
    unfold register_agent.
    destruct (select_agent_by_hostname _ _); simpl;
      by destruct (ConnectionManager.connect _ _ _ _ _).
  - unfold handle_response.
    destruct (select_job _ _) as [j|]; [| by left].
    destruct (Job.deployment_id j) as [d|]; [| by left].
    destruct (d =? 0); [by left |].
    destruct (select_deployment d _) as [dep|]; [| by left].
    right; left. eexists; split; [| reflexivity].
    intros x; simpl. by destruct (Deployment.id x =? Deployment.id dep).
  - left. unfold ws_close. by destruct (select_agent_by_id _ _).
  - unfold deploy_project.
    destruct (find_target_agent rq (store st)) as [ag | | |]; [| by left ..].
    destruct (ConnectionManager.is_connected _ _); simpl; [| by left].
    right; right. eexists; split;
      [| rewrite create_job_and_send_deployments; reflexivity].
    done.
  - left. unfold stop_project.
    destruct (select_latest_deployment _ _) as [dep|]; [| done].
    destruct (ConnectionManager.is_connected _ _); simpl; [| done].
    apply create_job_and_send_deployments.
  - left. unfold get_project_status.
    destruct (select_latest_deployment _ _) as [dep|]; [| done].
    destruct (ConnectionManager.is_connected _ _); simpl; [| done].
    apply create_job_and_send_deployments.
Qed.

(** Deployment keys come from [next_id]: none is [0]. *)
Lemma reachable_deployment_ids st :
  reachable st ->
  forall d, In d (deployments (store st)) -> 0 < Deployment.id d.
Proof.
  induction 1 as [| o st Hst IH]; [by intros d [] |].
  intros d Hd.
  destruct (step_deployments o st) as [E | [(f & Hf & E) | (x & Hx & E)]];
    rewrite E in Hd.
  - by apply IH.
  - apply in_map_iff in Hd as (y & <- & Hy). rewrite Hf. by apply IH.
  - apply in_app_iff in Hd as [Hd | [<- | []]]; [by apply IH |].
    rewrite Hx. apply next_id_pos.
Qed.

End invariants.

(** ** The run is reachable *)

Lemma reachable_connected : reachable Scenario.connected.
Proof. apply reachable_run, reachable_init. Qed.

Lemma reachable_dispatched : reachable Scenario.dispatched.
Proof. apply reachable_run, reachable_init. Qed.

Lemma reachable_completed : reachable Scenario.completed.
Proof. apply reachable_run, reachable_init. Qed.

Example dispatched_job :
  select_job "J" (store Scenario.dispatched) = Some Scenario.job_J.
Proof. reflexivity. Qed.

Example dispatched_deployment :
  select_deployment 1 (store Scenario.dispatched) = Some Scenario.deployment_x.
Proof. reflexivity. Qed.

Example completed_job_status :
  Job.status <$> select_job "J" (store Scenario.completed) = Some "completed".
Proof. reflexivity. Qed.

(** ** Replies and the deployment of their job *)

(** C5: for a reply whose job is linked to a deployment, the deployment's
    status after the reply is [running] for a completed deploy command,
    [stopped] for a completed stop command, [failed] for any failed reply,
    and its old value for a completed reply to any other command type. *)
Theorem reply_sets_deployment_status (st : State) (r : Response.t)
    (t_job t_dep : datetime) (j : Job.t) (d : Z) (dep : Deployment.t) :
  reachable st ->
  select_job (Response.job_id r) (store st) = Some j ->
  Job.deployment_id j = Some d ->
  select_deployment d (store st) = Some dep ->
  exists dep',
    select_deployment d (store (ws_reply r t_job t_dep st)) = Some dep'
    /\ (Response.status r = COMPLETED ->
        Job.command_type j = "DEPLOY_COMPOSE" ->
        Deployment.status dep' = "running")
    /\ (Response.status r = COMPLETED ->
        Job.command_type j = "STOP_COMPOSE" ->
        Deployment.status dep' = "stopped")
    /\ (Response.status r = FAILED -> Deployment.status dep' = "failed")
    /\ (Response.status r = COMPLETED ->
        Job.command_type j <> "DEPLOY_COMPOSE" ->
        Job.command_type j <> "STOP_COMPOSE" ->
        Deployment.status dep' = Deployment.status dep).
Proof.
  intros Hreach Hj Hd Hdep.
  assert (d <> 0) as Hne.
  { pose proof (reachable_deployment_ids st Hreach dep
                  (select_deployment_In _ _ _ Hdep)) as Hpos.
    rewrite (select_deployment_id _ _ _ Hdep) in Hpos. lia. }
  exists (deployment_of_reply r (Job.command_type j) t_dep dep).
  split; [by apply (handle_response_select_deployment r t_job t_dep _ j) |].
  unfold deployment_of_reply, reply_deployment_status; simpl.
  repeat split.
  - intros -> ->. reflexivity.
  - intros -> ->. reflexivity.
  - intros ->. reflexivity.
  - intros -> H1 H2; simpl.
    apply String.eqb_neq in H1, H2. by rewrite H1, H2.
Qed.

(** ** Replies that come twice *)

Section duplicates.

Lemma map_update_twice {A : Type} (key : A -> bool) (f g : A -> A)
    (l : list A) :
  (forall x, key (g x) = key x) ->
  (forall x, f (g x) = f x) ->
  map (fun x => if key x then f x else x)
    (map (fun x => if key x then g x else x) l)
  = map (fun x => if key x then f x else x) l.
Proof.
  intros Hkey Hfg. rewrite map_map. apply map_ext. intros x.
  destruct (key x) eqn:E; [| by rewrite E].
  by rewrite Hkey, E, Hfg.
Qed.

Lemma update_job_twice k f g db :
  (forall j, Job.id (g j) = Job.id j) ->
  (forall j, f (g j) = f j) ->
  update_job k f (update_job k g db) = update_job k f db.
Proof.
  intros Hg Hfg. unfold update_job; simpl. f_equal.
  apply (map_update_twice (fun j => String.eqb (Job.id j) k)); [| done].
  intros j. by rewrite Hg.
Qed.

Lemma update_deployment_twice k f g db :
  (forall d, Deployment.id (g d) = Deployment.id d) ->
  (forall d, f (g d) = f d) ->
  update_deployment k f (update_deployment k g db) = update_deployment k f db.
Proof.
  intros Hg Hfg. unfold update_deployment; simpl. f_equal.
  apply (map_update_twice (fun d => Deployment.id d =? k)); [| done].
  intros d. by rewrite Hg.
Qed.

Lemma update_job_deployment_comm k f k' g db :
  update_job k f (update_deployment k' g db)
  = update_deployment k' g (update_job k f db).
Proof. reflexivity. Qed.

Lemma reply_deployment_status_twice s ct old :
  reply_deployment_status s ct (reply_deployment_status s ct old)
  = reply_deployment_status s ct old.
Proof.
  unfold reply_deployment_status.
  destruct (ResponseStatusEnum.eqb s COMPLETED).
  - destruct (String.eqb ct _); [done |]. by destruct (String.eqb ct _).
  - by destruct (ResponseStatusEnum.eqb s FAILED).
Qed.

Lemma deployment_of_reply_twice r ct t t' d :
  deployment_of_reply r ct t' (deployment_of_reply r ct t d)
  = deployment_of_reply r ct t' d.
Proof.
  unfold deployment_of_reply; simpl.
  by rewrite reply_deployment_status_twice.
Qed.

(** The same reply processed a second time leaves what processing it once,
    at the second time, leaves. *)
Lemma handle_response_twice r t1 t2 t3 t4 db :
  handle_response r t3 t4 (handle_response r t1 t2 db)
  = handle_response r t3 t4 db.
Proof.
  destruct (select_job (Response.job_id r) db) as [j|] eqn:Hj.
  2:{ unfold handle_response. by rewrite Hj, Hj. }
  pose proof (handle_response_select_job r t1 t2 db j Hj) as Hj1.
  pose proof (select_job_id _ _ _ Hj) as Hid.
  unfold handle_response at 1. rewrite Hj1. simpl.
  unfold handle_response. rewrite Hj, Hid.
  destruct (Job.deployment_id j) as [d|];
    [| by apply update_job_twice].
  destruct (d =? 0); [by apply update_job_twice |].
  change (select_deployment d
            (update_job (Response.job_id r) (job_of_reply r t1) db))
    with (select_deployment d db).
  destruct (select_deployment d db) as [dep|] eqn:Hdep.
  - pose proof (select_deployment_id _ _ _ Hdep) as Hd. rewrite Hd.
    rewrite update_job_deployment_comm, update_job_twice by done.
    change (select_deployment d
              (update_deployment d
                 (deployment_of_reply r (Job.command_type j) t2)
                 (update_job (Response.job_id r) (job_of_reply r t3) db)))
      with (select_deployment d
              (update_deployment d
                 (deployment_of_reply r (Job.command_type j) t2) db)).
    rewrite (select_deployment_update_same d _ db dep) by done. simpl.
    change (select_deployment d
              (update_job (Response.job_id r) (job_of_reply r t3) db))
      with (select_deployment d db).
    rewrite Hdep, Hd.
    rewrite update_deployment_twice; [done | done |].
    intros x. apply deployment_of_reply_twice.
  - rewrite update_job_twice by done.
    change (select_deployment d
              (update_job (Response.job_id r) (job_of_reply r t3) db))
      with (select_deployment d db).
    by rewrite Hdep.
Qed.

End duplicates.

Lemma reply_sets_deployment_status_witness :
  exists dep',
    select_deployment 1
      (store (ws_reply Scenario.reply_completed 30 31 Scenario.dispatched))
    = Some dep'
    /\ Deployment.status dep' = "running".
Proof.
  destruct (reply_sets_deployment_status Scenario.dispatched
              Scenario.reply_completed 30 31 Scenario.job_J 1
              Scenario.deployment_x reachable_dispatched
              eq_refl eq_refl eq_refl)
    as (dep' & Hsel & Hrun & _).
  exists dep'. split; [exact Hsel |]. apply Hrun; reflexivity.
Defined.

(** ** Terminal jobs and later replies *)

Lemma handle_response_ext r r' t1 t2 db :
  Response.job_id r' = Response.job_id r ->
  Response.status r' = Response.status r ->
  Response.logs r' = Response.logs r ->
  Response.error r' = Response.error r ->
  handle_response r' t1 t2 db = handle_response r t1 t2 db.
Proof.
  destruct r, r'; simpl. by intros -> -> -> ->.
Qed.

(** C1, as stated, fails: job [J] is [completed] by a first reply; a second
    reply for [J] with status [FAILED] rewrites the job row and the
    deployment row. *)
Lemma duplicate_reply_overwrites : ~ duplicate_reply_ignored.
Proof.
  intros H.
  destruct (H Scenario.dispatched Scenario.reply_completed
              Scenario.reply_failed 30 31 40 41
              (job_of_reply Scenario.reply_completed 30 Scenario.job_J)
              reachable_dispatched eq_refl eq_refl eq_refl)
    as [Hjobs _].
  vm_compute in Hjobs. discriminate Hjobs.
Qed.

(** C1, amended: a second reply with the job id of a first one is applied
    like the first, whatever state the job is in. The job row then holds
    the status of the second reply in lower case, its logs and its error
    and the time of the second reply; the deployment the job refers to gets
    the logs, the error and the time of the second reply and the status
    [failed] for a failed reply, [running] or [stopped] for a completed
    reply to a deploy or stop command, and otherwise the status the first
    reply left. When the second reply has the status, logs and error of the
    first, job row and deployment row are those the first reply left, with
    nothing but [updated_at] rewritten. *)
Theorem second_reply_is_applied (st : State) (r1 r2 : Response.t)
    (t1 t2 t3 t4 : datetime) (j : Job.t) :
  select_job (Response.job_id r1) (store st) = Some j ->
  Response.job_id r2 = Response.job_id r1 ->
  let st1 := ws_reply r1 t1 t2 st in
  let st2 := ws_reply r2 t3 t4 st1 in
  (exists j1,
      select_job (Response.job_id r1) (store st1) = Some j1
      /\ select_job (Response.job_id r1) (store st2)
         = Some (Job.mk (Job.id j) (Job.deployment_id j) (Job.agent_id j)
                   (Job.command_type j)
                   match Response.status r2 with
                   | COMPLETED => "completed"
                   | FAILED => "failed"
                   | IN_PROGRESS => "in_progress"
                   | QUEUED => "queued"
                   end
                   (Some (Response.logs r2)) (Response.error r2)
                   (Job.created_at j) t3)
      /\ (Response.status r2 = Response.status r1 ->
          Response.logs r2 = Response.logs r1 ->
          Response.error r2 = Response.error r1 ->
          select_job (Response.job_id r1) (store st2)
          = Some (Job.mk (Job.id j1) (Job.deployment_id j1) (Job.agent_id j1)
                    (Job.command_type j1) (Job.status j1) (Job.logs j1)
                    (Job.error j1) (Job.created_at j1) t3)))
  /\ (forall d dep,
        reachable st ->
        Job.deployment_id j = Some d ->
        select_deployment d (store st) = Some dep ->
        exists dep1 dep2,
          select_deployment d (store st1) = Some dep1
          /\ select_deployment d (store st2) = Some dep2
          /\ Deployment.last_logs dep2 = Some (Response.logs r2)
          /\ Deployment.last_error dep2 = Response.error r2
          /\ Deployment.updated_at dep2 = t4
          /\ (Response.status r2 = FAILED -> Deployment.status dep2 = "failed")
          /\ (Response.status r2 = COMPLETED ->
              Job.command_type j = "DEPLOY_COMPOSE" ->
              Deployment.status dep2 = "running")
          /\ (Response.status r2 = COMPLETED ->
              Job.command_type j = "STOP_COMPOSE" ->
              Deployment.status dep2 = "stopped")
          /\ (Response.status r2 = COMPLETED ->
              Job.command_type j <> "DEPLOY_COMPOSE" ->
              Job.command_type j <> "STOP_COMPOSE" ->
              Deployment.status dep2 = Deployment.status dep1)
          /\ (Response.status r2 = IN_PROGRESS \/ Response.status r2 = QUEUED ->
              Deployment.status dep2 = Deployment.status dep1)
          /\ (Response.status r2 = Response.status r1 ->
              Response.logs r2 = Response.logs r1 ->
              Response.error r2 = Response.error r1 ->
              dep2
              = Deployment.mk (Deployment.id dep1)
                  (Deployment.project_name dep1) (Deployment.agent_id dep1)
                  (Deployment.status dep1) (Deployment.compose_file_hash dep1)
                  (Deployment.created_at dep1) t4 (Deployment.last_logs dep1)
                  (Deployment.last_error dep1)))
  /\ (Response.status r2 = Response.status r1 ->
      Response.logs r2 = Response.logs r1 ->
      Response.error r2 = Response.error r1 ->
      store st2 = store (ws_reply r1 t3 t4 st)).
Proof.
  intros Hj Hid st1 st2.
  assert (select_job (Response.job_id r1) (store st1)
          = Some (job_of_reply r1 t1 j)) as Hj1
    by (by apply handle_response_select_job).
  assert (select_job (Response.job_id r1) (store st2)
          = Some (job_of_reply r2 t3 (job_of_reply r1 t1 j))) as Hj2.
  { subst st2. simpl. rewrite <- Hid.
    apply handle_response_select_job. by rewrite Hid. }
  split; [| split].
  - exists (job_of_reply r1 t1 j). split; [done |]. split.
    + rewrite Hj2. unfold job_of_reply; simpl.
      by destruct (Response.status r2).
    + intros Hs Hl He. rewrite Hj2. unfold job_of_reply; simpl.
      by rewrite Hs, Hl, He.
  - intros d dep Hreach Hd Hdep.
    assert (d <> 0) as Hd0.
    { pose proof (reachable_deployment_ids st Hreach dep
                    (select_deployment_In _ _ _ Hdep)) as Hpos.
      rewrite (select_deployment_id _ _ _ Hdep) in Hpos. lia. }
    assert (select_deployment d (store st1)
            = Some (deployment_of_reply r1 (Job.command_type j) t2 dep))
      as Hdep1
      by (by apply (handle_response_select_deployment r1 t1 t2 _ j)).
    assert (select_deployment d (store st2)
            = Some (deployment_of_reply r2 (Job.command_type j) t4
                      (deployment_of_reply r1 (Job.command_type j) t2 dep)))
      as Hdep2.
    { subst st2. simpl.
      apply (handle_response_select_deployment r2 t3 t4 _
               (job_of_reply r1 t1 j)); try done.
      by rewrite Hid. }
    eexists _, _. split; [exact Hdep1 |]. split; [exact Hdep2 |].
    unfold deployment_of_reply, reply_deployment_status; simpl.
    split; [done |]. split; [done |]. split; [done |].
    split; [by intros -> |]. split; [by intros -> -> |].
    split; [by intros -> -> |]. split.
    { intros -> H1 H2. simpl.
      apply String.eqb_neq in H1, H2. by rewrite H1, H2. }
    split; [by intros [-> | ->] |].
    intros Hs Hl He. rewrite Hs, Hl, He. f_equal.
    destruct (ResponseStatusEnum.eqb (Response.status r1) COMPLETED).
    + destruct (String.eqb (Job.command_type j) _); [done |].
      by destruct (String.eqb (Job.command_type j) _).
    + by destruct (ResponseStatusEnum.eqb (Response.status r1) FAILED).
  - intros Hs Hl He. subst st2 st1. simpl.
    rewrite (handle_response_ext r1 r2) by done.
    apply handle_response_twice.
Qed.

Lemma second_reply_is_applied_witness :
  exists j1,
    select_job "J"
      (store (ws_reply Scenario.reply_completed 30 31 Scenario.dispatched))
    = Some j1
    /\ select_job "J"
         (store (ws_reply Scenario.reply_failed 40 41
                   (ws_reply Scenario.reply_completed 30 31
                      Scenario.dispatched)))
       = Some (Job.mk "J" (Some 1) 1 "DEPLOY_COMPOSE" "failed" (Some "late")
                 (Some "boom") 20 40).
Proof.
  destruct (proj1 (second_reply_is_applied Scenario.dispatched
                     Scenario.reply_completed Scenario.reply_failed
                     30 31 40 41 Scenario.job_J eq_refl eq_refl))
    as (j1 & Hj1 & Hj2 & _).
  exists j1. split; [exact Hj1 | exact Hj2].
Defined.

Section frames.

Lemma ws_open_jobs h ws ok t1 t2 st :
  jobs (store (fst (fst (ws_open h ws ok t1 t2 st)))) = jobs (store st).
Proof.
  unfold ws_open. destruct (authorized h); simpl; [| done].
  unfold register_agent.
  destruct (select_agent_by_hostname _ _); simpl;
    by destruct (ConnectionManager.connect _ _ _ _ _).
Qed.

Lemma ws_close_jobs a now st :
  jobs (store (ws_close a now st)) = jobs (store st).
Proof. unfold ws_close. by destruct (select_agent_by_id _ _). Qed.

Lemma ws_close_deployments a now st :
  deployments (store (ws_close a now st)) = deployments (store st).
Proof. unfold ws_close. by destruct (select_agent_by_id _ _). Qed.

Lemma ws_close_connection_manager a now st :
  connection_manager (ws_close a now st)
  = ConnectionManager.disconnect a (connection_manager st).
Proof. unfold ws_close. by destruct (select_agent_by_id _ _). Qed.

Lemma select_job_jobs k db db' :
  jobs db' = jobs db -> select_job k db' = select_job k db.
Proof. unfold select_job. by intros ->. Qed.

(** A step that is not a reply for job [k] leaves the row of job [k]. *)
Lemma step_select_job o st k j :
  select_job k (store st) = Some j ->
  (forall r t1 t2, o = WsReply r t1 t2 -> Response.job_id r <> k) ->
  select_job k (store (step o st)) = Some j.
Proof.
  intros Hk Ho.
  destruct o as [h ws ok t1 t2 | r t1 t2 | a now | rq t1 t2 e | p rq e | p e];
    simpl.
  - by rewrite (select_job_jobs _ _ _ (ws_open_jobs h ws ok t1 t2 st)).
  - rewrite handle_response_select_other; [done |]. by eapply Ho.
  - by rewrite (select_job_jobs _ _ _ (ws_close_jobs a now st)).
  - unfold deploy_project.
    destruct (find_target_agent rq (store st)) as [ag | | |]; [| done ..].
    destruct (ConnectionManager.is_connected _ _); simpl; [| done].
    by apply create_job_and_send_select_job.
  - unfold stop_project.
    destruct (select_latest_deployment _ _) as [dep|]; [| done].
    destruct (ConnectionManager.is_connected _ _); simpl; [| done].
    by apply create_job_and_send_select_job.
  - unfold get_project_status.
    destruct (select_latest_deployment _ _) as [dep|]; [| done].
    destruct (ConnectionManager.is_connected _ _); simpl; [| done].
    by apply create_job_and_send_select_job.
Qed.

End frames.

(** C3, as stated, fails: job [J] is [completed]; a later reply for [J] with
    status [FAILED] makes it [failed]. *)
Lemma later_reply_leaves_terminal : ~ terminal_is_final.
Proof.
  intros H.
  destruct (H Scenario.completed (WsReply Scenario.reply_failed 40 41) "J"
              (job_of_reply Scenario.reply_completed 30 Scenario.job_J)
              reachable_completed eq_refl eq_refl)
    as (j' & Hsel & Hstatus).
  vm_compute in Hsel. injection Hsel as <-. discriminate Hstatus.
Qed.

(** C3, amended: a job in a terminal state keeps its row, and so its status,
    under every operation that is not a reply carrying its job id (opening
    or closing a connection, a reply for another job, a deploy, stop or
    status request); a later reply carrying its job id is applied and
    overwrites the status with the status of that reply. *)
Theorem terminal_changes_only_by_own_reply (st : State) (o : op) (k : string)
    (j : Job.t) :
  select_job k (store st) = Some j ->
  terminal (Job.status j) = true ->
  ((forall r t1 t2, o = WsReply r t1 t2 -> Response.job_id r <> k) ->
   select_job k (store (step o st)) = Some j)
  /\ (forall r t1 t2,
        o = WsReply r t1 t2 -> Response.job_id r = k ->
        exists j',
          select_job k (store (step o st)) = Some j'
          /\ Job.status j'
             = lower (ResponseStatusEnum.value (Response.status r))).
Proof.
  intros Hk _. split.
  - by apply step_select_job.
  - intros r t1 t2 -> <-. exists (job_of_reply r t1 j). split; [| done].
    by apply handle_response_select_job.
Qed.

Lemma terminal_changes_only_by_own_reply_witness :
  select_job "J" (store (step (WsClose 1 50) Scenario.completed))
  = Some (job_of_reply Scenario.reply_completed 30 Scenario.job_J).
Proof.
  apply (proj1 (terminal_changes_only_by_own_reply Scenario.completed
                  (WsClose 1 50) "J"
                  (job_of_reply Scenario.reply_completed 30 Scenario.job_J)
                  eq_refl eq_refl)).
  intros r t1 t2 Heq. discriminate Heq.
Defined.

(** ** Closing a connection *)

(** C4, as stated, fails: agent [1] disconnects while its job [J] is still
    [queued]; after the teardown [J] is still [queued]. *)
Lemma teardown_keeps_job_queued : ~ teardown_fails_queued_jobs.
Proof.
  intros H.
  destruct (H Scenario.dispatched 1 50 "J" Scenario.job_J
              reachable_dispatched eq_refl eq_refl eq_refl)
    as (j' & Hsel & Hstatus & _).
  vm_compute in Hsel. injection Hsel as <-. discriminate Hstatus.
Qed.

(** C4, amended: the teardown of an agent's session removes the agent from
    the connection manager and rewrites its agent row with status
    [offline] and the current time as [last_seen], every other column
    kept; the jobs and deployments tables are left as they are, so a job of
    that agent that has received no reply stays [queued]. When no agent row
    has the id, the database is left as it is. *)
Theorem teardown_leaves_jobs (st : State) (agent_id : Z) (now : datetime) :
  jobs (store (ws_close agent_id now st)) = jobs (store st)
  /\ deployments (store (ws_close agent_id now st)) = deployments (store st)
  /\ ConnectionManager.is_connected agent_id
       (connection_manager (ws_close agent_id now st)) = false
  /\ (forall ag,
        select_agent_by_id agent_id (store st) = Some ag ->
        select_agent_by_id agent_id (store (ws_close agent_id now st))
        = Some (Agent.mk (Agent.id ag) (Agent.hostname ag) (Agent.ip_address ag)
                  "offline" now (Agent.version ag) (Agent.architecture ag)
                  (Agent.created_at ag)))
  /\ (select_agent_by_id agent_id (store st) = None ->
      store (ws_close agent_id now st) = store st).
Proof.
  split; [apply ws_close_jobs |].
  split; [apply ws_close_deployments |].
  split; [rewrite ws_close_connection_manager; apply is_connected_disconnect |].
  split.
  - intros ag Hag. unfold ws_close. rewrite Hag; simpl.
    pose proof (select_agent_by_id_id _ _ _ Hag) as Hid. rewrite Hid.
    rewrite (select_agent_update_same agent_id (agent_offline now) (store st)
               ag) by done.
    unfold agent_offline. by rewrite Hid.
  - intros Hnone. unfold ws_close. by rewrite Hnone.
Qed.

Lemma teardown_leaves_jobs_witness :
  select_agent_by_id 1 (store (ws_close 1 50 Scenario.dispatched))
  = Some (Agent.mk 1 "web-1" (Some "10.0.0.1") "offline" 50 (Some "1.0")
            (Some "amd64") 11).
Proof.
  exact (proj1 (proj2 (proj2 (proj2
           (teardown_leaves_jobs Scenario.dispatched 1 50))))
           (Agent.mk 1 "web-1" (Some "10.0.0.1") "online" 10 (Some "1.0")
              (Some "amd64") 11)
           eq_refl).
Defined.

(** ** Reconnecting *)

(** C2, as stated, fails: agent [web-1] is attached to websocket [7] and
    connects again on websocket [8]; the only websocket call made is
    [accept] on [8], websocket [7] is never closed. *)
Lemma reconnect_leaves_old_socket_open : ~ reconnect_closes_old_session.
Proof.
  intros H.
  destruct (H Scenario.connected Scenario.web1 8%nat 60 61
              (Agent.mk 1 "web-1" (Some "10.0.0.1") "online" 10 (Some "1.0")
                 (Some "amd64") 11)
              7%nat reachable_connected eq_refl eq_refl eq_refl)
    as [[code Hclose] _]; [lia |].
  vm_compute in Hclose. destruct Hclose as [Hclose | []]. discriminate Hclose.
Qed.

(** C2, amended: the connection manager holds at most one websocket per
    agent id. When a known agent connects again, the handler finds the same
    agent id, and [connect] replaces the entry of that id by the new
    websocket; the only websocket call made is [accept] on the new
    websocket (the old one is not closed), and the entries of other agents
    are kept. *)
Theorem reconnect_replaces_session (st : State) (h : Handshake)
    (ws : WebSocket) (t1 t2 : datetime) (agent : Agent.t) :
  authorized h = true ->
  select_agent_by_hostname (handshake_hostname h) (store st) = Some agent ->
  snd (fst (ws_open h ws true t1 t2 st)) = Some (Agent.id agent)
  /\ ConnectionManager.active_connections
       (connection_manager (fst (fst (ws_open h ws true t1 t2 st))))
       !! Agent.id agent = Some ws
  /\ snd (ws_open h ws true t1 t2 st) = [EvAccept ws]
  /\ (forall a,
        a <> Agent.id agent ->
        ConnectionManager.active_connections
          (connection_manager (fst (fst (ws_open h ws true t1 t2 st)))) !! a
        = ConnectionManager.active_connections (connection_manager st) !! a).
Proof.
  intros Hauth Hag. unfold ws_open, register_agent. rewrite Hauth, Hag; simpl.
  split; [done |]. split; [by rewrite lookup_insert_eq |].
  split; [done |]. intros a Hne. by rewrite lookup_insert_ne.
Qed.

Lemma reconnect_replaces_session_witness :
  ConnectionManager.active_connections
    (connection_manager
       (fst (fst (ws_open Scenario.web1 8%nat true 60 61 Scenario.connected))))
    !! 1 = Some 8%nat
  /\ snd (ws_open Scenario.web1 8%nat true 60 61 Scenario.connected)
     = [EvAccept 8%nat].
Proof.
  destruct (reconnect_replaces_session Scenario.connected Scenario.web1 8%nat
              60 61
              (Agent.mk 1 "web-1" (Some "10.0.0.1") "online" 10 (Some "1.0")
                 (Some "amd64") 11)
              eq_refl eq_refl)
    as (_ & Hnew & Hevs & _).
  split; [exact Hnew | exact Hevs].
Defined.

(** ** Dispatch *)

Section dispatch.

Lemma select_job_appended k j db :
  select_job k db = None ->
  Job.id j = k ->
  select_job k (mkDatabase (agents db) (deployments db) (jobs db ++ [j]))
  = Some j.
Proof.
  intros Hnone Hid. unfold select_job in *; simpl.
  rewrite find_app_None by done. simpl.
  by rewrite Hid, String.eqb_refl.
Qed.

(** The job row of a dispatch with a fresh job id to a connected agent. *)
Lemma create_job_and_send_job {A} d a ty p e (ok : A) db cm :
  select_job (uuid4 e) db = None ->
  ConnectionManager.is_connected a cm = true ->
  exists j,
    select_job (uuid4 e)
      (store (fst (fst (create_job_and_send d a ty p e ok db cm)))) = Some j
    /\ Job.deployment_id j = Some d
    /\ Job.agent_id j = a
    /\ Job.command_type j = CommandTypeEnum.value ty.
Proof.
  intros Hfresh Hconn. destruct (send_ok e) eqn:Hsend.
  - destruct (is_connected_true _ _ Hconn) as [ws Hws].
    rewrite (create_job_and_send_success d a ty p e ok db cm ws) by done.
    exists (queued_job d a ty e); simpl.
    by rewrite select_job_appended.
  - rewrite create_job_and_send_failure by done.
    exists (failed_job d a ty e); simpl.
    by rewrite select_job_appended.
Qed.

End dispatch.

Lemma create_job_and_send_failed_outcome {A} d a ty p e (ok : A) db cm :
  select_job (uuid4 e) db = None ->
  ConnectionManager.is_connected a cm = true ->
  send_ok e = false ->
  send_failed_outcome (create_job_and_send d a ty p e ok db cm) a (uuid4 e).
Proof.
  intros Hfresh Hconn Hsend. unfold send_failed_outcome.
  rewrite create_job_and_send_failure by done. simpl.
  split; [done |]. split; [apply is_connected_disconnect |].
  exists (failed_job d a ty e). by rewrite select_job_appended.
Qed.

(** C6 fails at agent id [0]. No agent row has id [0], so a deploy request
    that names agent [0] matches no known agent and should be rejected with
    nothing created. The test [if request.agent_id:] takes [0] for an
    absent id: with agent [web-1] (id [1]) online and connected, the request
    is answered [Ok], a deployment row and job [J] are inserted for agent
    [1] and the deploy command is sent to its websocket. In the same way
    [request.agent_id or deployment.agent_id] makes a stop request that
    names agent [0] create job [S] for agent [1] and send it the stop
    command. *)
Theorem dispatch_naming_agent_zero_is_accepted :
  select_agent_by_id 0 (store Scenario.connected) = None
  /\ snd (fst (deploy_project Scenario.deploy_x_agent_0 15 16 Scenario.env_J
                 Scenario.connected))
     = Ok (DeployResponse.mk "J" 1 "queued" "Deployment queued on agent web-1")
  /\ select_deployment 1
       (store (fst (fst (deploy_project Scenario.deploy_x_agent_0 15 16
                           Scenario.env_J Scenario.connected))))
     = Some (Deployment.mk 1 "x" 1 "pending" None 15 16 None None)
  /\ select_job "J"
       (store (fst (fst (deploy_project Scenario.deploy_x_agent_0 15 16
                           Scenario.env_J Scenario.connected))))
     = Some (Job.mk "J" (Some 1) 1 "DEPLOY_COMPOSE" "queued" None None 20 21)
  /\ snd (deploy_project Scenario.deploy_x_agent_0 15 16 Scenario.env_J
            Scenario.connected)
     = [EvSendText 7%nat
          (Command.mk "J" DEPLOY_COMPOSE (DeployPayload "x" "Y29tcG9zZQ=="))]
  /\ snd (fst (stop_project "x" (StopRequest.mk (Some 0))
                 (mkEnv "S" 40 41 true) Scenario.dispatched))
     = Ok (StopResponse.mk "S" "queued" "Stop command queued for project x")
  /\ select_job "S"
       (store (fst (fst (stop_project "x" (StopRequest.mk (Some 0))
                           (mkEnv "S" 40 41 true) Scenario.dispatched))))
     = Some (Job.mk "S" (Some 1) 1 "STOP_COMPOSE" "queued" None None 40 41).
Proof.
  split; [reflexivity |]. split; [vm_compute; reflexivity |].
  split; [vm_compute; reflexivity |]. split; [vm_compute; reflexivity |].
  split; [vm_compute; reflexivity |]. split; vm_compute; reflexivity.
Qed.

(** X26: the rejections of the dispatching handlers happen before any row
    is written. A deploy request that names a non-zero agent id no agent
    row has is rejected with 404 "Agent not found" when the id is a signed
    64-bit integer, and ends in [OverflowError] when it is not; a deploy
    request with no agent id, or with agent id [0], while no agent row is
    online is rejected with 503 "No agents available"; a deploy, stop or
    status request whose agent is not in the connected set is rejected
    with 503 "Agent ... is not connected". In each case the state, and so
    the jobs table, is left as it was and no websocket call is made. *)
Theorem rejected_dispatch_creates_nothing (st : State) :
  (forall rq t1 t2 e a,
      DeployRequest.agent_id rq = Some a -> a <> 0 ->
      in_int64 a = true ->
      select_agent_by_id a (store st) = None ->
      deploy_project rq t1 t2 e st = (st, HTTPException 404 AgentNotFound, []))
  /\ (forall rq t1 t2 e a,
        DeployRequest.agent_id rq = Some a ->
        in_int64 a = false ->
        deploy_project rq t1 t2 e st = (st, OverflowError, []))
  /\ (forall rq t1 t2 e,
        DeployRequest.agent_id rq = None \/ DeployRequest.agent_id rq = Some 0 ->
        select_online_agent (store st) = None ->
        deploy_project rq t1 t2 e st
        = (st, HTTPException 503 NoAgentsAvailable, []))
  /\ (forall rq t1 t2 e agent,
        find_target_agent rq (store st) = Ok agent ->
        ConnectionManager.is_connected (Agent.id agent) (connection_manager st)
        = false ->
        deploy_project rq t1 t2 e st
        = (st, HTTPException 503 (AgentNotConnected (Agent.id agent)), []))
  /\ (forall p rq e dep,
        select_latest_deployment p (store st) = Some dep ->
        ConnectionManager.is_connected
          (int_or (StopRequest.agent_id rq) (Deployment.agent_id dep))
          (connection_manager st) = false ->
        stop_project p rq e st
        = (st,
           HTTPException 503
             (AgentNotConnected
                (int_or (StopRequest.agent_id rq) (Deployment.agent_id dep))),
           []))
  /\ (forall p e dep,
        select_latest_deployment p (store st) = Some dep ->
        ConnectionManager.is_connected (Deployment.agent_id dep)
          (connection_manager st) = false ->
        get_project_status p e st
        = (st,
           HTTPException 503 (AgentNotConnected (Deployment.agent_id dep)),
           [])).
Proof.
  split; [| split; [| split; [| split; [| split]]]].
  - intros rq t1 t2 e a Ha Hne Hrange Hnone.
    unfold deploy_project, find_target_agent. rewrite Ha; simpl.
    apply Z.eqb_neq in Hne. by rewrite Hne, Hrange, Hnone.
  - intros rq t1 t2 e a Ha Hrange.
    unfold deploy_project, find_target_agent. rewrite Ha; simpl.
    destruct (a =? 0) eqn:E; [| by rewrite Hrange].
    apply Z.eqb_eq in E. subst a. discriminate Hrange.
  - intros rq t1 t2 e Ha Hnone.
    unfold deploy_project, find_target_agent.
    destruct Ha as [-> | ->]; simpl; by rewrite Hnone.
  - intros rq t1 t2 e agent Hag Hconn.
    unfold deploy_project. by rewrite Hag, Hconn.
  - intros p rq e dep Hdep Hconn.
    unfold stop_project. by rewrite Hdep, Hconn.
  - intros p e dep Hdep Hconn.
    unfold get_project_status. by rewrite Hdep, Hconn.
Qed.

Lemma rejected_dispatch_creates_nothing_witness :
  deploy_project (DeployRequest.mk "x" "Y29tcG9zZQ==" (Some 5)) 15 16
    Scenario.env_J Scenario.connected
  = (Scenario.connected, HTTPException 404 AgentNotFound, []).
Proof.
  apply (proj1 (rejected_dispatch_creates_nothing Scenario.connected)
           (DeployRequest.mk "x" "Y29tcG9zZQ==" (Some 5)) 15 16 Scenario.env_J
           5).
  - reflexivity.
  - lia.
  - reflexivity.
  - reflexivity.
Defined.

(** C7: when the write of a dispatched command to the agent's websocket
    fails, the agent is removed from the connected set, the job row that
    was just created is [failed] with an error text, and the caller gets
    the rejection 503 "Failed to send command to agent". This holds for
    deploy, stop and status requests. *)
Theorem failed_send_tears_down_and_fails_job (st : State) (e : Env) :
  select_job (uuid4 e) (store st) = None ->
  send_ok e = false ->
  (forall rq t1 t2 agent,
      find_target_agent rq (store st) = Ok agent ->
      ConnectionManager.is_connected (Agent.id agent) (connection_manager st)
      = true ->
      send_failed_outcome (deploy_project rq t1 t2 e st) (Agent.id agent)
        (uuid4 e))
  /\ (forall p rq dep,
        select_latest_deployment p (store st) = Some dep ->
        ConnectionManager.is_connected
          (int_or (StopRequest.agent_id rq) (Deployment.agent_id dep))
          (connection_manager st) = true ->
        send_failed_outcome (stop_project p rq e st)
          (int_or (StopRequest.agent_id rq) (Deployment.agent_id dep))
          (uuid4 e))
  /\ (forall p dep,
        select_latest_deployment p (store st) = Some dep ->
        ConnectionManager.is_connected (Deployment.agent_id dep)
          (connection_manager st) = true ->
        send_failed_outcome (get_project_status p e st)
          (Deployment.agent_id dep) (uuid4 e)).
Proof.
  intros Hfresh Hsend. split; [| split].
  - intros rq t1 t2 agent Hag Hconn.
    unfold deploy_project. rewrite Hag, Hconn; simpl.
    by apply create_job_and_send_failed_outcome.
  - intros p rq dep Hdep Hconn.
    unfold stop_project. rewrite Hdep, Hconn; simpl.
    by apply create_job_and_send_failed_outcome.
  - intros p dep Hdep Hconn.
    unfold get_project_status. rewrite Hdep, Hconn; simpl.
    by apply create_job_and_send_failed_outcome.
Qed.

Lemma failed_send_tears_down_and_fails_job_witness :
  send_failed_outcome
    (deploy_project Scenario.deploy_x 15 16 (mkEnv "J" 20 21 false)
       Scenario.connected)
    1 "J".
Proof.
  apply (proj1 (failed_send_tears_down_and_fails_job Scenario.connected
                  (mkEnv "J" 20 21 false) eq_refl eq_refl)
           Scenario.deploy_x 15 16
           (Agent.mk 1 "web-1" (Some "10.0.0.1") "online" 10 (Some "1.0")
              (Some "amd64") 11));
    reflexivity.
Defined.

(** C10: when the send of a deploy request fails after its two rows were
    created, the tables are the old ones with the new deployment row, still
    [pending] and as it was inserted, and the new job row, [failed] with the
    error text; the agents table and all older rows are as before. *)
Theorem failed_send_keeps_deployment_pending (st : State)
    (rq : DeployRequest.t) (t1 t2 : datetime) (e : Env) (agent : Agent.t) :
  find_target_agent rq (store st) = Ok agent ->
  ConnectionManager.is_connected (Agent.id agent) (connection_manager st)
  = true ->
  select_job (uuid4 e) (store st) = None ->
  send_ok e = false ->
  let st' := fst (fst (deploy_project rq t1 t2 e st)) in
  let deployment := pending_deployment rq agent t1 t2 (store st) in
  agents (store st') = agents (store st)
  /\ deployments (store st') = (deployments (store st) ++ [deployment])%list
  /\ jobs (store st')
     = (jobs (store st)
        ++ [failed_job (Deployment.id deployment) (Agent.id agent)
              DEPLOY_COMPOSE e])%list
  /\ select_deployment (Deployment.id deployment) (store st')
     = Some deployment
  /\ Deployment.status deployment = "pending".
Proof.
  intros Hag Hconn Hfresh Hsend st' deployment. subst st'.
  unfold deploy_project. rewrite Hag, Hconn; simpl.
  rewrite create_job_and_send_failure by done. simpl.
  split; [done |]. split; [done |]. split; [done |]. split; [| done].
  apply (select_deployment_insert_fresh deployment (store st)). done.
Qed.

Lemma failed_send_keeps_deployment_pending_witness :
  select_deployment 1
    (store (fst (fst (deploy_project Scenario.deploy_x 15 16
                        (mkEnv "J" 20 21 false) Scenario.connected))))
  = Some Scenario.deployment_x.
Proof.
  exact (proj1 (proj2 (proj2 (proj2
           (failed_send_keeps_deployment_pending Scenario.connected
              Scenario.deploy_x 15 16 (mkEnv "J" 20 21 false)
              (Agent.mk 1 "web-1" (Some "10.0.0.1") "online" 10 (Some "1.0")
                 (Some "amd64") 11)
              eq_refl eq_refl eq_refl eq_refl))))).
Defined.

(** ** The current deployment of a project *)

Section latest.

Lemma insert_desc_In d l x : In x (insert_desc d l) <-> x = d \/ In x l.
Proof.
  induction l as [| y l IH]; simpl; [intuition congruence |].
  destruct (Deployment.created_at d <? Deployment.created_at y); simpl.
  - rewrite IH. tauto.
  - intuition congruence.
Qed.

Lemma insert_desc_sorted d l : sorted_desc l -> sorted_desc (insert_desc d l).
Proof.
  induction l as [| y l IH]; simpl; [intuition |].
  intros [Hy Hl].
  destruct (Deployment.created_at d <? Deployment.created_at y) eqn:E; simpl.
  - apply Z.ltb_lt in E. split; [| by apply IH].
    intros z Hz. apply insert_desc_In in Hz as [-> | Hz]; [lia | by apply Hy].
  - apply Z.ltb_ge in E. split; [| done].
    intros z [<- | Hz]; [done |]. specialize (Hy z Hz). lia.
Qed.

Lemma order_by_created_at_desc_In l x :
  In x (order_by_created_at_desc l) <-> In x l.
Proof.
  unfold order_by_created_at_desc.
  induction l as [| y l IH]; simpl; [done |].
  rewrite insert_desc_In, IH. intuition congruence.
Qed.

Lemma order_by_created_at_desc_sorted l :
  sorted_desc (order_by_created_at_desc l).
Proof.
  unfold order_by_created_at_desc.
  induction l as [| y l IH]; simpl; [done |]. by apply insert_desc_sorted.
Qed.

(** The first row of the ordered selection is one of the project's rows
    and none of them was created later. *)
Lemma select_latest_deployment_Some p db cur :
  select_latest_deployment p db = Some cur ->
  In cur (deployments db)
  /\ Deployment.project_name cur = p
  /\ forall d,
       In d (deployments db) -> Deployment.project_name d = p ->
       Deployment.created_at d <= Deployment.created_at cur.
Proof.
  unfold select_latest_deployment. intros Hhead.
  pose proof (order_by_created_at_desc_sorted
    (List.filter (fun d => String.eqb (Deployment.project_name d) p)
       (deployments db))) as Hsorted.
  pose proof (order_by_created_at_desc_In
    (List.filter (fun d => String.eqb (Deployment.project_name d) p)
       (deployments db))) as Hin.
  destruct (order_by_created_at_desc _) as [| x l]; [done |].
  simpl in Hhead. injection Hhead as ->.
  destruct Hsorted as [Hmax _].
  pose proof (proj1 (Hin cur) (or_introl eq_refl)) as Hcur.
  apply filter_In in Hcur as [Hcur Hname]. apply String.eqb_eq in Hname.
  split; [done |]. split; [done |].
  intros d Hd Hp.
  assert (In d (cur :: l)) as [<- | Hdl]; [| lia | by apply Hmax].
  apply Hin, filter_In. split; [done |]. by apply String.eqb_eq.
Qed.

(** A project with a deployment row has a current deployment. *)
Lemma select_latest_deployment_is_Some p db d :
  In d (deployments db) -> Deployment.project_name d = p ->
  exists cur, select_latest_deployment p db = Some cur.
Proof.
  intros Hd Hp. unfold select_latest_deployment.
  pose proof (order_by_created_at_desc_In
    (List.filter (fun d => String.eqb (Deployment.project_name d) p)
       (deployments db)) d) as Hin.
  destruct (order_by_created_at_desc _) as [| x l]; [| by exists x].
  exfalso. apply Hin, filter_In. split; [done |]. by apply String.eqb_eq.
Qed.

End latest.

(** C8: for a project name with at least one deployment row, stop and
    status requests act on a deployment row of that name with the latest
    [created_at] among all rows of that name: the job they create for a
    connected agent refers to that row. *)
Theorem current_deployment_is_latest (st : State) (p : string) :
  (exists d, In d (deployments (store st)) /\ Deployment.project_name d = p) ->
  exists cur,
    select_latest_deployment p (store st) = Some cur
    /\ In cur (deployments (store st))
    /\ Deployment.project_name cur = p
    /\ (forall d,
          In d (deployments (store st)) -> Deployment.project_name d = p ->
          Deployment.created_at d <= Deployment.created_at cur)
    /\ (forall rq e,
          select_job (uuid4 e) (store st) = None ->
          ConnectionManager.is_connected
            (int_or (StopRequest.agent_id rq) (Deployment.agent_id cur))
            (connection_manager st) = true ->
          exists j,
            select_job (uuid4 e) (store (fst (fst (stop_project p rq e st))))
            = Some j
            /\ Job.deployment_id j = Some (Deployment.id cur)
            /\ Job.command_type j = "STOP_COMPOSE")
    /\ (forall e,
          select_job (uuid4 e) (store st) = None ->
          ConnectionManager.is_connected (Deployment.agent_id cur)
            (connection_manager st) = true ->
          exists j,
            select_job (uuid4 e) (store (fst (fst (get_project_status p e st))))
            = Some j
            /\ Job.deployment_id j = Some (Deployment.id cur)
            /\ Job.command_type j = "STATUS").
Proof.
  intros (d & Hd & Hp).
  destruct (select_latest_deployment_is_Some p (store st) d Hd Hp)
    as [cur Hcur].
  destruct (select_latest_deployment_Some p (store st) cur Hcur)
    as (Hin & Hname & Hmax).
  exists cur. split; [done |]. split; [done |]. split; [done |].
  split; [done |]. split.
  - intros rq e Hfresh Hconn. unfold stop_project. rewrite Hcur, Hconn; simpl.
    destruct (create_job_and_send_job (Deployment.id cur)
                (int_or (StopRequest.agent_id rq) (Deployment.agent_id cur))
                STOP_COMPOSE (StopPayload p) e
                (StopResponse.mk (uuid4 e) "queued"
                   ("Stop command queued for project " ++ p))
                (store st) (connection_manager st) Hfresh Hconn)
      as (j & Hj & Hdep & _ & Hty).
    by exists j.
  - intros e Hfresh Hconn. unfold get_project_status.
    rewrite Hcur, Hconn; simpl.
    destruct (create_job_and_send_job (Deployment.id cur)
                (Deployment.agent_id cur) STATUS (StatusPayload p) e
                (StatusResponse.mk (uuid4 e) "queued"
                   ("Status check queued for project " ++ p))
                (store st) (connection_manager st) Hfresh Hconn)
      as (j & Hj & Hdep & _ & Hty).
    by exists j.
Qed.

Example redeployed_current :
  select_latest_deployment "x" (store Scenario.redeployed)
  = Some Scenario.deployment_x2.
Proof. reflexivity. Qed.

Lemma current_deployment_is_latest_witness :
  exists cur,
    select_latest_deployment "x" (store Scenario.redeployed) = Some cur
    /\ In cur (deployments (store Scenario.redeployed))
    /\ Deployment.project_name cur = "x".
Proof.
  destruct (current_deployment_is_latest Scenario.redeployed "x"
              (ex_intro _ Scenario.deployment_x
                 (conj (or_introl eq_refl) eq_refl)))
    as (cur & Hcur & Hin & Hname & _).
  exists cur. split; [exact Hcur |]. split; [exact Hin | exact Hname].
Defined.


(** ** The token check *)

Section token.

Lemma word_cons c s : word (String c s) = (negb (isspace c) && no_space s)%bool.
Proof. reflexivity. Qed.

Lemma starts_word_app w rest :
  word w = true -> starts_word (w ++ rest) = true.
Proof.
  destruct w as [| c w]; [done |]. rewrite word_cons. simpl.
  by intros [? _]%andb_true_iff.
Qed.

(** A word in front of text that does not continue it is the first part. *)
Lemma split_word_app w rest :
  word w = true -> starts_word rest = false ->
  split (w ++ rest) = w :: split rest.
Proof.
  intros Hw Hrest. induction w as [| c w IH]; [done |].
  rewrite word_cons in Hw. apply andb_true_iff in Hw as [Hc Hns].
  apply negb_true_iff in Hc.
  change (String c w ++ rest) with (String c (w ++ rest)).
  cbn [split]. rewrite Hc.
  destruct w as [| c' w'].
  - change ("" ++ rest) with rest. by rewrite Hrest.
  - assert (word (String c' w') = true) as Hw' by done.
    rewrite (starts_word_app _ rest Hw'). by rewrite (IH Hw').
Qed.

Lemma split_word w : word w = true -> split w = [w].
Proof.
  intros Hw. pose proof (split_word_app w "" Hw eq_refl) as H.
  assert (w ++ "" = w) as Heq.
  { clear. induction w as [| c w IH]; [done |].
    change (String c w ++ "") with (String c (w ++ "")). by f_equal. }
  by rewrite Heq in H.
Qed.

Lemma split_two scheme token :
  word scheme = true -> word token = true ->
  split (scheme ++ " " ++ token) = [scheme; token].
Proof.
  intros Hs Ht. rewrite split_word_app by done.
  change (" " ++ token) with (String " " token). cbn [split].
  change (isspace " ") with true. cbn iota. by rewrite split_word.
Qed.

(** Every part [split] gives is a word. *)
Lemma split_words s : Forall (fun w => word w = true) (split s).
Proof.
  induction s as [| c s IH]; [constructor |].
  cbn [split]. destruct (isspace c) eqn:Hc; [done |].
  destruct (starts_word s).
  - destruct (split s) as [| w ws]; [| apply Forall_cons in IH as [Hw Hws]].
    + constructor; [| constructor]. simpl. by rewrite Hc.
    + constructor; [| done]. rewrite word_cons, Hc. simpl.
      by destruct w.
  - constructor; [| done]. simpl. by rewrite Hc.
Qed.

End token.

(** X1: for a scheme and a token that are words (not empty, no white
    space), the header [scheme token] is accepted exactly when the scheme
    is [bearer] in any letter case and the token is the configured
    secret. *)
Theorem verify_agent_token_bearer (secret scheme token : string) :
  word scheme = true ->
  word token = true ->
  verify_agent_token secret (Some (scheme ++ " " ++ token))
  = (String.eqb (lower scheme) "bearer" && String.eqb token secret)%bool.
Proof.
  intros Hs Ht. unfold verify_agent_token.
  rewrite (split_two scheme token Hs Ht).
  destruct scheme as [| c scheme]; [done |].
  change (String c scheme ++ " " ++ token)
    with (String c (scheme ++ " " ++ token)).
  by destruct (String.eqb (lower (String c scheme)) "bearer").
Qed.

Lemma verify_agent_token_bearer_witness :
  verify_agent_token "s3cret" (Some ("BEARER" ++ " " ++ "s3cret")) = true.
Proof.
  exact (verify_agent_token_bearer "s3cret" "BEARER" "s3cret" eq_refl eq_refl).
Defined.

(** X2: when the configured secret is empty or contains white space, no
    header is accepted, and every connection attempt ends with
    [close(1008)] on its websocket and the state as it was. *)
Theorem unusable_secret_rejects_all (secret : string)
    (authorization version architecture hostname client : option string)
    (ws : WebSocket) (accept_ok : bool) (t1 t2 : datetime) (st : State) :
  word secret = false ->
  verify_agent_token secret authorization = false
  /\ websocket_endpoint_open secret authorization version architecture
       hostname client ws accept_ok t1 t2 st
     = (st, None, [EvClose ws 1008]).
Proof.
  intros Hsecret.
  assert (verify_agent_token secret authorization = false) as Hv.
  { unfold verify_agent_token.
    destruct authorization as [[| c a] |]; [done | | done].
    pose proof (split_words (String c a)) as Hw.
    destruct (split (String c a)) as [| scheme [| token [| ? ?]]]; try done.
    destruct (String.eqb (lower scheme) "bearer"); [| done].
    apply Forall_cons in Hw as [_ Hw]. apply Forall_cons in Hw as [Hw _].
    destruct (String.eqb token secret) eqn:E; [| done].
    apply String.eqb_eq in E. congruence. }
  split; [exact Hv |].
  unfold websocket_endpoint_open, ws_open. simpl. by rewrite Hv.
Qed.

Lemma unusable_secret_rejects_all_witness :
  verify_agent_token "two words" (Some "Bearer two words") = false.
Proof.
  exact (proj1 (unusable_secret_rejects_all "two words"
                  (Some "Bearer two words") None None None None 0%nat true
                  0 0 initial_state eq_refl)).
Defined.


(** ** More on the connection manager *)

Lemma disconnect_lookup_other a b m :
  b <> a ->
  ConnectionManager.active_connections (ConnectionManager.disconnect a m) !! b
  = ConnectionManager.active_connections m !! b
  /\ ConnectionManager.agent_hostnames (ConnectionManager.disconnect a m) !! b
     = ConnectionManager.agent_hostnames m !! b.
Proof.
  intros Hb. unfold ConnectionManager.disconnect.
  destruct (ConnectionManager.active_connections m !! a); [| done].
  simpl. split; [by rewrite lookup_delete_ne |].
  destruct (ConnectionManager.agent_hostnames m !! a); [| done].
  by rewrite lookup_delete_ne.
Qed.

Lemma is_connected_disconnect_inv a b m :
  ConnectionManager.is_connected b (ConnectionManager.disconnect a m) = true ->
  ConnectionManager.is_connected b m = true.
Proof.
  destruct (decide (b = a)) as [-> | Hne].
  - by rewrite is_connected_disconnect.
  - unfold ConnectionManager.is_connected.
    by rewrite (proj1 (disconnect_lookup_other a b m Hne)).
Qed.

(** X3: [disconnect] removes exactly the given agent: afterwards the agent
    is not connected, the entries of every other agent in both dictionaries
    are as before, and for an agent that is not connected the call changes
    nothing. *)
Theorem disconnect_only_that_agent (agent_id : Z) (m : ConnectionManager.t) :
  ConnectionManager.is_connected agent_id
    (ConnectionManager.disconnect agent_id m) = false
  /\ (forall b,
        b <> agent_id ->
        ConnectionManager.active_connections
          (ConnectionManager.disconnect agent_id m) !! b
        = ConnectionManager.active_connections m !! b
        /\ ConnectionManager.agent_hostnames
             (ConnectionManager.disconnect agent_id m) !! b
           = ConnectionManager.agent_hostnames m !! b)
  /\ (ConnectionManager.is_connected agent_id m = false ->
      ConnectionManager.disconnect agent_id m = m).
Proof.
  split; [apply is_connected_disconnect |]. split.
  - intros b Hb. by apply disconnect_lookup_other.
  - unfold ConnectionManager.is_connected, ConnectionManager.disconnect.
    intros H. apply bool_decide_eq_false in H.
    destruct (ConnectionManager.active_connections m !! agent_id) eqn:E;
      [| done].
    exfalso. apply H. by eexists.
Qed.

(** X4: on a manager whose two dictionaries have the same keys, connecting
    an agent that is not connected and disconnecting it again gives back
    the manager as it was. *)
Theorem connect_disconnect_restores (agent_id : Z) (hostname : string)
    (ws : WebSocket) (m : ConnectionManager.t) :
  same_keys m ->
  ConnectionManager.is_connected agent_id m = false ->
  ConnectionManager.disconnect agent_id
    (fst (ConnectionManager.connect agent_id hostname ws true m))
  = m.
Proof.
  intros Hkeys Hconn.
  unfold ConnectionManager.is_connected in Hconn.
  apply bool_decide_eq_false in Hconn.
  assert (ConnectionManager.active_connections m !! agent_id = None) as Hact.
  { destruct (_ !! agent_id) eqn:E; [| done]. exfalso. apply Hconn. by eexists. }
  assert (ConnectionManager.agent_hostnames m !! agent_id = None) as Hhost.
  { apply not_elem_of_dom. rewrite Hkeys. by apply not_elem_of_dom. }
  unfold ConnectionManager.connect, ConnectionManager.disconnect; simpl.
  rewrite !lookup_insert_eq. rewrite !delete_insert_id by done.
  by destruct m.
Qed.

Lemma connect_disconnect_restores_witness :
  ConnectionManager.disconnect 1
    (fst (ConnectionManager.connect 1 "web-1" 7%nat true
            ConnectionManager.init))
  = ConnectionManager.init.
Proof.
  exact (connect_disconnect_restores 1 "web-1" 7%nat ConnectionManager.init
           same_keys_init eq_refl).
Defined.

(** X5: what a caller of [send_command] can rely on. A [True] result means
    the manager is unchanged and exactly one [send_text] went to the
    websocket attached to the agent; a [False] result means no [send_text]
    was recorded and the agent is not connected afterwards. The entries of
    every other agent are untouched in both cases. *)
Theorem send_command_outcome (agent_id : Z) (command : Command.t)
    (ok : bool) (m : ConnectionManager.t) :
  let out := ConnectionManager.send_command agent_id command ok m in
  (snd (fst out) = true ->
   fst (fst out) = m
   /\ exists ws,
        ConnectionManager.active_connections m !! agent_id = Some ws
        /\ snd out = [EvSendText ws command])
  /\ (snd (fst out) = false ->
      snd out = []
      /\ ConnectionManager.is_connected agent_id (fst (fst out)) = false)
  /\ (forall b,
        b <> agent_id ->
        ConnectionManager.active_connections (fst (fst out)) !! b
        = ConnectionManager.active_connections m !! b).
Proof.
  unfold ConnectionManager.send_command.
  destruct (ConnectionManager.active_connections m !! agent_id) as [ws|] eqn:E.
  - destruct ok; simpl.
    + split; [intros _; split; [done | by exists ws] |]. by split.
    + split; [done |]. split.
      * intros _. split; [done | apply is_connected_disconnect].
      * intros b Hb. by apply disconnect_lookup_other.
  - simpl. split; [done |]. split; [| done].
    intros _. split; [done |].
    unfold ConnectionManager.is_connected. rewrite E.
    apply bool_decide_eq_false. by intros [? ?].
Qed.

Section broadcasting.

Lemma size_disconnect a m ws :
  ConnectionManager.active_connections m !! a = Some ws ->
  size (ConnectionManager.active_connections m)
  = S (size (ConnectionManager.active_connections
               (ConnectionManager.disconnect a m))).
Proof.
  intros Hws. unfold ConnectionManager.disconnect. rewrite Hws. simpl.
  rewrite <- (insert_delete_id (ConnectionManager.active_connections m) a ws)
    at 1 by done.
  rewrite map_size_insert_None; [done | apply lookup_delete_eq].
Qed.

(** As long as every write succeeds the loop goes on. *)
Lemma broadcast_from_all_ok keys command send_ok m :
  (forall a, In a keys -> send_ok a = true) ->
  broadcast_from (size (ConnectionManager.active_connections m)) keys command
    send_ok m
  = (m, sends_to keys command m, false).
Proof.
  induction keys as [| a keys IH]; intros Hok; [done |].
  cbn [broadcast_from]. unfold ConnectionManager.send_command.
  rewrite (Hok a) by (by left). unfold sends_to; simpl.
  destruct (ConnectionManager.active_connections m !! a) as [ws|];
    rewrite Nat.eqb_refl, IH by (intros b Hb; apply Hok; by right);
    done.
Qed.

(** The first failing write ends the loop with [RuntimeError]. *)
Lemma broadcast_from_first_failure pre a post command send_ok m ws :
  (forall b, In b pre -> send_ok b = true) ->
  send_ok a = false ->
  ConnectionManager.active_connections m !! a = Some ws ->
  broadcast_from (size (ConnectionManager.active_connections m))
    (pre ++ a :: post) command send_ok m
  = (ConnectionManager.disconnect a m, sends_to pre command m, true).
Proof.
  intros Hpre Ha Hws. induction pre as [| b pre IH]; simpl.
  - unfold ConnectionManager.send_command. rewrite Hws, Ha.
    rewrite (size_disconnect a m ws Hws).
    assert (forall n, Nat.eqb n (S n) = false) as Hn
      by (intros n; apply Nat.eqb_neq; lia).
    by rewrite Hn.
  - unfold ConnectionManager.send_command.
    rewrite (Hpre b) by (by left). unfold sends_to; simpl.
    destruct (ConnectionManager.active_connections m !! b) as [wb|];
      rewrite Nat.eqb_refl, IH by (intros x Hx; apply Hpre; by right);
      done.
Qed.

End broadcasting.

(** X6: [broadcast] stops at the first agent whose write fails. When every
    write succeeds, each agent of the iteration gets the command once and
    the manager is unchanged. When agent [a] is the first whose write
    fails, only the agents before it in the iteration have got the command,
    [a] is disconnected, the iteration ends with [RuntimeError], and the
    agents after [a] get nothing. *)
Theorem broadcast_stops_at_first_failure (pre post : list Z) (a : Z)
    (command : Command.t) (send_ok : Z -> bool) (m : ConnectionManager.t)
    (ws : WebSocket) :
  (forall b, In b pre -> send_ok b = true) ->
  ConnectionManager.active_connections m !! a = Some ws ->
  ((forall b, In b (a :: post) -> send_ok b = true) ->
   broadcast (pre ++ a :: post) command send_ok m
   = (m, sends_to (pre ++ a :: post) command m, false))
  /\ (send_ok a = false ->
      broadcast (pre ++ a :: post) command send_ok m
      = (ConnectionManager.disconnect a m, sends_to pre command m, true)).
Proof.
  intros Hpre Hws. unfold broadcast. split.
  - intros Hpost. apply broadcast_from_all_ok.
    intros b Hb. apply in_app_iff in Hb as [Hb | Hb]; auto.
  - intros Ha. by apply (broadcast_from_first_failure pre a post _ _ m ws).
Qed.

Lemma broadcast_stops_at_first_failure_witness :
  broadcast ([1] ++ 2 :: [3]) (Command.mk "c" STATUS (StatusPayload "x"))
    (fun a => negb (a =? 2))
    (ConnectionManager.mk
       (<[1:=11%nat]> (<[2:=12%nat]> (<[3:=13%nat]> ∅))) ∅)
  = (ConnectionManager.disconnect 2
       (ConnectionManager.mk
          (<[1:=11%nat]> (<[2:=12%nat]> (<[3:=13%nat]> ∅))) ∅),
     sends_to [1] (Command.mk "c" STATUS (StatusPayload "x"))
       (ConnectionManager.mk
          (<[1:=11%nat]> (<[2:=12%nat]> (<[3:=13%nat]> ∅))) ∅),
     true).
Proof.
  apply (broadcast_stops_at_first_failure [1] [3] 2
           (Command.mk "c" STATUS (StatusPayload "x"))
           (fun a => negb (a =? 2))
           (ConnectionManager.mk
              (<[1:=11%nat]> (<[2:=12%nat]> (<[3:=13%nat]> ∅))) ∅)
           12%nat).
  - intros b [<- | []]. reflexivity.
  - vm_compute. reflexivity.
  - reflexivity.
Defined.


(** ** The tables, step by step *)

Section shapes.

Lemma agent_kept_refl x : agent_kept x x.
Proof. unfold agent_kept. tauto. Qed.

Lemma deployment_kept_refl x : deployment_kept x x.
Proof. unfold deployment_kept. tauto. Qed.

Lemma job_kept_refl x : job_kept x x.
Proof. unfold job_kept. tauto. Qed.

Lemma agents_step_refl l : agents_step l l.
Proof.
  left. exists (fun x => x). split; [by rewrite map_id |].
  apply agent_kept_refl.
Qed.

Lemma deployments_step_refl st l : deployments_step st l l.
Proof.
  left. exists (fun x => x). split; [by rewrite map_id |].
  apply deployment_kept_refl.
Qed.

Lemma jobs_step_refl st st' l : jobs_step st st' l l.
Proof.
  left. exists (fun x => x). split; [by rewrite map_id |].
  apply job_kept_refl.
Qed.

Lemma select_agent_by_hostname_None h db :
  select_agent_by_hostname h db = None ->
  ~ In h (map Agent.hostname (agents db)).
Proof.
  unfold select_agent_by_hostname. intros Hnone Hin.
  apply in_map_iff in Hin as (a & Ha & Hin).
  pose proof (List.find_none _ _ Hnone a Hin) as H. simpl in H.
  rewrite Ha, String.eqb_refl in H. discriminate H.
Qed.

Lemma select_job_None k db :
  select_job k db = None -> ~ In k (map Job.id (jobs db)).
Proof.
  unfold select_job. intros Hnone Hin.
  apply in_map_iff in Hin as (j & Hj & Hin).
  pose proof (List.find_none _ _ Hnone j Hin) as H. simpl in H.
  rewrite Hj, String.eqb_refl in H. discriminate H.
Qed.

Lemma register_agent_tables h v ar ch t1 t2 db :
  agents_step (agents db) (agents (fst (register_agent h v ar ch t1 t2 db)))
  /\ deployments (fst (register_agent h v ar ch t1 t2 db)) = deployments db
  /\ jobs (fst (register_agent h v ar ch t1 t2 db)) = jobs db
  /\ In (snd (register_agent h v ar ch t1 t2 db))
       (map Agent.id (agents (fst (register_agent h v ar ch t1 t2 db)))).
Proof.
  unfold register_agent.
  destruct (select_agent_by_hostname h db) as [ag|] eqn:Hag; simpl.
  - split; [| split; [done | split; [done |]]].
    + left. eexists. split; [reflexivity |]. intros x. simpl.
      destruct (Agent.id x =? Agent.id ag); [| apply agent_kept_refl].
      unfold agent_kept; simpl. repeat split; try done. right. by left.
    + unfold select_agent_by_hostname in Hag.
      apply List.find_some in Hag as [Hin _].
      rewrite map_map. apply in_map_iff. exists ag. split; [| done].
      by destruct (Agent.id ag =? Agent.id ag).
  - split; [| split; [done | split; [done |]]].
    + right. eexists. split; [reflexivity |]. simpl.
      split; [done |]. split; [| done].
      by apply select_agent_by_hostname_None.
    + rewrite map_app. apply in_app_iff. right. by left.
Qed.

Lemma ws_open_store h ws ok t1 t2 st :
  store (fst (fst (ws_open h ws ok t1 t2 st)))
  = if authorized h
    then fst (register_agent (handshake_hostname h)
                (str_or (x_agent_version h) "unknown")
                (str_or (x_agent_architecture h) "unknown")
                (client_host h) t1 t2 (store st))
    else store st.
Proof.
  unfold ws_open. destruct (authorized h); simpl; [| done].
  destruct (register_agent _ _ _ _ _ _ _) as [db' a]. simpl.
  by destruct (ConnectionManager.connect _ _ _ _ _).
Qed.

(** The agents table after one step. *)
Lemma step_agents o st :
  agents_step (agents (store st)) (agents (store (step o st))).
Proof.
  destruct o as [h ws ok t1 t2 | r t1 t2 | a now | rq t1 t2 e | p rq e | p e];
    simpl.
  - rewrite ws_open_store. destruct (authorized h); [| apply agents_step_refl].
    apply register_agent_tables.
  - rewrite handle_response_agents. apply agents_step_refl.
  - unfold ws_close.
    destruct (select_agent_by_id a (store st)) as [ag|];
      [| apply agents_step_refl].
    left. eexists. split; [reflexivity |]. intros x. simpl.
    destruct (Agent.id x =? Agent.id ag); [| apply agent_kept_refl].
    unfold agent_kept; simpl. repeat split; try done. right. right. by left.
  - unfold deploy_project.
    destruct (find_target_agent rq (store st)) as [ag | | |];
      [| apply agents_step_refl ..].
    destruct (ConnectionManager.is_connected _ _); simpl;
      [| apply agents_step_refl].
    rewrite create_job_and_send_agents. apply agents_step_refl.
  - unfold stop_project.
    destruct (select_latest_deployment _ _) as [dep|];
      [| apply agents_step_refl].
    destruct (ConnectionManager.is_connected _ _); simpl;
      [| apply agents_step_refl].
    rewrite create_job_and_send_agents. apply agents_step_refl.
  - unfold get_project_status.
    destruct (select_latest_deployment _ _) as [dep|];
      [| apply agents_step_refl].
    destruct (ConnectionManager.is_connected _ _); simpl;
      [| apply agents_step_refl].
    rewrite create_job_and_send_agents. apply agents_step_refl.
Qed.

End shapes.

Section shapes_more.

Lemma find_target_agent_In rq db ag :
  find_target_agent rq db = Ok ag -> In ag (agents db).
Proof.
  unfold find_target_agent, select_agent_by_id, select_online_agent.
  destruct (truthy_int _).
  - simpl. destruct (in_int64 _); [| done].
    destruct (List.find _ _) as [x|] eqn:E; [| done].
    intros [= <-]. by apply List.find_some in E as [? _].
  - destruct (List.find _ _) as [x|] eqn:E; [| done].
    intros [= <-]. by apply List.find_some in E as [? _].
Qed.

Lemma reply_deployment_status_cases s ct old :
  reply_deployment_status s ct old = old
  \/ In (reply_deployment_status s ct old) deployment_statuses.
Proof.
  unfold reply_deployment_status, deployment_statuses.
  destruct (ResponseStatusEnum.eqb s COMPLETED).
  - destruct (String.eqb ct _); [right; simpl; tauto |].
    destruct (String.eqb ct _); [right; simpl; tauto | by left].
  - destruct (ResponseStatusEnum.eqb s FAILED); [right; simpl; tauto | by left].
Qed.

Lemma reply_job_status s :
  In (lower (ResponseStatusEnum.value s)) job_statuses.
Proof. destruct s; vm_compute; tauto. Qed.

Lemma deployment_of_reply_kept r ct t d :
  deployment_kept d (deployment_of_reply r ct t d).
Proof.
  unfold deployment_kept, deployment_of_reply; simpl.
  repeat split; try done. apply reply_deployment_status_cases.
Qed.

Lemma job_of_reply_kept r t j : job_kept j (job_of_reply r t j).
Proof.
  unfold job_kept, job_of_reply; simpl.
  repeat split; try done. right. apply reply_job_status.
Qed.

(** The deployments table after one step. *)
Lemma step_deployments_step o st :
  deployments_step st (deployments (store st))
    (deployments (store (step o st))).
Proof.
  destruct o as [h ws ok t1 t2 | r t1 t2 | a now | rq t1 t2 e | p rq e | p e];
    simpl.
  - rewrite ws_open_store. destruct (authorized h);
      [| apply deployments_step_refl].
    destruct (register_agent_tables (handshake_hostname h)
                (str_or (x_agent_version h) "unknown")
                (str_or (x_agent_architecture h) "unknown")
                (client_host h) t1 t2 (store st)) as (_ & -> & _).
    apply deployments_step_refl.
  - unfold handle_response.
    destruct (select_job _ _) as [j|]; [| apply deployments_step_refl].
    destruct (Job.deployment_id j) as [d|]; [| apply deployments_step_refl].
    destruct (d =? 0); [apply deployments_step_refl |].
    destruct (select_deployment d _) as [dep|];
      [| apply deployments_step_refl].
    left. eexists. split; [reflexivity |]. intros x. simpl.
    destruct (Deployment.id x =? Deployment.id dep);
      [apply deployment_of_reply_kept | apply deployment_kept_refl].
  - rewrite ws_close_deployments. apply deployments_step_refl.
  - unfold deploy_project.
    destruct (find_target_agent rq (store st)) as [ag | | |] eqn:Hag;
      [| apply deployments_step_refl ..].
    destruct (ConnectionManager.is_connected _ _); simpl;
      [| apply deployments_step_refl].
    rewrite create_job_and_send_deployments.
    right. eexists. split; [reflexivity |]. simpl.
    split; [done |]. split; [| done].
    apply in_map. by apply (find_target_agent_In rq).
  - unfold stop_project.
    destruct (select_latest_deployment _ _) as [dep|];
      [| apply deployments_step_refl].
    destruct (ConnectionManager.is_connected _ _); simpl;
      [| apply deployments_step_refl].
    rewrite create_job_and_send_deployments. apply deployments_step_refl.
  - unfold get_project_status.
    destruct (select_latest_deployment _ _) as [dep|];
      [| apply deployments_step_refl].
    destruct (ConnectionManager.is_connected _ _); simpl;
      [| apply deployments_step_refl].
    rewrite create_job_and_send_deployments. apply deployments_step_refl.
Qed.

(** The jobs table after the common tail of the dispatching handlers. *)
Lemma create_job_and_send_jobs {A} d a ty p e (ok : A) db cm :
  let st' := fst (fst (create_job_and_send d a ty p e ok db cm)) in
  jobs (store st') = jobs db
  \/ (select_job (uuid4 e) db = None
      /\ exists j,
           jobs (store st') = (jobs db ++ [j])%list
           /\ Job.id j = uuid4 e
           /\ Job.deployment_id j = Some d
           /\ Job.agent_id j = a
           /\ (Job.status j = "queued" \/ Job.status j = "failed")).
Proof.
  unfold create_job_and_send, insert_job. simpl.
  destruct (select_job (uuid4 e) db) eqn:Hfresh; simpl; [by left |].
  right. split; [done |].
  destruct (ConnectionManager.send_command _ _ _ _) as [[cm' success] evs].
  destruct success.
  - exists (queued_job d a ty e). simpl. repeat split; try done. by left.
  - exists (failed_job d a ty e).
    rewrite (mark_job_failed_fresh d a ty e db Hfresh). simpl.
    repeat split; try done. by right.
Qed.

Lemma create_job_and_send_manager {A} d a ty p e (ok : A) db cm :
  let st' := fst (fst (create_job_and_send d a ty p e ok db cm)) in
  connection_manager st' = cm
  \/ connection_manager st' = ConnectionManager.disconnect a cm.
Proof.
  unfold create_job_and_send, insert_job. simpl.
  destruct (select_job (uuid4 e) db); simpl; [by left |].
  unfold ConnectionManager.send_command.
  destruct (ConnectionManager.active_connections cm !! a); simpl;
    [| by left].
  destruct (send_ok e); simpl; [by left | by right].
Qed.

Lemma create_job_and_send_connected {A} d a ty p e (ok : A) db cm b :
  ConnectionManager.is_connected b
    (connection_manager (fst (fst (create_job_and_send d a ty p e ok db cm))))
  = true ->
  ConnectionManager.is_connected b cm = true.
Proof.
  destruct (create_job_and_send_manager d a ty p e ok db cm) as [-> | ->];
    [done |].
  apply is_connected_disconnect_inv.
Qed.

Lemma handle_response_jobs r t1 t2 db :
  jobs (handle_response r t1 t2 db) = jobs db
  \/ jobs (handle_response r t1 t2 db)
     = map (fun j => if String.eqb (Job.id j) (Response.job_id r)
                     then job_of_reply r t1 j else j)
         (jobs db).
Proof.
  unfold handle_response.
  destruct (select_job _ _) as [j|] eqn:Hj; [| by left].
  right. rewrite (select_job_id _ _ _ Hj).
  destruct (Job.deployment_id j) as [d|]; [| done].
  destruct (d =? 0); [done |].
  by destruct (select_deployment d _).
Qed.

End shapes_more.

Section shapes_jobs.

(** The jobs table after a dispatch of a job for deployment [d], which is a
    row of the table the tail starts from, to the connected agent [a]. *)
Lemma dispatch_jobs_step {A} st d a ty p e (ok : A) db :
  jobs db = jobs (store st) ->
  In d (map Deployment.id (deployments db)) ->
  ConnectionManager.is_connected a (connection_manager st) = true ->
  let st' :=
    fst (fst (create_job_and_send d a ty p e ok db (connection_manager st))) in
  jobs_step st st' (jobs (store st)) (jobs (store st')).
Proof.
  intros Hjobs Hd Hconn st'.
  destruct (create_job_and_send_jobs d a ty p e ok db (connection_manager st))
    as [Hsame | (Hfresh & j & Hj & Hid & Hdep & Hag & Hstatus)];
    fold st' in Hsame || fold st' in Hj.
  - rewrite Hsame, Hjobs. apply jobs_step_refl.
  - right. exists j. rewrite Hj, Hjobs. split; [done |].
    split; [by rewrite Hid, <- (select_job_jobs _ _ _ Hjobs) |].
    split.
    + exists d. split; [done |].
      subst st'. by rewrite create_job_and_send_deployments.
    + split; [by rewrite Hag | done].
Qed.

(** The jobs table after one step. *)
Lemma step_jobs o st :
  jobs_step st (step o st) (jobs (store st)) (jobs (store (step o st))).
Proof.
  destruct o as [h ws ok t1 t2 | r t1 t2 | a now | rq t1 t2 e | p rq e | p e];
    simpl.
  - rewrite ws_open_jobs. apply jobs_step_refl.
  - destruct (handle_response_jobs r t1 t2 (store st)) as [-> | ->];
      [apply jobs_step_refl |].
    left. eexists. split; [reflexivity |]. intros x. simpl.
    destruct (String.eqb (Job.id x) (Response.job_id r));
      [apply job_of_reply_kept | apply job_kept_refl].
  - rewrite ws_close_jobs. apply jobs_step_refl.
  - unfold deploy_project.
    destruct (find_target_agent rq (store st)) as [ag | | |];
      [| apply jobs_step_refl ..].
    destruct (ConnectionManager.is_connected _ _) eqn:Hconn; simpl;
      [| apply jobs_step_refl].
    apply dispatch_jobs_step; [done | | done].
    simpl. rewrite map_app. apply in_app_iff. right. by left.
  - unfold stop_project.
    destruct (select_latest_deployment _ _) as [dep|] eqn:Hdep;
      [| apply jobs_step_refl].
    destruct (ConnectionManager.is_connected _ _) eqn:Hconn; simpl;
      [| apply jobs_step_refl].
    apply dispatch_jobs_step; [done | | done].
    apply in_map. by apply (select_latest_deployment_Some p).
  - unfold get_project_status.
    destruct (select_latest_deployment _ _) as [dep|] eqn:Hdep;
      [| apply jobs_step_refl].
    destruct (ConnectionManager.is_connected _ _) eqn:Hconn; simpl;
      [| apply jobs_step_refl].
    apply dispatch_jobs_step; [done | | done].
    apply in_map. by apply (select_latest_deployment_Some p).
Qed.

End shapes_jobs.


(** ** Invariants of the reachable states *)

Section reachable_invariants.

Lemma NoDup_snoc {A : Type} (l : list A) (x : A) :
  NoDup l -> ~ In x l -> NoDup (l ++ [x]).
Proof.
  induction 1 as [| y l Hy Hl IH]; intros Hx; simpl.
  - constructor; [rewrite list_elem_of_In; by intros [] | constructor].
  - constructor.
    + rewrite list_elem_of_In, in_app_iff. intros [H | [<- | []]].
      * by apply Hy, list_elem_of_In.
      * apply Hx. by left.
    + apply IH. intros H. apply Hx. by right.
Qed.

Lemma next_id_fresh ids : ~ In (next_id ids) ids.
Proof. intros H. apply next_id_gt in H. lia. Qed.

Lemma agents_step_ids l l' :
  agents_step l l' ->
  map Agent.id l' = map Agent.id l
  \/ map Agent.id l' = (map Agent.id l ++ [next_id (map Agent.id l)])%list.
Proof.
  intros [(g & -> & Hg) | (a & -> & Hid & _)].
  - left. rewrite map_map. apply map_ext. intros x. apply Hg.
  - right. rewrite map_app. simpl. by rewrite Hid.
Qed.

Lemma agents_step_ids_incl l l' x :
  agents_step l l' -> In x (map Agent.id l) -> In x (map Agent.id l').
Proof.
  intros H Hx. destruct (agents_step_ids l l' H) as [-> | ->]; [done |].
  apply in_app_iff. by left.
Qed.

Lemma deployments_step_ids st l l' :
  deployments_step st l l' ->
  map Deployment.id l' = map Deployment.id l
  \/ map Deployment.id l'
     = (map Deployment.id l ++ [next_id (map Deployment.id l)])%list.
Proof.
  intros [(g & -> & Hg) | (d & -> & Hid & _)].
  - left. rewrite map_map. apply map_ext. intros x. apply Hg.
  - right. rewrite map_app. simpl. by rewrite Hid.
Qed.

Lemma deployments_step_ids_incl st l l' x :
  deployments_step st l l' ->
  In x (map Deployment.id l) -> In x (map Deployment.id l').
Proof.
  intros H Hx. destruct (deployments_step_ids st l l' H) as [-> | ->];
    [done |].
  apply in_app_iff. by left.
Qed.

Lemma step_keys_unique o st :
  keys_unique (store st) -> keys_unique (store (step o st)).
Proof.
  intros (Hag & Hhost & Hdep & Hjob). repeat split.
  - destruct (agents_step_ids _ _ (step_agents o st)) as [-> | ->]; [done |].
    apply NoDup_snoc; [done | apply next_id_fresh].
  - destruct (step_agents o st) as [(g & -> & Hg) | (a & -> & _ & Hnew & _)].
    + rewrite map_map.
      rewrite (map_ext _ Agent.hostname); [done |]. intros x. apply Hg.
    + rewrite map_app. by apply NoDup_snoc.
  - destruct (deployments_step_ids _ _ _ (step_deployments_step o st))
      as [-> | ->]; [done |].
    apply NoDup_snoc; [done | apply next_id_fresh].
  - destruct (step_jobs o st) as [(g & -> & Hg) | (j & -> & Hfresh & _)].
    + rewrite map_map.
      rewrite (map_ext _ Job.id); [done |]. intros x. apply Hg.
    + rewrite map_app. apply NoDup_snoc; [done |].
      by apply select_job_None.
Qed.

Lemma In_select_agent_by_id a db :
  In a (map Agent.id (agents db)) <-> is_Some (select_agent_by_id a db).
Proof.
  unfold select_agent_by_id. split.
  - intros (x & Hx & Hin)%in_map_iff.
    destruct (List.find _ _) eqn:E; [by eexists |].
    pose proof (List.find_none _ _ E x Hin) as H. simpl in H. lia.
  - intros [x Hx]. apply List.find_some in Hx as [Hin Hx].
    apply in_map_iff. exists x. split; [lia | done].
Qed.

Lemma In_select_deployment d db :
  In d (map Deployment.id (deployments db)) <-> is_Some (select_deployment d db).
Proof.
  unfold select_deployment. split.
  - intros (x & Hx & Hin)%in_map_iff.
    destruct (List.find _ _) eqn:E; [by eexists |].
    pose proof (List.find_none _ _ E x Hin) as H. simpl in H. lia.
  - intros [x Hx]. apply List.find_some in Hx as [Hin Hx].
    apply in_map_iff. exists x. split; [lia | done].
Qed.

End reachable_invariants.

(** X7: in every reachable state no primary key occurs twice (agent ids,
    deployment ids, job ids) and no two agent rows have the same hostname:
    the handlers keep the declared keys unique by themselves. *)
Theorem reachable_keys_unique (st : State) :
  reachable st -> keys_unique (store st).
Proof.
  induction 1 as [| o st Hst IH].
  - repeat split; constructor.
  - by apply step_keys_unique.
Qed.

Lemma reachable_keys_unique_witness : keys_unique (store Scenario.redeployed).
Proof. exact (reachable_keys_unique Scenario.redeployed
                (reachable_run _ _ reachable_init)). Defined.

Section references.

(** A newly connected agent id is the key of an agent row. *)
Lemma step_manager o st a :
  ConnectionManager.is_connected a (connection_manager (step o st)) = true ->
  ConnectionManager.is_connected a (connection_manager st) = true
  \/ In a (map Agent.id (agents (store (step o st)))).
Proof.
  destruct o as [h ws ok t1 t2 | r t1 t2 | b now | rq t1 t2 e | p rq e | p e];
    simpl.
  - pose proof (ws_open_store h ws ok t1 t2 st) as Hstore.
    unfold ws_open in *. destruct (authorized h); simpl in *; [| by left].
    pose proof (register_agent_tables (handshake_hostname h)
                  (str_or (x_agent_version h) "unknown")
                  (str_or (x_agent_architecture h) "unknown")
                  (client_host h) t1 t2 (store st)) as (_ & _ & _ & Hin).
    destruct (register_agent _ _ _ _ _ _ _) as [db' agent_id].
    unfold ConnectionManager.connect in *.
    destruct ok; simpl in *; [| by left].
    unfold ConnectionManager.is_connected; simpl.
    destruct (decide (a = agent_id)) as [-> | Hne]; [by right |].
    rewrite lookup_insert_ne by done. by left.
  - by left.
  - rewrite ws_close_connection_manager. intros H. left.
    by apply (is_connected_disconnect_inv b).
  - unfold deploy_project.
    destruct (find_target_agent rq (store st)) as [ag | | |]; [| by left ..].
    destruct (ConnectionManager.is_connected (Agent.id ag) _); simpl;
      [| by left].
    intros H. left. by eapply create_job_and_send_connected.
  - unfold stop_project.
    destruct (select_latest_deployment _ _) as [dep|]; [| by left].
    destruct (ConnectionManager.is_connected
                (int_or (StopRequest.agent_id rq) (Deployment.agent_id dep)) _);
      simpl; [| by left].
    intros H. left. by eapply create_job_and_send_connected.
  - unfold get_project_status.
    destruct (select_latest_deployment _ _) as [dep|]; [| by left].
    destruct (ConnectionManager.is_connected (Deployment.agent_id dep) _);
      simpl; [| by left].
    intros H. left. by eapply create_job_and_send_connected.
Qed.

Lemma step_references_in_keys o st :
  references_in_keys st -> references_in_keys (step o st).
Proof.
  intros (Hconn & Hdep & Hjob).
  pose proof (fun x => agents_step_ids_incl _ _ x (step_agents o st)) as Hids.
  pose proof (fun x => deployments_step_ids_incl st _ _ x
                         (step_deployments_step o st)) as Hdids.
  split; [| split].
  - intros a Ha. destruct (step_manager o st a Ha) as [H | H]; [| done].
    by apply Hids, Hconn.
  - intros d Hd.
    destruct (step_deployments_step o st)
      as [(g & E & Hg) | (x & E & _ & Hx & _)]; rewrite E in Hd.
    + apply in_map_iff in Hd as (y & <- & Hy).
      destruct (Hg y) as (_ & _ & -> & _). by apply Hids, Hdep.
    + apply in_app_iff in Hd as [Hd | [<- | []]]; apply Hids; [| done].
      by apply Hdep.
  - intros j Hj.
    destruct (step_jobs o st)
      as [(g & E & Hg) | (x & E & _ & (d & Hd & Hin) & Hx & _)];
      rewrite E in Hj.
    + apply in_map_iff in Hj as (y & <- & Hy).
      destruct (Hg y) as (_ & -> & -> & _).
      destruct (Hjob y Hy) as (Hag & d & Hd & Hin).
      split; [by apply Hids |]. exists d. split; [done | by apply Hdids].
    + apply in_app_iff in Hj as [Hj | [<- | []]].
      * destruct (Hjob j Hj) as (Hag & d' & Hd' & Hin').
        split; [by apply Hids |]. exists d'. split; [done | by apply Hdids].
      * split; [by apply Hids, Hconn |]. by exists d.
Qed.

Lemma reachable_references_in_keys st :
  reachable st -> references_in_keys st.
Proof.
  induction 1 as [| o st Hst IH]; [| by apply step_references_in_keys].
  split; [| split]; [| by intros d [] | by intros j []].
  intros a Ha. vm_compute in Ha. discriminate Ha.
Qed.

Lemma Forall_snoc' {A : Type} (P : A -> Prop) (l : list A) (x : A) :
  Forall P l -> P x -> Forall P (l ++ [x]).
Proof. intros Hl Hx. apply Forall_app. split; [done | by constructor]. Qed.

Lemma step_statuses_declared o st :
  statuses_declared (store st) -> statuses_declared (store (step o st)).
Proof.
  intros (Hag & Hdep & Hjob). split; [| split].
  - destruct (step_agents o st) as [(g & -> & Hg) | (a & -> & _ & _ & Ha)].
    + apply Forall_map. eapply Forall_impl; [exact Hag |].
      intros x Hx. simpl. destruct (Hg x) as (_ & _ & _ & [-> | H]); done.
    + apply Forall_snoc'; [done |]. rewrite Ha. by left.
  - destruct (step_deployments_step o st)
      as [(g & -> & Hg) | (d & -> & _ & _ & Hd & _)].
    + apply Forall_map. eapply Forall_impl; [exact Hdep |].
      intros x Hx. simpl.
      destruct (Hg x) as (_ & _ & _ & _ & _ & [-> | H]); done.
    + apply Forall_snoc'; [done |]. rewrite Hd. by left.
  - destruct (step_jobs o st)
      as [(g & -> & Hg) | (j & -> & _ & _ & _ & Hj)].
    + apply Forall_map. eapply Forall_impl; [exact Hjob |].
      intros x Hx. simpl.
      destruct (Hg x) as (_ & _ & _ & _ & _ & [-> | H]); done.
    + apply Forall_snoc'; [done |].
      destruct Hj as [-> | ->]; simpl; tauto.
Qed.

End references.

(** X8: in every reachable state every reference finds its row: each
    connected agent id and the [agent_id] of each deployment and job is the
    id of an agent row, and each job has a [deployment_id] that is the id
    of a deployment row. *)
Theorem reachable_references_resolve (st : State) :
  reachable st -> references_resolve st.
Proof.
  intros Hst. destruct (reachable_references_in_keys st Hst)
    as (Hconn & Hdep & Hjob).
  split; [| split].
  - intros a Ha. by apply In_select_agent_by_id, Hconn.
  - intros d Hd. by apply In_select_agent_by_id, Hdep.
  - intros j Hj. destruct (Hjob j Hj) as (Hag & d & Hd & Hin).
    split; [by apply In_select_agent_by_id |].
    exists d. split; [done | by apply In_select_deployment].
Qed.

Lemma reachable_references_resolve_witness :
  references_resolve Scenario.redeployed.
Proof. exact (reachable_references_resolve Scenario.redeployed
                (reachable_run _ _ reachable_init)). Defined.

(** X9: in every reachable state the status of every agent is [online] or
    [offline], of every deployment [pending], [running], [stopped] or
    [failed], and of every job [queued], [in_progress], [completed] or
    [failed]. *)
Theorem reachable_statuses_declared (st : State) :
  reachable st -> statuses_declared (store st).
Proof.
  induction 1 as [| o st Hst IH]; [| by apply step_statuses_declared].
  split; [| split]; constructor.
Qed.

Lemma reachable_statuses_declared_witness :
  statuses_declared (store Scenario.completed).
Proof. exact (reachable_statuses_declared Scenario.completed
                reachable_completed). Defined.

(** X10: in every reachable state the number of connected agents that
    [health_check] reports is at most the [total] of [list_agents]. *)
Theorem health_at_most_total (st : State) :
  reachable st ->
  (health_check st <= AgentListResponse.total (list_agents (store st)))%nat.
Proof.
  intros Hst. unfold health_check, list_agents; simpl.
  rewrite length_map.
  assert (NoDup (map Agent.id (agents (store st)))) as Hnodup.
  { clear -Hst. induction Hst as [| o st Hst IH]; [constructor |].
    destruct (agents_step_ids _ _ (step_agents o st)) as [-> | ->]; [done |].
    apply NoDup_snoc; [done | apply next_id_fresh]. }
  destruct (reachable_references_in_keys st Hst) as (Hconn & _).
  rewrite <- (length_map Agent.id).
  rewrite <- (size_list_to_set (C := gset Z)) by done.
  rewrite <- size_dom. apply subseteq_size.
  intros a Ha. apply elem_of_dom in Ha. apply elem_of_list_to_set.
  apply list_elem_of_In, Hconn.
  unfold ConnectionManager.is_connected. by apply bool_decide_eq_true.
Qed.

Lemma health_at_most_total_witness :
  (health_check Scenario.dispatched
   <= AgentListResponse.total (list_agents (store Scenario.dispatched)))%nat.
Proof.
  exact (health_at_most_total Scenario.dispatched reachable_dispatched).
Defined.

(** ** Rows are never deleted and keep their identity *)

Section identity.

Lemma agent_kept_trans x y z : agent_kept x y -> agent_kept y z -> agent_kept x z.
Proof.
  unfold agent_kept. intros (-> & -> & -> & H1) (-> & -> & -> & H2).
  repeat split; try done. destruct H2 as [-> | H2]; [done | by right].
Qed.

Lemma deployment_kept_trans x y z :
  deployment_kept x y -> deployment_kept y z -> deployment_kept x z.
Proof.
  unfold deployment_kept.
  intros (-> & -> & -> & -> & -> & H1) (-> & -> & -> & -> & -> & H2).
  repeat split; try done. destruct H2 as [-> | H2]; [done | by right].
Qed.

Lemma job_kept_trans x y z : job_kept x y -> job_kept y z -> job_kept x z.
Proof.
  unfold job_kept.
  intros (-> & -> & -> & -> & -> & H1) (-> & -> & -> & -> & -> & H2).
  repeat split; try done. destruct H2 as [-> | H2]; [done | by right].
Qed.

Lemma step_select_job_kept o st k j :
  select_job k (store st) = Some j ->
  exists j', select_job k (store (step o st)) = Some j' /\ job_kept j j'.
Proof.
  unfold select_job. intros Hj.
  destruct (step_jobs o st) as [(g & -> & Hg) | (x & -> & _)].
  - rewrite find_map_same, Hj.
    + exists (g j). split; [done | apply Hg].
    + intros y. destruct (Hg y) as (-> & _). done.
  - exists j. split; [by apply find_app_Some | apply job_kept_refl].
Qed.

Lemma step_select_deployment_kept o st k d :
  select_deployment k (store st) = Some d ->
  exists d',
    select_deployment k (store (step o st)) = Some d' /\ deployment_kept d d'.
Proof.
  unfold select_deployment. intros Hd.
  destruct (step_deployments_step o st) as [(g & -> & Hg) | (x & -> & _)].
  - rewrite find_map_same, Hd.
    + exists (g d). split; [done | apply Hg].
    + intros y. destruct (Hg y) as (-> & _). done.
  - exists d. split; [by apply find_app_Some | apply deployment_kept_refl].
Qed.

Lemma step_select_agent_kept o st h a :
  select_agent_by_hostname h (store st) = Some a ->
  exists a',
    select_agent_by_hostname h (store (step o st)) = Some a' /\ agent_kept a a'.
Proof.
  unfold select_agent_by_hostname. intros Ha.
  destruct (step_agents o st) as [(g & -> & Hg) | (x & -> & _)].
  - rewrite find_map_same, Ha.
    + exists (g a). split; [done | apply Hg].
    + intros y. destruct (Hg y) as (_ & -> & _). done.
  - exists a. split; [by apply find_app_Some | apply agent_kept_refl].
Qed.

End identity.

(** X11: a job row is never deleted and, whatever operations follow, keeps
    its id, deployment, agent, command type and creation time; only its
    status, logs, error and update time are ever rewritten. *)
Theorem job_identity_kept (st : State) (ops : list op) (k : string)
    (j : Job.t) :
  select_job k (store st) = Some j ->
  exists j',
    select_job k (store (run ops st)) = Some j'
    /\ Job.id j' = Job.id j
    /\ Job.deployment_id j' = Job.deployment_id j
    /\ Job.agent_id j' = Job.agent_id j
    /\ Job.command_type j' = Job.command_type j
    /\ Job.created_at j' = Job.created_at j.
Proof.
  intros Hj.
  assert (exists j', select_job k (store (run ops st)) = Some j' /\ job_kept j j')
    as (j' & Hj' & Hk & Hd & Ha & Hc & Ht & _).
  { unfold run. revert st j Hj.
    induction ops as [| o ops IH]; intros st j Hj; simpl.
    - exists j. split; [done | apply job_kept_refl].
    - destruct (step_select_job_kept o st k j Hj) as (j1 & Hj1 & Hk1).
      destruct (IH _ _ Hj1) as (j2 & Hj2 & Hk2).
      exists j2. split; [done | by eapply job_kept_trans]. }
  by exists j'.
Qed.

Lemma job_identity_kept_witness :
  exists j',
    select_job "J"
      (store (run [WsReply Scenario.reply_completed 30 31; WsClose 1 50]
                Scenario.dispatched))
    = Some j'
    /\ Job.deployment_id j' = Some 1.
Proof.
  destruct (job_identity_kept Scenario.dispatched
              [WsReply Scenario.reply_completed 30 31; WsClose 1 50] "J"
              Scenario.job_J eq_refl)
    as (j' & Hj' & _ & Hd & _).
  exists j'. split; [exact Hj' | exact Hd].
Defined.

(** X12: a deployment row is never deleted and keeps its id, project name,
    agent and creation time; its [compose_file_hash] is never written. *)
Theorem deployment_identity_kept (st : State) (ops : list op) (k : Z)
    (d : Deployment.t) :
  select_deployment k (store st) = Some d ->
  exists d',
    select_deployment k (store (run ops st)) = Some d'
    /\ Deployment.id d' = Deployment.id d
    /\ Deployment.project_name d' = Deployment.project_name d
    /\ Deployment.agent_id d' = Deployment.agent_id d
    /\ Deployment.created_at d' = Deployment.created_at d
    /\ Deployment.compose_file_hash d' = Deployment.compose_file_hash d.
Proof.
  intros Hd.
  assert (exists d', select_deployment k (store (run ops st)) = Some d'
                     /\ deployment_kept d d')
    as (d' & Hd' & Hk & Hp & Ha & Ht & Hh & _).
  { unfold run. revert st d Hd.
    induction ops as [| o ops IH]; intros st d Hd; simpl.
    - exists d. split; [done | apply deployment_kept_refl].
    - destruct (step_select_deployment_kept o st k d Hd) as (d1 & Hd1 & Hk1).
      destruct (IH _ _ Hd1) as (d2 & Hd2 & Hk2).
      exists d2. split; [done | by eapply deployment_kept_trans]. }
  by exists d'.
Qed.

Lemma deployment_identity_kept_witness :
  exists d',
    select_deployment 1
      (store (run [WsReply Scenario.reply_completed 30 31]
                Scenario.dispatched))
    = Some d'
    /\ Deployment.project_name d' = "x".
Proof.
  destruct (deployment_identity_kept Scenario.dispatched
              [WsReply Scenario.reply_completed 30 31] 1
              Scenario.deployment_x eq_refl)
    as (d' & Hd' & _ & Hp & _).
  exists d'. split; [exact Hd' | exact Hp].
Defined.

(** X13: once a hostname has an agent row it keeps it: after any further
    operations, connections and disconnections included, the lookup by
    that hostname finds a row with the same agent id and creation time. *)
Theorem agent_identity_kept (st : State) (ops : list op) (h : string)
    (a : Agent.t) :
  select_agent_by_hostname h (store st) = Some a ->
  exists a',
    select_agent_by_hostname h (store (run ops st)) = Some a'
    /\ Agent.id a' = Agent.id a
    /\ Agent.hostname a' = Agent.hostname a
    /\ Agent.created_at a' = Agent.created_at a.
Proof.
  intros Ha.
  assert (exists a', select_agent_by_hostname h (store (run ops st)) = Some a'
                     /\ agent_kept a a')
    as (a' & Ha' & Hk & Hh & Ht & _).
  { unfold run. revert st a Ha.
    induction ops as [| o ops IH]; intros st a Ha; simpl.
    - exists a. split; [done | apply agent_kept_refl].
    - destruct (step_select_agent_kept o st h a Ha) as (a1 & Ha1 & Hk1).
      destruct (IH _ _ Ha1) as (a2 & Ha2 & Hk2).
      exists a2. split; [done | by eapply agent_kept_trans]. }
  by exists a'.
Qed.

Lemma agent_identity_kept_witness :
  exists a',
    select_agent_by_hostname "web-1"
      (store (run [WsClose 1 50; WsOpen Scenario.web1 8%nat true 60 61]
                Scenario.connected))
    = Some a'
    /\ Agent.id a' = 1.
Proof.
  destruct (agent_identity_kept Scenario.connected
              [WsClose 1 50; WsOpen Scenario.web1 8%nat true 60 61] "web-1"
              (Agent.mk 1 "web-1" (Some "10.0.0.1") "online" 10 (Some "1.0")
                 (Some "amd64") 11)
              eq_refl)
    as (a' & Ha' & Hid & _).
  exists a'. split; [exact Ha' | exact Hid].
Defined.

(** ** Registering an agent *)

Section registering.

Lemma select_agent_by_hostname_hostname h db a :
  select_agent_by_hostname h db = Some a -> Agent.hostname a = h.
Proof.
  unfold select_agent_by_hostname. intros H.
  apply List.find_some in H as [_ H]. by apply String.eqb_eq.
Qed.

Lemma select_agent_by_hostname_update h k f db a :
  (forall x, Agent.hostname (f x) = Agent.hostname x) ->
  select_agent_by_hostname h db = Some a ->
  select_agent_by_hostname h (update_agent k f db)
  = Some (if Agent.id a =? k then f a else a).
Proof.
  intros Hf Ha. unfold select_agent_by_hostname, update_agent in *; simpl.
  rewrite find_map_same, Ha; [done |].
  intros x. destruct (Agent.id x =? k); [by rewrite Hf | done].
Qed.

(** The row [register_agent] leaves for the hostname. *)
Lemma register_agent_select h v ar ch t1 t2 db :
  exists ag,
    select_agent_by_hostname h (fst (register_agent h v ar ch t1 t2 db))
    = Some ag
    /\ Agent.id ag = snd (register_agent h v ar ch t1 t2 db)
    /\ Agent.status ag = "online"
    /\ Agent.last_seen ag = t1
    /\ Agent.version ag = Some v
    /\ Agent.architecture ag = Some ar
    /\ Agent.ip_address ag = ch.
Proof.
  unfold register_agent.
  destruct (select_agent_by_hostname h db) as [a|] eqn:Ha; simpl.
  - eexists. split.
    + apply select_agent_by_hostname_update; [done | exact Ha].
    + rewrite Z.eqb_refl. simpl. done.
  - eexists. split.
    + unfold select_agent_by_hostname, insert_agent in *; simpl.
      rewrite find_app_None by done. simpl. by rewrite String.eqb_refl.
    + done.
Qed.

Lemma ws_open_authorized h ws ok t1 t2 st :
  authorized h = true ->
  let reg :=
    register_agent (handshake_hostname h)
      (str_or (x_agent_version h) "unknown")
      (str_or (x_agent_architecture h) "unknown")
      (client_host h) t1 t2 (store st) in
  ws_open h ws ok t1 t2 st
  = (mkState (fst reg)
       (fst (ConnectionManager.connect (snd reg) (handshake_hostname h) ws ok
               (connection_manager st))),
     if ok then Some (snd reg) else None,
     snd (ConnectionManager.connect (snd reg) (handshake_hostname h) ws ok
            (connection_manager st))).
Proof.
  intros Hauth reg. subst reg. unfold ws_open. rewrite Hauth. simpl.
  destruct (register_agent _ _ _ _ _ _ _) as [db' a]. simpl.
  by destruct (ConnectionManager.connect _ _ _ _ _).
Qed.

End registering.

(** X14: [register_agent] is an upsert by hostname. Afterwards the lookup by
    the hostname finds a row with the returned id that is [online] and
    carries the given version, architecture, address and time; registering
    the same hostname again returns the same id and adds no row. *)
Theorem register_agent_upsert (h v ar v' ar' : string)
    (ch ch' : option string) (t1 t2 t3 t4 : datetime) (db : Database) :
  let db1 := fst (register_agent h v ar ch t1 t2 db) in
  let a := snd (register_agent h v ar ch t1 t2 db) in
  (exists ag,
      select_agent_by_hostname h db1 = Some ag
      /\ Agent.id ag = a
      /\ Agent.status ag = "online"
      /\ Agent.last_seen ag = t1
      /\ Agent.version ag = Some v
      /\ Agent.architecture ag = Some ar
      /\ Agent.ip_address ag = ch)
  /\ snd (register_agent h v' ar' ch' t3 t4 db1) = a
  /\ List.length (agents (fst (register_agent h v' ar' ch' t3 t4 db1)))
     = List.length (agents db1).
Proof.
  intros db1 a.
  destruct (register_agent_select h v ar ch t1 t2 db) as (ag & Hag & Hid & H).
  fold db1 in Hag. fold a in Hid.
  split; [by exists ag |].
  unfold register_agent at 1 2. rewrite Hag. simpl.
  split; [done |]. by rewrite length_map.
Qed.

(** X15: a handshake without hostname header, or with an empty one, is
    registered under the hostname [unknown]: two such agents get the same
    agent id, and the websocket of the second replaces the websocket of the
    first in the connection manager. *)
Theorem missing_hostname_shares_agent (st : State) (h1 h2 : Handshake)
    (ws1 ws2 : WebSocket) (t1 t2 t3 t4 : datetime) :
  authorized h1 = true ->
  authorized h2 = true ->
  x_agent_hostname h1 = None \/ x_agent_hostname h1 = Some "" ->
  x_agent_hostname h2 = None \/ x_agent_hostname h2 = Some "" ->
  let r1 := ws_open h1 ws1 true t1 t2 st in
  let r2 := ws_open h2 ws2 true t3 t4 (fst (fst r1)) in
  exists a ag,
    snd (fst r1) = Some a
    /\ snd (fst r2) = Some a
    /\ select_agent_by_hostname "unknown" (store (fst (fst r2))) = Some ag
    /\ Agent.id ag = a
    /\ ConnectionManager.active_connections
         (connection_manager (fst (fst r2))) !! a = Some ws2.
Proof.
  intros Ha1 Ha2 Hh1 Hh2 r1 r2.
  assert (handshake_hostname h1 = "unknown") as E1
    by (unfold handshake_hostname; by destruct Hh1 as [-> | ->]).
  assert (handshake_hostname h2 = "unknown") as E2
    by (unfold handshake_hostname; by destruct Hh2 as [-> | ->]).
  subst r2 r1. rewrite (ws_open_authorized h1 ws1 true t1 t2 st Ha1).
  rewrite ws_open_authorized by done. rewrite E1, E2. simpl.
  destruct (register_agent_select "unknown"
              (str_or (x_agent_version h1) "unknown")
              (str_or (x_agent_architecture h1) "unknown")
              (client_host h1) t1 t2 (store st)) as (ag1 & Hag1 & Hid1 & _).
  destruct (register_agent_select "unknown"
              (str_or (x_agent_version h2) "unknown")
              (str_or (x_agent_architecture h2) "unknown")
              (client_host h2) t3 t4
              (fst (register_agent "unknown"
                      (str_or (x_agent_version h1) "unknown")
                      (str_or (x_agent_architecture h1) "unknown")
                      (client_host h1) t1 t2 (store st))))
    as (ag2 & Hag2 & Hid2 & _).
  eexists _, ag2. split; [reflexivity |].
  assert (snd (register_agent "unknown"
                 (str_or (x_agent_version h2) "unknown")
                 (str_or (x_agent_architecture h2) "unknown")
                 (client_host h2) t3 t4
                 (fst (register_agent "unknown"
                         (str_or (x_agent_version h1) "unknown")
                         (str_or (x_agent_architecture h1) "unknown")
                         (client_host h1) t1 t2 (store st))))
          = snd (register_agent "unknown"
                   (str_or (x_agent_version h1) "unknown")
                   (str_or (x_agent_architecture h1) "unknown")
                   (client_host h1) t1 t2 (store st))) as Hsame.
  { unfold register_agent at 1. by rewrite Hag1. }
  rewrite Hsame in *.
  split; [done |]. split; [exact Hag2 |]. split; [exact Hid2 |].
  by rewrite lookup_insert_eq.
Qed.

Lemma missing_hostname_shares_agent_witness :
  exists a,
    snd (fst (ws_open (mkHandshake true None None None None) 1%nat true 1 2
                initial_state))
    = Some a
    /\ snd (fst (ws_open (mkHandshake true None None (Some "") None) 2%nat
                   true 3 4
                   (fst (fst (ws_open (mkHandshake true None None None None)
                                1%nat true 1 2 initial_state)))))
       = Some a.
Proof.
  destruct (missing_hostname_shares_agent initial_state
              (mkHandshake true None None None None)
              (mkHandshake true None None (Some "") None)
              1%nat 2%nat 1 2 3 4 eq_refl eq_refl
              (or_introl eq_refl) (or_intror eq_refl))
    as (a & ag & H1 & H2 & _).
  exists a. split; [exact H1 | exact H2].
Defined.

(** X16: when [accept] raises on an authorised connection, the handler ends
    before its [try]: the agent row is already written and stays [online],
    while the connection manager is unchanged, no websocket call is
    recorded and no read loop starts. *)
Theorem accept_failure_leaves_agent_online (st : State) (h : Handshake)
    (ws : WebSocket) (t1 t2 : datetime) :
  authorized h = true ->
  let r := ws_open h ws false t1 t2 st in
  connection_manager (fst (fst r)) = connection_manager st
  /\ snd (fst r) = None
  /\ snd r = []
  /\ exists ag,
       select_agent_by_hostname (handshake_hostname h) (store (fst (fst r)))
       = Some ag
       /\ Agent.status ag = "online".
Proof.
  intros Hauth r. subst r. rewrite ws_open_authorized by done. simpl.
  split; [done |]. split; [done |]. split; [done |].
  destruct (register_agent_select (handshake_hostname h)
              (str_or (x_agent_version h) "unknown")
              (str_or (x_agent_architecture h) "unknown")
              (client_host h) t1 t2 (store st)) as (ag & Hag & _ & Hon & _).
  by exists ag.
Qed.

Lemma accept_failure_leaves_agent_online_witness :
  exists ag,
    select_agent_by_hostname "web-1"
      (store (fst (fst (ws_open Scenario.web1 7%nat false 10 11
                          initial_state))))
    = Some ag
    /\ Agent.status ag = "online".
Proof.
  exact (proj2 (proj2 (proj2
           (accept_failure_leaves_agent_online initial_state Scenario.web1
              7%nat 10 11 eq_refl)))).
Defined.

(** X17: the [finally] block of a session that has been replaced
    disconnects the session that replaced it. A known agent connects again
    on a new websocket, which becomes the attached one; when the handler of
    the old connection then ends, the agent is no longer connected and its
    row is [offline], although the new websocket was never closed. *)
Theorem superseded_teardown_disconnects_new_session (st : State)
    (h : Handshake) (ws : WebSocket) (t1 t2 now : datetime) (agent : Agent.t) :
  authorized h = true ->
  select_agent_by_hostname (handshake_hostname h) (store st) = Some agent ->
  let st1 := fst (fst (ws_open h ws true t1 t2 st)) in
  let st2 := ws_close (Agent.id agent) now st1 in
  ConnectionManager.active_connections (connection_manager st1)
    !! Agent.id agent = Some ws
  /\ ConnectionManager.is_connected (Agent.id agent) (connection_manager st2)
     = false
  /\ exists ag,
       select_agent_by_hostname (handshake_hostname h) (store st2) = Some ag
       /\ Agent.id ag = Agent.id agent
       /\ Agent.status ag = "offline".
Proof.
  intros Hauth Hag st1 st2.
  destruct (register_agent_select (handshake_hostname h)
              (str_or (x_agent_version h) "unknown")
              (str_or (x_agent_architecture h) "unknown")
              (client_host h) t1 t2 (store st)) as (ag1 & Hag1 & Hid1 & _).
  assert (snd (register_agent (handshake_hostname h)
                 (str_or (x_agent_version h) "unknown")
                 (str_or (x_agent_architecture h) "unknown")
                 (client_host h) t1 t2 (store st)) = Agent.id agent) as Hsnd
    by (unfold register_agent; by rewrite Hag).
  rewrite Hsnd in Hid1.
  assert (store st1
          = fst (register_agent (handshake_hostname h)
                   (str_or (x_agent_version h) "unknown")
                   (str_or (x_agent_architecture h) "unknown")
                   (client_host h) t1 t2 (store st))) as Hstore
    by (subst st1; by rewrite ws_open_store, Hauth).
  rewrite <- Hstore in Hag1.
  split.
  - subst st1. rewrite ws_open_authorized by done. simpl.
    by rewrite Hsnd, lookup_insert_eq.
  - subst st2. split;
      [rewrite ws_close_connection_manager; apply is_connected_disconnect |].
    unfold ws_close.
    destruct (select_agent_by_id (Agent.id agent) (store st1)) as [x|] eqn:Hx.
    + simpl. rewrite (select_agent_by_id_id _ _ _ Hx).
      erewrite select_agent_by_hostname_update; [| done | exact Hag1].
      rewrite Hid1, Z.eqb_refl. eexists. split; [reflexivity |]. by simpl.
    + exfalso. pose proof (proj1 (In_select_agent_by_id (Agent.id agent)
                                    (store st1))) as Hin.
      rewrite Hx in Hin. destruct Hin as [? [=]].
      unfold select_agent_by_hostname in Hag1.
      apply List.find_some in Hag1 as [Hin1 _].
      apply in_map_iff. by exists ag1.
Qed.

Lemma superseded_teardown_disconnects_new_session_witness :
  ConnectionManager.is_connected 1
    (connection_manager
       (ws_close 1 70
          (fst (fst (ws_open Scenario.web1 8%nat true 60 61
                       Scenario.connected)))))
  = false.
Proof.
  exact (proj1 (proj2
           (superseded_teardown_disconnects_new_session Scenario.connected
              Scenario.web1 8%nat 60 61 70
              (Agent.mk 1 "web-1" (Some "10.0.0.1") "online" 10 (Some "1.0")
                 (Some "amd64") 11)
              eq_refl eq_refl))).
Defined.

(** ** Dispatch that succeeds *)

(** X18: a deploy request that reaches a connected agent with a fresh job id
    and a successful write appends exactly one [pending] deployment row and
    one [queued] job row that refers to it, leaves agents and connection
    manager as they are, sends exactly one command, whose id is the job id
    and whose payload carries the project name and compose file, on the
    agent's websocket, and answers with the job id and the deployment id. *)
Theorem deploy_project_success (st : State) (rq : DeployRequest.t)
    (t1 t2 : datetime) (e : Env) (agent : Agent.t) (ws : WebSocket) :
  find_target_agent rq (store st) = Ok agent ->
  ConnectionManager.active_connections (connection_manager st)
    !! Agent.id agent = Some ws ->
  select_job (uuid4 e) (store st) = None ->
  send_ok e = true ->
  let d := next_id (map Deployment.id (deployments (store st))) in
  deploy_project rq t1 t2 e st
  = (mkState
       (mkDatabase (agents (store st))
          (deployments (store st)
           ++ [Deployment.mk d (DeployRequest.project_name rq)
                 (Agent.id agent) "pending" None t1 t2 None None])
          (jobs (store st)
           ++ [Job.mk (uuid4 e) (Some d) (Agent.id agent) "DEPLOY_COMPOSE"
                 "queued" None None (job_created_at e) (job_updated_at e)]))
       (connection_manager st),
     Ok (DeployResponse.mk (uuid4 e) d "queued"
           ("Deployment queued on agent " ++ Agent.hostname agent)),
     [EvSendText ws
        (Command.mk (uuid4 e) DEPLOY_COMPOSE
           (DeployPayload (DeployRequest.project_name rq)
              (DeployRequest.compose_file_base64 rq)))]).
Proof.
  intros Hag Hws Hfresh Hsend d. unfold deploy_project.
  rewrite Hag.
  assert (ConnectionManager.is_connected (Agent.id agent)
            (connection_manager st) = true) as ->.
  { unfold ConnectionManager.is_connected. apply bool_decide_eq_true.
    by eexists. }
  simpl.
  by rewrite (create_job_and_send_success _ _ _ _ _ _ _ _ ws).
Qed.

Lemma deploy_project_success_witness :
  jobs (store (fst (fst (deploy_project Scenario.deploy_x 15 16 Scenario.env_J
                           Scenario.connected))))
  = [Job.mk "J" (Some 1) 1 "DEPLOY_COMPOSE" "queued" None None 20 21]
  /\ deployments
       (store (fst (fst (deploy_project Scenario.deploy_x 15 16
                           Scenario.env_J Scenario.connected))))
     = [Deployment.mk 1 "x" 1 "pending" None 15 16 None None]
  /\ snd (deploy_project Scenario.deploy_x 15 16 Scenario.env_J
            Scenario.connected)
     = [EvSendText 7%nat
          (Command.mk "J" DEPLOY_COMPOSE (DeployPayload "x" "Y29tcG9zZQ=="))].
Proof.
  pose proof (deploy_project_success Scenario.connected Scenario.deploy_x 15 16
                Scenario.env_J
                (Agent.mk 1 "web-1" (Some "10.0.0.1") "online" 10 (Some "1.0")
                   (Some "amd64") 11)
                7%nat eq_refl eq_refl eq_refl eq_refl) as H.
  split; [exact (f_equal (fun out => jobs (store (fst (fst out)))) H) |].
  split; [exact (f_equal (fun out => deployments (store (fst (fst out)))) H) |].
  exact (f_equal snd H).
Defined.

(** X19: stop and status requests that reach a connected agent with a fresh
    job id and a successful write append one [queued] job row that refers
    to the current deployment of the project, change no other table nor the
    connection manager, and send exactly one command with the job id. The
    stop command goes to the agent named in the request when there is one,
    otherwise to the agent of the deployment. *)
Theorem stop_and_status_success (st : State) (p : string) (e : Env)
    (dep : Deployment.t) :
  select_latest_deployment p (store st) = Some dep ->
  select_job (uuid4 e) (store st) = None ->
  send_ok e = true ->
  (forall rq ws,
      ConnectionManager.active_connections (connection_manager st)
        !! int_or (StopRequest.agent_id rq) (Deployment.agent_id dep)
      = Some ws ->
      stop_project p rq e st
      = (mkState
           (mkDatabase (agents (store st)) (deployments (store st))
              (jobs (store st)
               ++ [Job.mk (uuid4 e) (Some (Deployment.id dep))
                     (int_or (StopRequest.agent_id rq)
                        (Deployment.agent_id dep))
                     "STOP_COMPOSE" "queued" None None (job_created_at e)
                     (job_updated_at e)]))
           (connection_manager st),
         Ok (StopResponse.mk (uuid4 e) "queued"
               ("Stop command queued for project " ++ p)),
         [EvSendText ws (Command.mk (uuid4 e) STOP_COMPOSE (StopPayload p))]))
  /\ (forall ws,
        ConnectionManager.active_connections (connection_manager st)
          !! Deployment.agent_id dep = Some ws ->
        get_project_status p e st
        = (mkState
             (mkDatabase (agents (store st)) (deployments (store st))
                (jobs (store st)
                 ++ [Job.mk (uuid4 e) (Some (Deployment.id dep))
                       (Deployment.agent_id dep) "STATUS" "queued" None None
                       (job_created_at e) (job_updated_at e)]))
             (connection_manager st),
           Ok (StatusResponse.mk (uuid4 e) "queued"
                 ("Status check queued for project " ++ p)),
           [EvSendText ws (Command.mk (uuid4 e) STATUS (StatusPayload p))])).
Proof.
  intros Hdep Hfresh Hsend. split.
  - intros rq ws Hws. unfold stop_project. rewrite Hdep.
    assert (ConnectionManager.is_connected
              (int_or (StopRequest.agent_id rq) (Deployment.agent_id dep))
              (connection_manager st) = true) as ->.
    { unfold ConnectionManager.is_connected. apply bool_decide_eq_true.
      by eexists. }
    simpl. by rewrite (create_job_and_send_success _ _ _ _ _ _ _ _ ws).
  - intros ws Hws. unfold get_project_status. rewrite Hdep.
    assert (ConnectionManager.is_connected (Deployment.agent_id dep)
              (connection_manager st) = true) as ->.
    { unfold ConnectionManager.is_connected. apply bool_decide_eq_true.
      by eexists. }
    simpl. by rewrite (create_job_and_send_success _ _ _ _ _ _ _ _ ws).
Qed.

Lemma stop_and_status_success_witness :
  jobs (store (fst (fst (stop_project "x" (StopRequest.mk None)
                           (mkEnv "S" 40 41 true) Scenario.dispatched))))
  = [Scenario.job_J;
     Job.mk "S" (Some 1) 1 "STOP_COMPOSE" "queued" None None 40 41]
  /\ snd (stop_project "x" (StopRequest.mk None) (mkEnv "S" 40 41 true)
            Scenario.dispatched)
     = [EvSendText 7%nat (Command.mk "S" STOP_COMPOSE (StopPayload "x"))].
Proof.
  pose proof (proj1 (stop_and_status_success Scenario.dispatched "x"
                       (mkEnv "S" 40 41 true) Scenario.deployment_x
                       eq_refl eq_refl eq_refl)
                (StopRequest.mk None) 7%nat eq_refl) as H.
  split; [exact (f_equal (fun out => jobs (store (fst (fst out)))) H) |].
  exact (f_equal snd H).
Defined.

(** ** Replies, end to end *)

(** X20: dispatch and reply compose. After a successful deploy request, a
    reply that carries the returned job id makes the job [completed] and
    the new deployment [running] when its status is [COMPLETED], and makes
    both [failed] when its status is [FAILED]; job and deployment carry the
    logs and error of the reply. *)
Theorem deploy_then_reply (st : State) (rq : DeployRequest.t)
    (t1 t2 t3 t4 : datetime) (e : Env) (agent : Agent.t) (ws : WebSocket)
    (r : Response.t) :
  find_target_agent rq (store st) = Ok agent ->
  ConnectionManager.active_connections (connection_manager st)
    !! Agent.id agent = Some ws ->
  select_job (uuid4 e) (store st) = None ->
  send_ok e = true ->
  Response.job_id r = uuid4 e ->
  let st1 := fst (fst (deploy_project rq t1 t2 e st)) in
  let st2 := ws_reply r t3 t4 st1 in
  let d := Deployment.id (pending_deployment rq agent t1 t2 (store st)) in
  exists j dep,
    select_job (uuid4 e) (store st2) = Some j
    /\ select_deployment d (store st2) = Some dep
    /\ Job.logs j = Some (Response.logs r)
    /\ Job.error j = Response.error r
    /\ Deployment.last_logs dep = Some (Response.logs r)
    /\ Deployment.last_error dep = Response.error r
    /\ (Response.status r = COMPLETED ->
        Job.status j = "completed" /\ Deployment.status dep = "running")
    /\ (Response.status r = FAILED ->
        Job.status j = "failed" /\ Deployment.status dep = "failed").
Proof.
  intros Hag Hws Hfresh Hsend Hid st1 st2 d.
  assert (ConnectionManager.is_connected (Agent.id agent)
            (connection_manager st) = true) as Hconn.
  { unfold ConnectionManager.is_connected. apply bool_decide_eq_true.
    by eexists. }
  subst st2 st1. unfold deploy_project. rewrite Hag, Hconn. simpl.
  rewrite (create_job_and_send_success _ _ _ _ _ _ _ _ ws) by done. simpl.
  set (deployment := pending_deployment rq agent t1 t2 (store st)) in *.
  set (db1 := mkDatabase (agents (store st))
                (deployments (store st) ++ [deployment])
                (jobs (store st)
                 ++ [queued_job (Deployment.id deployment) (Agent.id agent)
                       DEPLOY_COMPOSE e])).
  assert (select_job (Response.job_id r) db1
          = Some (queued_job (Deployment.id deployment) (Agent.id agent)
                    DEPLOY_COMPOSE e)) as Hj.
  { rewrite Hid. subst db1.
    by apply (select_job_appended (uuid4 e) _
                (insert_deployment deployment (store st))). }
  assert (select_deployment d db1 = Some deployment) as Hd.
  { subst d db1.
    exact (select_deployment_insert_fresh deployment (store st) eq_refl). }
  assert (d <> 0) as Hne.
  { subst d deployment. simpl.
    pose proof (next_id_pos (map Deployment.id (deployments (store st)))).
    lia. }
  exists (job_of_reply r t3
            (queued_job (Deployment.id deployment) (Agent.id agent)
               DEPLOY_COMPOSE e)),
    (deployment_of_reply r "DEPLOY_COMPOSE" t4 deployment).
  split; [rewrite <- Hid; by apply handle_response_select_job |].
  split.
  { by apply (handle_response_select_deployment r t3 t4 db1
                (queued_job (Deployment.id deployment) (Agent.id agent)
                   DEPLOY_COMPOSE e)). }
  simpl. unfold reply_deployment_status.
  split; [done |]. split; [done |]. split; [done |]. split; [done |].
  split; intros ->; done.
Qed.

Lemma deploy_then_reply_witness :
  exists j dep,
    select_job "J"
      (store (ws_reply Scenario.reply_completed 30 31
                (fst (fst (deploy_project Scenario.deploy_x 15 16
                             Scenario.env_J Scenario.connected)))))
    = Some j
    /\ select_deployment 1
         (store (ws_reply Scenario.reply_completed 30 31
                   (fst (fst (deploy_project Scenario.deploy_x 15 16
                                Scenario.env_J Scenario.connected)))))
       = Some dep
    /\ Job.status j = "completed"
    /\ Deployment.status dep = "running".
Proof.
  destruct (deploy_then_reply Scenario.connected Scenario.deploy_x 15 16 30 31
              Scenario.env_J
              (Agent.mk 1 "web-1" (Some "10.0.0.1") "online" 10 (Some "1.0")
                 (Some "amd64") 11)
              7%nat Scenario.reply_completed
              eq_refl eq_refl eq_refl eq_refl eq_refl)
    as (j & dep & Hj & Hdep & _ & _ & _ & _ & Hdone & _).
  exists j, dep. split; [exact Hj |]. split; [exact Hdep |].
  exact (Hdone eq_refl).
Defined.

Lemma select_deployment_update_other k id f db :
  (forall d, Deployment.id (f d) = Deployment.id d) ->
  id <> k ->
  select_deployment k (update_deployment id f db) = select_deployment k db.
Proof.
  intros Hf Hne. rewrite select_deployment_update_deployment by done.
  destruct (select_deployment k db) as [d|] eqn:Hd; simpl; [| done].
  apply select_deployment_id in Hd.
  destruct (Deployment.id d =? id) eqn:E; [| done]. lia.
Qed.

(** X21: a deploy job and a stop job of the same deployment, each answered
    by a [COMPLETED] reply: the deployment ends in the status of the reply
    processed last, [stopped] when the stop reply comes second and
    [running] when the deploy reply comes second. *)
Theorem last_reply_decides_deployment_status (st : State)
    (jd js : Job.t) (d : Z) (dep : Deployment.t) (rd rs : Response.t)
    (t1 t2 t3 t4 : datetime) :
  reachable st ->
  select_job (Response.job_id rd) (store st) = Some jd ->
  select_job (Response.job_id rs) (store st) = Some js ->
  Response.job_id rd <> Response.job_id rs ->
  Job.command_type jd = "DEPLOY_COMPOSE" ->
  Job.command_type js = "STOP_COMPOSE" ->
  Job.deployment_id jd = Some d ->
  Job.deployment_id js = Some d ->
  select_deployment d (store st) = Some dep ->
  Response.status rd = COMPLETED ->
  Response.status rs = COMPLETED ->
  (exists dep',
      select_deployment d
        (store (ws_reply rs t3 t4 (ws_reply rd t1 t2 st))) = Some dep'
      /\ Deployment.status dep' = "stopped")
  /\ (exists dep',
        select_deployment d
          (store (ws_reply rd t3 t4 (ws_reply rs t1 t2 st))) = Some dep'
        /\ Deployment.status dep' = "running").
Proof.
  intros Hreach Hjd Hjs Hne Hcd Hcs Hdd Hds Hdep Hrd Hrs.
  assert (d <> 0) as Hd0.
  { pose proof (reachable_deployment_ids st Hreach dep
                  (select_deployment_In _ _ _ Hdep)) as Hpos.
    rewrite (select_deployment_id _ _ _ Hdep) in Hpos. lia. }
  split; simpl.
  - eexists. split.
    + apply (handle_response_select_deployment rs t3 t4 _ js d); try done.
      * by rewrite handle_response_select_other.
      * by apply (handle_response_select_deployment rd t1 t2 _ jd d).
    + simpl. by rewrite Hrs, Hcs.
  - eexists. split.
    + apply (handle_response_select_deployment rd t3 t4 _ jd d); try done.
      * rewrite handle_response_select_other; [done | congruence].
      * by apply (handle_response_select_deployment rs t1 t2 _ js d).
    + simpl. by rewrite Hrd, Hcd.
Qed.

Lemma last_reply_decides_deployment_status_witness :
  exists dep',
    select_deployment 1
      (store (ws_reply (Response.mk "S" COMPLETED "down" None None) 70 71
                (ws_reply Scenario.reply_completed 60 61
                   (run [Stop "x" (StopRequest.mk None) (mkEnv "S" 40 41 true)]
                      Scenario.dispatched))))
    = Some dep'
    /\ Deployment.status dep' = "stopped".
Proof.
  apply (last_reply_decides_deployment_status
           (run [Stop "x" (StopRequest.mk None) (mkEnv "S" 40 41 true)]
              Scenario.dispatched)
           Scenario.job_J
           (Job.mk "S" (Some 1) 1 "STOP_COMPOSE" "queued" None None 40 41)
           1 Scenario.deployment_x Scenario.reply_completed
           (Response.mk "S" COMPLETED "down" None None) 60 61 70 71);
    try reflexivity.
  - apply reachable_run, reachable_dispatched.
  - intros H. discriminate H.
Defined.

(** X22: a reply touches only the row of the job it names and the row of
    that job's deployment. The agents table is never changed; a reply whose
    job id names no job changes nothing at all; every other job row and
    every deployment row other than the one the job refers to is left as it
    was. *)
Theorem reply_touches_only_its_rows (r : Response.t) (t1 t2 : datetime)
    (db : Database) :
  agents (handle_response r t1 t2 db) = agents db
  /\ (select_job (Response.job_id r) db = None ->
      handle_response r t1 t2 db = db)
  /\ (forall k,
        k <> Response.job_id r ->
        select_job k (handle_response r t1 t2 db) = select_job k db)
  /\ (forall j d',
        select_job (Response.job_id r) db = Some j ->
        Job.deployment_id j <> Some d' ->
        select_deployment d' (handle_response r t1 t2 db)
        = select_deployment d' db).
Proof.
  split; [apply handle_response_agents |].
  split; [intros H; unfold handle_response; by rewrite H |].
  split; [intros k Hk; by apply handle_response_select_other |].
  intros j d' Hj Hd'. unfold handle_response. rewrite Hj.
  destruct (Job.deployment_id j) as [d|]; [| done].
  destruct (d =? 0); [done |].
  change (select_deployment d (update_job (Job.id j) (job_of_reply r t1) db))
    with (select_deployment d db).
  destruct (select_deployment d db) as [dep|] eqn:Hdep; [| done].
  rewrite select_deployment_update_other; [done | done |].
  rewrite (select_deployment_id _ _ _ Hdep). congruence.
Qed.

(** X23: a reply with status [IN_PROGRESS] or [QUEUED] is applied like any
    other: the job gets the status [in_progress] or [queued] whatever its
    status was, and the deployment it refers to keeps its status while its
    last logs, last error and update time are overwritten. *)
Theorem progress_reply_is_applied (st : State) (r : Response.t)
    (t1 t2 : datetime) (j : Job.t) (d : Z) (dep : Deployment.t) :
  reachable st ->
  select_job (Response.job_id r) (store st) = Some j ->
  Job.deployment_id j = Some d ->
  select_deployment d (store st) = Some dep ->
  Response.status r = IN_PROGRESS \/ Response.status r = QUEUED ->
  exists j' dep',
    select_job (Response.job_id r) (store (ws_reply r t1 t2 st)) = Some j'
    /\ select_deployment d (store (ws_reply r t1 t2 st)) = Some dep'
    /\ (Response.status r = IN_PROGRESS -> Job.status j' = "in_progress")
    /\ (Response.status r = QUEUED -> Job.status j' = "queued")
    /\ Deployment.status dep' = Deployment.status dep
    /\ Deployment.last_logs dep' = Some (Response.logs r)
    /\ Deployment.last_error dep' = Response.error r
    /\ Deployment.updated_at dep' = t2.
Proof.
  intros Hreach Hj Hd Hdep Hstatus.
  assert (d <> 0) as Hd0.
  { pose proof (reachable_deployment_ids st Hreach dep
                  (select_deployment_In _ _ _ Hdep)) as Hpos.
    rewrite (select_deployment_id _ _ _ Hdep) in Hpos. lia. }
  exists (job_of_reply r t1 j),
    (deployment_of_reply r (Job.command_type j) t2 dep).
  split; [by apply handle_response_select_job |].
  split; [by apply (handle_response_select_deployment r t1 t2 _ j) |].
  simpl. unfold reply_deployment_status.
  split; [by intros -> |]. split; [by intros -> |].
  split; [by destruct Hstatus as [-> | ->] |]. done.
Qed.

Lemma progress_reply_is_applied_witness :
  exists j',
    select_job "J"
      (store (ws_reply (Response.mk "J" QUEUED "again" None None) 80 81
                Scenario.completed))
    = Some j'
    /\ Job.status j' = "queued".
Proof.
  destruct (progress_reply_is_applied Scenario.completed
              (Response.mk "J" QUEUED "again" None None) 80 81
              (job_of_reply Scenario.reply_completed 30 Scenario.job_J) 1
              (deployment_of_reply Scenario.reply_completed "DEPLOY_COMPOSE"
                 31 Scenario.deployment_x)
              reachable_completed eq_refl eq_refl eq_refl
              (or_intror eq_refl))
    as (j' & dep' & Hj' & _ & _ & Hq & _).
  exists j'. split; [exact Hj' | exact (Hq eq_refl)].
Defined.


(** ** The agent a deploy request falls back to *)

Section first_online.

Lemma increasing_snoc l n :
  increasing l -> (forall y, In y l -> y < n) -> increasing (l ++ [n]).
Proof.
  induction l as [| x l IH]; simpl; [done |].
  intros [Hx Hl] Hn. split.
  - intros y Hy. apply in_app_iff in Hy as [Hy | [<- | []]]; [by apply Hx |].
    apply Hn. by left.
  - apply IH; [done |]. intros y Hy. apply Hn. by right.
Qed.

(** Agent rows are in the order of their ids. *)
Lemma reachable_agent_ids_increasing st :
  reachable st -> increasing (map Agent.id (agents (store st))).
Proof.
  induction 1 as [| o st Hst IH]; [done |].
  destruct (agents_step_ids _ _ (step_agents o st)) as [-> | ->]; [done |].
  apply increasing_snoc; [done |]. apply next_id_gt.
Qed.

Lemma find_increasing (p : Agent.t -> bool) l a :
  increasing (map Agent.id l) ->
  List.find p l = Some a ->
  forall b, In b l -> p b = true -> Agent.id a <= Agent.id b.
Proof.
  induction l as [| x l IH]; simpl; [done |].
  intros [Hx Hl] Hfind b Hb Hpb.
  destruct (p x) eqn:Hpx.
  - injection Hfind as <-. destruct Hb as [<- | Hb]; [lia |].
    specialize (Hx (Agent.id b) (in_map Agent.id _ _ Hb)). lia.
  - destruct Hb as [<- | Hb]; [congruence |]. by apply IH.
Qed.

End first_online.

(** X24: in every reachable state, with the agent rows read in row order, a
    deploy request that names no agent targets an [online] agent row, and
    among the [online] rows the one with the smallest id, whether or not
    that agent is connected. *)
Theorem deploy_targets_first_online (st : State) (rq : DeployRequest.t)
    (a : Agent.t) :
  reachable st ->
  DeployRequest.agent_id rq = None ->
  find_target_agent rq (store st) = Ok a ->
  Agent.status a = "online"
  /\ forall b,
       In b (agents (store st)) -> Agent.status b = "online" ->
       Agent.id a <= Agent.id b.
Proof.
  intros Hreach Hrq. unfold find_target_agent. rewrite Hrq. simpl.
  unfold select_online_agent.
  destruct (List.find _ _) as [x|] eqn:Hfind; [| done].
  intros [= ->]. split.
  - apply List.find_some in Hfind as [_ H]. by apply String.eqb_eq.
  - intros b Hb Hon.
    apply (find_increasing _ _ _ (reachable_agent_ids_increasing st Hreach)
             Hfind b Hb).
    by apply String.eqb_eq.
Qed.

Lemma deploy_targets_first_online_witness :
  Agent.status
    (Agent.mk 1 "web-1" (Some "10.0.0.1") "online" 10 (Some "1.0")
       (Some "amd64") 11)
  = "online"
  /\ forall b,
       In b (agents (store Scenario.connected)) ->
       Agent.status b = "online" ->
       Agent.id
         (Agent.mk 1 "web-1" (Some "10.0.0.1") "online" 10 (Some "1.0")
            (Some "amd64") 11)
       <= Agent.id b.
Proof.
  exact (deploy_targets_first_online Scenario.connected Scenario.deploy_x
           (Agent.mk 1 "web-1" (Some "10.0.0.1") "online" 10 (Some "1.0")
              (Some "amd64") 11)
           reachable_connected eq_refl eq_refl).
Defined.

(** ** The connection manager inside the control plane *)

Section manager_in_system.

(** What one step does to the connection manager. *)
Lemma step_manager_cases o st :
  connection_manager (step o st) = connection_manager st
  \/ (exists a,
        connection_manager (step o st)
        = ConnectionManager.disconnect a (connection_manager st))
  \/ (exists a h ws ag,
        connection_manager (step o st)
        = fst (ConnectionManager.connect a h ws true (connection_manager st))
        /\ In ag (agents (store (step o st)))
        /\ Agent.id ag = a
        /\ Agent.hostname ag = h).
Proof.
  destruct o as [h ws ok t1 t2 | r t1 t2 | b now | rq t1 t2 e | p rq e | p e];
    simpl.
  - destruct (authorized h) eqn:Hauth;
      [| unfold ws_open; rewrite Hauth; by left].
    rewrite (ws_open_authorized h ws ok t1 t2 st Hauth). simpl.
    destruct ok; [| by left].
    right; right.
    destruct (register_agent_select (handshake_hostname h)
                (str_or (x_agent_version h) "unknown")
                (str_or (x_agent_architecture h) "unknown")
                (client_host h) t1 t2 (store st)) as (ag & Hag & Hid & _).
    eexists _, _, _, ag. split; [reflexivity |].
    split; [| split; [exact Hid |]].
    + unfold select_agent_by_hostname in Hag.
      by apply List.find_some in Hag as [? _].
    + by apply (select_agent_by_hostname_hostname _ _ _ Hag).
  - by left.
  - right; left. exists b. apply ws_close_connection_manager.
  - unfold deploy_project.
    destruct (find_target_agent rq (store st)) as [ag | | |]; [| by left ..].
    destruct (ConnectionManager.is_connected (Agent.id ag) _); [| by left].
    cbn [negb].
    match goal with
    | |- context [create_job_and_send ?d ?a ?ty ?pl ?e ?ok ?db ?cm] =>
        destruct (create_job_and_send_manager d a ty pl e ok db cm)
          as [H | H]
    end; [by left | right; left; by eexists].
  - unfold stop_project.
    destruct (select_latest_deployment _ _) as [dep|]; [| by left].
    destruct (ConnectionManager.is_connected _ _); [| by left].
    cbn [negb].
    match goal with
    | |- context [create_job_and_send ?d ?a ?ty ?pl ?e ?ok ?db ?cm] =>
        destruct (create_job_and_send_manager d a ty pl e ok db cm)
          as [H | H]
    end; [by left | right; left; by eexists].
  - unfold get_project_status.
    destruct (select_latest_deployment _ _) as [dep|]; [| by left].
    destruct (ConnectionManager.is_connected _ _); [| by left].
    cbn [negb].
    match goal with
    | |- context [create_job_and_send ?d ?a ?ty ?pl ?e ?ok ?db ?cm] =>
        destruct (create_job_and_send_manager d a ty pl e ok db cm)
          as [H | H]
    end; [by left | right; left; by eexists].
Qed.

Lemma agents_step_In l l' ag :
  agents_step l l' -> In ag l ->
  exists ag',
    In ag' l' /\ Agent.id ag' = Agent.id ag
    /\ Agent.hostname ag' = Agent.hostname ag.
Proof.
  intros [(g & -> & Hg) | (x & -> & _)] Hin.
  - exists (g ag). split; [by apply in_map |].
    destruct (Hg ag) as (-> & -> & _). done.
  - exists ag. split; [apply in_app_iff; by left | done].
Qed.

Lemma step_hostnames_agree o st :
  hostnames_agree st -> hostnames_agree (step o st).
Proof.
  intros Hst a h Hlook.
  assert (forall ag, In ag (agents (store st)) ->
            exists ag', In ag' (agents (store (step o st)))
                        /\ Agent.id ag' = Agent.id ag
                        /\ Agent.hostname ag' = Agent.hostname ag) as Hkeep
    by (intros ag; apply agents_step_In, step_agents).
  assert (ConnectionManager.agent_hostnames (connection_manager st) !! a
          = Some h ->
          exists ag, In ag (agents (store (step o st)))
                     /\ Agent.id ag = a /\ Agent.hostname ag = h) as Hold.
  { intros H. destruct (Hst a h H) as (ag & Hin & <- & <-).
    by apply Hkeep. }
  destruct (step_manager_cases o st)
    as [E | [(b & E) | (b & hb & ws & ag & E & Hin & Hid & Hh)]];
    rewrite E in Hlook.
  - by apply Hold.
  - apply Hold. revert Hlook. unfold ConnectionManager.disconnect.
    destruct (ConnectionManager.active_connections _ !! b); [| done]. simpl.
    destruct (ConnectionManager.agent_hostnames _ !! b) eqn:Hb; [| done].
    destruct (decide (a = b)) as [-> | Hne];
      [by rewrite lookup_delete_eq | by rewrite lookup_delete_ne].
  - simpl in Hlook. destruct (decide (a = b)) as [-> | Hne].
    + rewrite lookup_insert_eq in Hlook. injection Hlook as <-.
      by exists ag.
    + rewrite lookup_insert_ne in Hlook by done. by apply Hold.
Qed.

Lemma step_same_keys o st :
  same_keys (connection_manager st) -> same_keys (connection_manager (step o st)).
Proof.
  intros Hst.
  destruct (step_manager_cases o st)
    as [-> | [(b & ->) | (b & hb & ws & ag & -> & _)]].
  - done.
  - by apply same_keys_disconnect.
  - by apply same_keys_connect.
Qed.

End manager_in_system.

(** X25: in every reachable state of the control plane the two dictionaries
    of the connection manager have the same keys, and the hostname held for
    a connected agent id is the hostname of an agent row with that id. *)
Theorem reachable_manager_consistent (st : State) :
  reachable st ->
  same_keys (connection_manager st) /\ hostnames_agree st.
Proof.
  induction 1 as [| o st Hst [IH1 IH2]].
  - split; [apply same_keys_init |]. intros a h H. simpl in H.
    by rewrite lookup_empty in H.
  - split; [by apply step_same_keys | by apply step_hostnames_agree].
Qed.

Lemma reachable_manager_consistent_witness :
  same_keys (connection_manager Scenario.dispatched)
  /\ hostnames_agree Scenario.dispatched.
Proof.
  exact (reachable_manager_consistent Scenario.dispatched
           reachable_dispatched).
Defined.
